(** * webdavfs: a shallow embedding of the WebDAV client filesystem

    The development follows the Go sources of the package:
    - [GoPath] and [GoStrings]: the parts of Go's [path] and [strings]
      packages the client calls ([path.Clean], [path.Join], [path.Base],
      [path.IsAbs], [strings.TrimPrefix], [strings.HasSuffix]);
    - the error values and [httpStatusToOSError];
    - [Config] and its validation;
    - the property codec ([parseFileInfo], [parseWebDAVTime]);
    - the protocol client ([buildURL], [doRequest], [propfind], [stat],
      [readDir], [put], [proppatch]) over an explicit network state;
    - the filesystem facade ([cleanPath], [OpenFile], [Chtimes]);
    - the open handle ([Write], [Sync], [Close], [Seek], [Readdir]).

    What lies outside the package (HTTP transport and remote server, URL
    and XML parsing, the clock) is the class [Externals].  The second
    part proves the properties of the specification, C1 to C10. *)

From Stdlib Require Import ZArith Ascii String List Bool Lia DecimalString DecimalPos DecimalZ.
From stdpp Require Import base strings list gmap.

Open Scope Z_scope.

(** ** Go strings as lists of bytes

    Go strings are byte sequences; the path functions index them byte by
    byte.  The records below keep [string]; the path functions work on the
    underlying [list ascii]. *)

Abbreviation chars := list_ascii_of_string.
Abbreviation str := string_of_list_ascii.

Definition slash : ascii := "/"%char.
Definition dot : ascii := "."%char.

Definition is_slash (c : ascii) : bool := Ascii.eqb c slash.
Definition is_dot (c : ascii) : bool := Ascii.eqb c dot.

Module GoStrings.

(** [strings.TrimPrefix(s, "/")] on the bytes of [s]. *)
Definition trimSlashPrefix (s : list ascii) : list ascii :=
  match s with
  | c :: s' => if is_slash c then s' else s
  | [] => []
  end.

Definition TrimPrefixSlash (s : string) : string := str (trimSlashPrefix (chars s)).

(** [strings.HasSuffix(s, "/")]. *)
Definition HasSuffixSlash (s : string) : bool :=
  match rev (chars s) with
  | c :: _ => is_slash c
  | [] => false
  end.

End GoStrings.

Module GoPath.

(** *** [path.Clean]

    The library writes into a [lazybuf]; [out] below is that buffer with
    the most recently written byte first, so [out.w] is [length out] and
    [out.append c] is [c :: out]. *)

(** The [..] case: [out.w--] and then
    [for out.w > dotdot && out.index(out.w) != '/' { out.w-- }].
    [out.index(out.w)] is the byte that was dropped last. *)
Fixpoint backtrack (dotdot : nat) (out : list ascii) : list ascii :=
  match out with
  | [] => []
  | c :: out' =>
      if (dotdot <? length out')%nat && negb (is_slash c)
      then backtrack dotdot out'
      else out'
  end.

(** [atBoundary rest]: [r+k == n || path[r+k] == '/'] where [rest] is
    [path[r+k:]]. *)
Definition atBoundary (rest : list ascii) : bool :=
  match rest with
  | [] => true
  | c :: _ => is_slash c
  end.

(** The [..] element with [out.w > dotdot] or not. *)
Definition dotdotStep (rooted : bool) (out : list ascii) (dotdot : nat)
  : list ascii * nat :=
  if (dotdot <? length out)%nat then (backtrack dotdot out, dotdot)
  else if negb rooted then
    let out1 := if (0 <? length out)%nat then slash :: out else out in
    let out2 := dot :: dot :: out1 in
    (out2, length out2)
  else (out, dotdot).

(** "add slash if needed" at the start of a real path element. *)
Definition addSlash (rooted : bool) (out : list ascii) : list ascii :=
  if (rooted && negb (length out =? 1)%nat) || (negb rooted && negb (length out =? 0)%nat)
  then slash :: out else out.

(** The main loop [for r < n].  [path] is [path[r:]].  The inner loop
    that copies a real path element is the [inElem = true] mode: it
    copies bytes up to the next ['/'], which the outer loop then skips
    as an empty element. *)
Fixpoint cleanLoop (rooted inElem : bool) (path : list ascii)
    (out : list ascii) (dotdot : nat) : list ascii :=
  match path with
  | [] => out
  | c :: rest =>
      if inElem then
        if is_slash c then cleanLoop rooted false rest out dotdot
        else cleanLoop rooted true rest (c :: out) dotdot
      else if is_slash c then
        cleanLoop rooted false rest out dotdot
      else if is_dot c && atBoundary rest then
        cleanLoop rooted false rest out dotdot
      else
        match rest with
        | c2 :: rest2 =>
            if is_dot c && is_dot c2 && atBoundary rest2 then
              let '(out', dotdot') := dotdotStep rooted out dotdot in
              cleanLoop rooted false rest2 out' dotdot'
            else cleanLoop rooted true rest (c :: addSlash rooted out) dotdot
        | [] => cleanLoop rooted true rest (c :: addSlash rooted out) dotdot
        end
  end.

Definition cleanChars (path : list ascii) : list ascii :=
  match path with
  | [] => [dot]
  | c :: rest =>
      let out :=
        if is_slash c then cleanLoop true false rest [slash] 1
        else cleanLoop false false path [] 0 in
      match out with
      | [] => [dot]
      | _ => rev out
      end
  end.

Definition Clean (path : string) : string := str (cleanChars (chars path)).

(** *** [path.Join]: empty elements are ignored until the buffer is
    non-empty, the rest is joined with ['/'] and cleaned; all-empty input
    gives the empty string. *)
Fixpoint joinBuf (buf : list ascii) (elem : list (list ascii)) : list ascii :=
  match elem with
  | [] => buf
  | e :: elem' =>
      match buf, e with
      | [], [] => joinBuf buf elem'
      | [], _ => joinBuf e elem'
      | _, _ => joinBuf (buf ++ slash :: e) elem'
      end
  end.

Definition joinChars (elem : list (list ascii)) : list ascii :=
  if forallb (fun e => (length e =? 0)%nat) elem then []
  else cleanChars (joinBuf [] elem).

Definition Join (elem : list string) : string := str (joinChars (map chars elem)).

(** *** [path.Base] *)
Fixpoint stripTrailingSlashes (rpath : list ascii) : list ascii :=
  match rpath with
  | c :: r => if is_slash c then stripTrailingSlashes r else rpath
  | [] => []
  end.

(** The bytes after the last slash, read off the reversed path. *)
Fixpoint lastElem (rpath : list ascii) (acc : list ascii) : list ascii :=
  match rpath with
  | c :: r => if is_slash c then acc else lastElem r (c :: acc)
  | [] => acc
  end.

Definition baseChars (path : list ascii) : list ascii :=
  match path with
  | [] => [dot]
  | _ =>
      match lastElem (stripTrailingSlashes (rev path)) [] with
      | [] => [slash]
      | e => e
      end
  end.

Definition Base (path : string) : string := str (baseChars (chars path)).

(** [path.IsAbs] *)
Definition IsAbs (path : string) : bool :=
  match chars path with
  | c :: _ => is_slash c
  | [] => false
  end.

End GoPath.


(** ** Machine integers

    Go's [int] and [int64] are 64-bit two's complement on the supported
    platforms; arithmetic wraps around. *)

Definition minInt64 : Z := - 2 ^ 63.
Definition maxInt64 : Z := 2 ^ 63 - 1.

Definition inInt64 (z : Z) : bool := (minInt64 <=? z) && (z <=? maxInt64).

Definition wrap64 (z : Z) : Z := (z + 2 ^ 63) mod 2 ^ 64 - 2 ^ 63.

Definition add64 (a b : Z) : Z := wrap64 (a + b).

(** [fmt.Sprintf("%d", z)] *)
Definition fmtInt (z : Z) : string := DecimalString.NilZero.string_of_int (Z.to_int z).

(** ** Errors

    The error values of the package ([ConfigError], [WebDAVError],
    [FileClosedError], [InvalidSeekError]) and the ones of the Go library
    it returns: [os.PathError] wrapping another error, the sentinels of
    [os] and [io], [fmt.Errorf] values, and the opaque errors of [net/url],
    [net/http] and [encoding/xml]. *)

Inductive error : Type :=
| ConfigError (Field Reason : string)
| WebDAVError (StatusCode : Z) (Method Path Message : string)
| FileClosedError (Path : string)
| InvalidSeekError (Offset Whence : Z)
| PathError (Op Path : string) (Err : error)
| ErrNotExist
| ErrExist
| ErrPermission
| ErrInvalid
| EOF
| Errorf (msg : string)
| LibError (pkg msg : string).

(** The [Error] methods: those of the package, and the texts of the
    library errors. *)
Fixpoint Error (e : error) : string :=
  match e with
  | ConfigError Field Reason => "config error: " +:+ Field +:+ ": " +:+ Reason
  | WebDAVError StatusCode Method Path Message =>
      "webdav " +:+ Method +:+ " " +:+ Path +:+ ": status " +:+ fmtInt StatusCode
      +:+ ": " +:+ Message
  | FileClosedError Path => "file already closed: " +:+ Path
  | InvalidSeekError Offset Whence =>
      "invalid seek: offset=" +:+ fmtInt Offset +:+ " whence=" +:+ fmtInt Whence
  | PathError Op Path Err => Op +:+ " " +:+ Path +:+ ": " +:+ Error Err
  | ErrNotExist => "file does not exist"
  | ErrExist => "file already exists"
  | ErrPermission => "permission denied"
  | ErrInvalid => "invalid argument"
  | EOF => "EOF"
  | Errorf msg => msg
  | LibError _ msg => msg
  end.

(** [os.IsNotExist]: one level of [PathError] is unwrapped and the result
    compared with [os.ErrNotExist]. *)
Definition underlyingError (e : error) : error :=
  match e with
  | PathError _ _ e' => e'
  | _ => e
  end.

Definition IsNotExist (e : error) : bool :=
  match underlyingError e with
  | ErrNotExist => true
  | _ => false
  end.

(** [httpStatusToOSError] *)
Definition httpStatusToOSError (statusCode : Z) (path : string) : error :=
  if statusCode =? 404 then PathError "stat" path ErrNotExist
  else if statusCode =? 403 then PathError "access" path ErrPermission
  else if statusCode =? 409 then PathError "create" path ErrNotExist
  else if statusCode =? 412 then PathError "create" path ErrExist
  else if statusCode =? 423 then PathError "access" path ErrPermission
  else if statusCode =? 507 then PathError "write" path (Errorf "insufficient storage")
  else PathError "webdav" path (Errorf ("http status " +:+ fmtInt statusCode)).

(** ** Configuration *)

Record Config : Type := mkConfig {
  URL : string;
  Username : string;
  Password : string;
  BearerToken : string;
  Timeout : Z;
  TempDir : string
}.

Definition nonEmpty (s : string) : bool := negb (String.eqb s "").

(** [Config.validate]; [None] is the [nil] error. *)
Definition validate (c : Config) : option error :=
  if String.eqb (URL c) "" then
    Some (ConfigError "URL" "URL is required")
  else if nonEmpty (BearerToken c) && (nonEmpty (Username c) || nonEmpty (Password c)) then
    Some (ConfigError "Authentication"
            "BearerToken and Username/Password are mutually exclusive")
  else None.

(** ** Property codec *)

Record resourceType : Type := { Collection : bool }.

Record prop : Type := {
  DisplayName : string;
  GetContentLength : string;
  GetLastModified : string;
  ResourceType : resourceType;
  GetETag : string;
  GetContentType : string;
  CreationDate : string
}.

Record propstat : Type := { Prop_ : prop; Status : string }.

Record response : Type := { Href : string; Propstat : propstat }.

Record multistatus : Type := { Responses : list response }.

(** [strconv.ParseInt(s, 10, 64)]: an optional sign, then one or more
    decimal digits; a value outside [int64] is an error. *)
Definition digitVal (c : ascii) : option Z :=
  let n := Z.of_nat (nat_of_ascii c) in
  if (48 <=? n) && (n <=? 57) then Some (n - 48) else None.

Fixpoint parseDigits (acc : Z) (s : list ascii) : option Z :=
  match s with
  | [] => Some acc
  | c :: s' =>
      match digitVal c with
      | Some d => parseDigits (10 * acc + d) s'
      | None => None
      end
  end.

Definition ParseInt (s : string) : option Z :=
  let '(neg, ds) :=
    match chars s with
    | c :: r =>
        if Ascii.eqb c "+"%char then (false, r)
        else if Ascii.eqb c "-"%char then (true, r)
        else (false, c :: r)
    | [] => (false, [])
    end in
  match ds with
  | [] => None
  | _ =>
      match parseDigits 0 ds with
      | Some v =>
          let z := if neg : bool then - v else v in
          if inInt64 z then Some z else None
      | None => None
      end
  end.

(** [os.FileMode] bits *)
Definition ModeDir : Z := 2 ^ 31.
Definition mode0644 : Z := 420.
Definition mode0755 : Z := 493.

(** [time.Time] values are kept as instants (Unix nanoseconds); the
    layouts of package [time] are the layout strings themselves. *)
Definition Time : Type := Z.

Definition RFC1123 : string := "Mon, 02 Jan 2006 15:04:05 MST".
Definition RFC3339 : string := "2006-01-02T15:04:05Z07:00".
Definition RFC1123Z : string := "Mon, 02 Jan 2006 15:04:05 -0700".

(** [fileInfo] implements [os.FileInfo]. *)
Record fileInfo : Type := mkFileInfo {
  name : string;
  size : Z;
  mode : Z;
  modTime : Time;
  isDir : bool
}.

Module url.

(** [url.URL]; only [Path] is read and written by the client. *)
Record URL : Type := mkURL {
  Scheme : string;
  Host : string;
  Path : string;
  RawQuery : string
}.

End url.

(** ** The HTTP exchange *)

Record Request : Type := mkRequest {
  Method : string;
  ReqURL : url.URL;
  Body : option (list ascii);
  Header : gmap string string
}.

Record Response : Type := mkResponse {
  StatusCode : Z;
  RespBody : string
}.

(** What [http.Client.Do] gives back.  A request body is an [io.Reader]
    that the transport reads from, and how much of it has been read when
    the call returns is the transport's business: [consumed] bytes, when
    the exchange fails and also when a response comes back (a response
    can arrive before the body has been read to its end). *)
Inductive doOutcome : Type :=
| DoError (err : error) (consumed : nat)
| DoResponse (resp : Response) (consumed : nat).

(** The collaborators outside the package: the remote end reached through
    [http.Client.Do] (a transition on the state [World] of network and
    server), the clock, and the library parsers and printers whose
    results the client only passes on. *)
Class Externals : Type := {
  World : Type;
  clientDo : Request -> World -> doOutcome * World;
  urlParse : string -> error + url.URL;
  urlString : url.URL -> string;
  basicAuth : string -> string -> string;
  xmlDecode : string -> error + multistatus;
  timeNow : World -> Time;
  timeParse : string -> string -> option Time;
  timeFormatUTC : string -> Time -> string
}.

(** The state the client runs in: the remote world and, as a record of
    what went over the wire, the requests handed to [http.Client.Do] so
    far, oldest first. *)
Record Net `{Externals} : Type := mkNet {
  world : World;
  sent : list Request
}.

Section Codec.
Context `{Externals}.

(** [parseMultistatus] *)
Definition parseMultistatus (body : string) : error + multistatus :=
  xmlDecode body.

(** [parseWebDAVTime] *)
Fixpoint tryLayouts (formats : list string) (s : string) : option Time :=
  match formats with
  | [] => None
  | format :: formats' =>
      match timeParse format s with
      | Some t => Some t
      | None => tryLayouts formats' s
      end
  end.

Definition parseWebDAVTime (s : string) : error + Time :=
  match timeParse RFC1123 s with
  | Some t => inr t
  | None =>
      match timeParse RFC3339 s with
      | Some t => inr t
      | None =>
          match tryLayouts ["Mon, 02 Jan 2006 15:04:05 MST";
                            "Mon, 02 Jan 2006 15:04:05 GMT";
                            "2006-01-02T15:04:05Z";
                            RFC1123Z] s with
          | Some t => inr t
          | None => inl (PathError "parse" s ErrInvalid)
          end
      end
  end.

(** [parseFileInfo]; [now] is what [time.Now()] returns at the call. *)
Definition parseFileInfo (now : Time) (resp : response) (basePath : string)
  : error + fileInfo :=
  let href := GoStrings.TrimPrefixSlash (Href resp) in
  let name0 := GoPath.Base href in
  let name :=
    if String.eqb name0 "" || String.eqb name0 "/" then GoPath.Base basePath
    else name0 in
  let size :=
    if nonEmpty (GetContentLength (Prop_ (Propstat resp))) then
      match ParseInt (GetContentLength (Prop_ (Propstat resp))) with
      | Some v => v
      | None => 0
      end
    else 0 in
  let modTime :=
    if nonEmpty (GetLastModified (Prop_ (Propstat resp))) then
      match parseWebDAVTime (GetLastModified (Prop_ (Propstat resp))) with
      | inr t => t
      | inl _ => now
      end
    else now in
  let isDir := Collection (ResourceType (Prop_ (Propstat resp))) in
  let mode := if isDir then Z.lor mode0755 ModeDir else mode0644 in
  inr {| name := name; size := size; mode := mode; modTime := modTime; isDir := isDir |}.

Definition dq : string := String (ascii_of_nat 34) "".
Definition nl : string := String (ascii_of_nat 10) "".

(** [buildPropfindBody] *)
Definition buildPropfindBody : string :=
  "<?xml version=" +:+ dq +:+ "1.0" +:+ dq +:+ " encoding=" +:+ dq +:+ "utf-8" +:+ dq +:+ "?>" +:+ nl +:+
  "<D:propfind xmlns:D=" +:+ dq +:+ "DAV:" +:+ dq +:+ ">" +:+ nl +:+
  "  <D:prop>" +:+ nl +:+
  "    <D:displayname/>" +:+ nl +:+
  "    <D:getcontentlength/>" +:+ nl +:+
  "    <D:getlastmodified/>" +:+ nl +:+
  "    <D:resourcetype/>" +:+ nl +:+
  "    <D:getetag/>" +:+ nl +:+
  "    <D:getcontenttype/>" +:+ nl +:+
  "    <D:creationdate/>" +:+ nl +:+
  "  </D:prop>" +:+ nl +:+
  "</D:propfind>".

(** [buildProppatchBody] *)
Definition buildProppatchBody (modTime : Time) : string :=
  let timeStr := timeFormatUTC RFC1123 modTime in
  "<?xml version=" +:+ dq +:+ "1.0" +:+ dq +:+ " encoding=" +:+ dq +:+ "utf-8" +:+ dq +:+ "?>" +:+ nl +:+
  "<D:propertyupdate xmlns:D=" +:+ dq +:+ "DAV:" +:+ dq +:+ ">" +:+ nl +:+
  "  <D:set>" +:+ nl +:+
  "    <D:prop>" +:+ nl +:+
  "      <D:getlastmodified>" +:+ timeStr +:+ "</D:getlastmodified>" +:+ nl +:+
  "    </D:prop>" +:+ nl +:+
  "  </D:set>" +:+ nl +:+
  "</D:propertyupdate>".

End Codec.

(** ** Protocol client *)

Record webdavClient : Type := mkClient {
  baseURL : url.URL;
  username : string;
  password : string;
  bearerToken : string
}.

Definition setPath (u : url.URL) (p : string) : url.URL :=
  {| url.Scheme := url.Scheme u; url.Host := url.Host u;
     url.Path := p; url.RawQuery := url.RawQuery u |}.

Section Client.
Context `{Externals}.

(** [newWebDAVClient]: the base path is made to end with a separator. *)
Definition newWebDAVClient (config : Config) : error + webdavClient :=
  match urlParse (URL config) with
  | inl err => inl (ConfigError "URL" ("invalid URL: " +:+ Error err))
  | inr baseURL =>
      let baseURL :=
        if negb (GoStrings.HasSuffixSlash (url.Path baseURL))
        then setPath baseURL (url.Path baseURL +:+ "/")
        else baseURL in
      inr {| baseURL := baseURL; username := Username config;
             password := Password config; bearerToken := BearerToken config |}
  end.

(** [buildURL] *)
Definition buildURL (c : webdavClient) (pathStr : string) : error + url.URL :=
  let pathStr := GoPath.Clean ("/" +:+ GoStrings.TrimPrefixSlash pathStr) in
  match urlParse (urlString (baseURL c)) with
  | inl err => inl err
  | inr u => inr (setPath u (GoPath.Join [url.Path u; pathStr]))
  end.

(** What is left in a body reader after the transport read [consumed]
    bytes of it. *)
Definition afterRead (consumed : nat) (body : option (list ascii)) : option (list ascii) :=
  match body with
  | Some b => Some (drop consumed b)
  | None => None
  end.

(** "Add authentication": the bearer token first, else basic
    credentials, else nothing. *)
Definition authHeader (c : webdavClient) : gmap string string :=
  if nonEmpty (bearerToken c) then
    {[ "Authorization" := "Bearer " +:+ bearerToken c ]}
  else if nonEmpty (username c) || nonEmpty (password c) then
    {[ "Authorization" := basicAuth (username c) (password c) ]}
  else ∅.

(** [doRequest].  [http.NewRequest] parses [reqURL.String()] again; the
    methods passed are the fixed WebDAV verbs, all valid.  Besides the
    response or error, the result tells what is left in [body]. *)
Definition doRequest (c : webdavClient) (method pathStr : string)
    (body : option (list ascii)) (headers : gmap string string) (n : Net)
  : (error + Response) * option (list ascii) * Net :=
  match buildURL c pathStr with
  | inl err => (inl err, body, n)
  | inr reqURL =>
      match urlParse (urlString reqURL) with
      | inl err => (inl err, body, n)
      | inr u =>
          let req := {| Method := method; ReqURL := u; Body := body;
                        Header := headers ∪ authHeader c |} in
          let '(o, w') := clientDo req (world n) in
          let n' := {| world := w'; sent := sent n ++ [req] |} in
          match o with
          | DoError err consumed =>
              (inl (PathError method pathStr err), afterRead consumed body, n')
          | DoResponse resp consumed => (inr resp, afterRead consumed body, n')
          end
      end
  end.

(** The headers of a PROPFIND: the content type and
    [fmt.Sprintf("%d", depth)]. *)
Definition propfindHeaders (depth : Z) : gmap string string :=
  {[ "Content-Type" := "application/xml"; "Depth" := fmtInt depth ]}.

(** [propfind] *)
Definition propfind (c : webdavClient) (pathStr : string) (depth : Z) (n : Net)
  : (error + multistatus) * Net :=
  let headers := propfindHeaders depth in
  let body := buildPropfindBody in
  match doRequest c "PROPFIND" pathStr (Some (chars body)) headers n with
  | (inl err, _, n') => (inl err, n')
  | (inr resp, _, n') =>
      if StatusCode resp =? 404 then
        (inl (PathError "stat" pathStr ErrNotExist), n')
      else if negb (StatusCode resp =? 207) then
        (inl (WebDAVError (StatusCode resp) "PROPFIND" pathStr (RespBody resp)), n')
      else
        match parseMultistatus (RespBody resp) with
        | inl err => (inl (PathError "propfind" pathStr err), n')
        | inr ms => (inr ms, n')
        end
  end.

(** [stat] *)
Definition stat (c : webdavClient) (pathStr : string) (n : Net)
  : (error + fileInfo) * Net :=
  match propfind c pathStr 0 n with
  | (inl err, n') => (inl err, n')
  | (inr ms, n') =>
      match Responses ms with
      | [] => (inl (PathError "stat" pathStr ErrNotExist), n')
      | r0 :: _ => (parseFileInfo (timeNow (world n')) r0 pathStr, n')
      end
  end.

(** The loop of [readDir] over [ms.Responses[1:]]; [infos] is [None] for
    a nil slice, and [append] makes it non-nil. *)
Fixpoint readDirLoop (now : Time) (pathStr : string) (rs : list response)
    (infos : option (list fileInfo)) : option (list fileInfo) :=
  match rs with
  | [] => infos
  | r :: rs' =>
      match parseFileInfo now r pathStr with
      | inl _ => readDirLoop now pathStr rs' infos
      | inr info =>
          readDirLoop now pathStr rs'
            (Some (match infos with Some l => l ++ [info] | None => [info] end))
      end
  end.

(** "Ensure path ends with / for directory listing" *)
Definition dirPath (pathStr : string) : string :=
  if negb (GoStrings.HasSuffixSlash pathStr) then pathStr +:+ "/" else pathStr.

(** [readDir]; the result slice is [None] when it is nil. *)
Definition readDir (c : webdavClient) (pathStr : string) (n : Net)
  : (error + option (list fileInfo)) * Net :=
  let pathStr := dirPath pathStr in
  match propfind c pathStr 1 n with
  | (inl err, n') => (inl err, n')
  | (inr ms, n') =>
      match Responses ms with
      | [] => (inr (Some []), n')
      | _ :: rest => (inr (readDirLoop (timeNow (world n')) pathStr rest None), n')
      end
  end.

Definition putHeaders : gmap string string :=
  {[ "Content-Type" := "application/octet-stream" ]}.

(** [put]; [None] is the nil error; the second component is what is left
    in the reader [data]. *)
Definition put (c : webdavClient) (pathStr : string) (data : list ascii) (n : Net)
  : option error * list ascii * Net :=
  let headers := putHeaders in
  match doRequest c "PUT" pathStr (Some data) headers n with
  | (inl err, rest, n') => (Some err, default [] rest, n')
  | (inr resp, rest, n') =>
      if negb (StatusCode resp =? 201) && negb (StatusCode resp =? 204) then
        (Some (httpStatusToOSError (StatusCode resp) pathStr), default [] rest, n')
      else (None, default [] rest, n')
  end.

Definition proppatchHeaders : gmap string string :=
  {[ "Content-Type" := "application/xml" ]}.

(** [proppatch] *)
Definition proppatch (c : webdavClient) (pathStr : string) (modTime : Time) (n : Net)
  : option error * Net :=
  let headers := proppatchHeaders in
  let body := buildProppatchBody modTime in
  match doRequest c "PROPPATCH" pathStr (Some (chars body)) headers n with
  | (inl err, _, n') => (Some err, n')
  | (inr resp, _, n') =>
      if negb (StatusCode resp =? 207) then (None, n')
      else (None, n')
  end.

End Client.

(** ** Filesystem facade *)

(** The [os.O_*] open flags (their values on Linux). *)
Definition O_RDONLY : Z := 0.
Definition O_WRONLY : Z := 1.
Definition O_RDWR : Z := 2.
Definition O_CREATE : Z := 64.
Definition O_EXCL : Z := 128.
Definition O_TRUNC : Z := 512.
Definition O_APPEND : Z := 1024.

(** [flag&bit != 0] *)
Definition hasFlag (flag bit : Z) : bool := negb (Z.land flag bit =? 0).

(** [io.SeekStart], [io.SeekCurrent], [io.SeekEnd] *)
Definition SeekStart : Z := 0.
Definition SeekCurrent : Z := 1.
Definition SeekEnd : Z := 2.

Record FileSystem : Type := mkFS {
  client : webdavClient;
  root : string;
  cwd : string;
  tempDir : string
}.

(** An [io.ReadCloser] over a response body. *)
Record ReadCloser : Type := mkReader {
  remaining : list ascii;
  readerClosed : bool
}.

(** [File], the open handle.  [buffer] holds the unread bytes of the
    [bytes.Buffer] ([None] for the nil pointer); [info], [reader] and
    [dirInfos] are [None] when nil. *)
Record File : Type := mkFile {
  fs : FileSystem;
  path : string;
  flag : Z;
  offset : Z;
  info : option fileInfo;
  buffer : option (list ascii);
  modified : bool;
  closed : bool;
  reader : option ReadCloser;
  dirIndex : Z;
  dirInfos : option (list fileInfo)
}.

Definition withOffset (f : File) (v : Z) : File :=
  mkFile (fs f) (path f) (flag f) v (info f) (buffer f) (modified f) (closed f)
         (reader f) (dirIndex f) (dirInfos f).
Definition withInfo (f : File) (v : option fileInfo) : File :=
  mkFile (fs f) (path f) (flag f) (offset f) v (buffer f) (modified f) (closed f)
         (reader f) (dirIndex f) (dirInfos f).
Definition withBuffer (f : File) (v : option (list ascii)) : File :=
  mkFile (fs f) (path f) (flag f) (offset f) (info f) v (modified f) (closed f)
         (reader f) (dirIndex f) (dirInfos f).
Definition withModified (f : File) (v : bool) : File :=
  mkFile (fs f) (path f) (flag f) (offset f) (info f) (buffer f) v (closed f)
         (reader f) (dirIndex f) (dirInfos f).
Definition withClosed (f : File) (v : bool) : File :=
  mkFile (fs f) (path f) (flag f) (offset f) (info f) (buffer f) (modified f) v
         (reader f) (dirIndex f) (dirInfos f).
Definition withReader (f : File) (v : option ReadCloser) : File :=
  mkFile (fs f) (path f) (flag f) (offset f) (info f) (buffer f) (modified f) (closed f)
         v (dirIndex f) (dirInfos f).
Definition withDirIndex (f : File) (v : Z) : File :=
  mkFile (fs f) (path f) (flag f) (offset f) (info f) (buffer f) (modified f) (closed f)
         (reader f) v (dirInfos f).
Definition withDirInfos (f : File) (v : option (list fileInfo)) : File :=
  mkFile (fs f) (path f) (flag f) (offset f) (info f) (buffer f) (modified f) (closed f)
         (reader f) (dirIndex f) v.

(** What a call on a handle comes back with: a value, an error, or a
    run-time panic (nil dereference, slice bounds out of range). *)
Inductive result (A : Type) : Type :=
| Ok (a : A)
| Err (e : error)
| Panic (msg : string).
Arguments Ok {A} a.
Arguments Err {A} e.
Arguments Panic {A} msg.

Section Facade.
Context `{Externals}.

(** [FileSystem.cleanPath] *)
Definition cleanPath (fs : FileSystem) (name : string) : string :=
  if GoPath.IsAbs name then GoPath.Clean name
  else GoPath.Clean (GoPath.Join [cwd fs; name]).

(** [FileSystem.OpenFile] *)
Definition OpenFile (fs : FileSystem) (name : string) (flag : Z) (perm : Z) (n : Net)
  : (error + File) * Net :=
  let name := cleanPath fs name in
  let finish (info : fileInfo) (n' : Net) : (error + File) * Net :=
    let f := {| fs := fs; path := name; flag := flag; offset := 0; info := Some info;
                buffer := None; modified := false; closed := false; reader := None;
                dirIndex := 0; dirInfos := None |} in
    (inr (if hasFlag flag O_APPEND then withOffset f (size info) else f), n') in
  match stat (client fs) name n with
  | (inl err, n1) =>
      if negb (IsNotExist err) then (inl err, n1)
      else if negb (hasFlag flag O_CREATE) then
        (inl (PathError "open" name ErrNotExist), n1)
      else
        match put (client fs) name [] n1 with
        | (Some err, _, n2) => (inl err, n2)
        | (None, _, n2) =>
            match stat (client fs) name n2 with
            | (inl err, n3) => (inl err, n3)
            | (inr info, n3) => finish info n3
            end
        end
  | (inr info, n1) =>
      if hasFlag flag O_CREATE && hasFlag flag O_EXCL then
        (inl (PathError "open" name ErrExist), n1)
      else if hasFlag flag O_TRUNC && negb (isDir info) then
        match put (client fs) name [] n1 with
        | (Some err, _, n2) => (inl err, n2)
        | (None, _, n2) => finish info n2
        end
      else finish info n1
  end.

(** [FileSystem.Chtimes] *)
Definition Chtimes (fs : FileSystem) (name : string) (atime mtime : Time) (n : Net)
  : option error * Net :=
  let name := cleanPath fs name in
  proppatch (client fs) name mtime n.

(** ** Open handle *)

(** [File.Write]; [bytes.Buffer.Write] appends and returns [len(b), nil]. *)
Definition Write (f : File) (b : list ascii) : result Z * File :=
  if closed f then (Err (FileClosedError (path f)), f)
  else if negb (Z.land (flag f) (Z.lor O_WRONLY O_RDWR) =? 0) then
    match info f with
    | None => (Panic "nil pointer dereference", f)
    | Some i =>
        if isDir i then (Err (PathError "write" (path f) ErrInvalid), f)
        else
          let buf := default [] (buffer f) in
          let n := Z.of_nat (length b) in
          let f1 := withBuffer f (Some (buf ++ b)) in
          let f2 := withOffset f1 (add64 (offset f1) n) in
          (Ok n, withModified f2 true)
    end
  else (Err (PathError "write" (path f) ErrInvalid), f).

Definition closeReader (r : option ReadCloser) : option ReadCloser :=
  match r with
  | Some r => Some {| remaining := remaining r; readerClosed := true |}
  | None => None
  end.

(** [File.Close].  The buffer itself is the request body of the upload,
    so what the transport read is gone from it afterwards. *)
Definition Close (f : File) (n : Net) : option error * File * Net :=
  if closed f then (None, f, n)
  else
    let f1 := withReader (withClosed f true) (closeReader (reader f)) in
    match buffer f1 with
    | Some buf =>
        if modified f1 then
          match put (client (fs f1)) (path f1) buf n with
          | (Some err, rest, n') => (Some err, withBuffer f1 (Some rest), n')
          | (None, rest, n') => (None, withBuffer f1 (Some rest), n')
          end
        else (None, f1, n)
    | None => (None, f1, n)
    end.

(** [File.Sync] *)
Definition Sync (f : File) (n : Net) : option error * File * Net :=
  if closed f then (Some (FileClosedError (path f)), f, n)
  else
    match buffer f with
    | Some buf =>
        if modified f then
          match put (client (fs f)) (path f) buf n with
          | (Some err, rest, n') => (Some err, withBuffer f (Some rest), n')
          | (None, rest, n') => (None, withModified (withBuffer f (Some rest)) false, n')
          end
        else (None, f, n)
    | None => (None, f, n)
    end.

(** [File.Seek] *)
Definition Seek (f : File) (offset_ : Z) (whence : Z) (n : Net)
  : (error + Z) * File * Net :=
  if closed f then (inl (FileClosedError (path f)), f, n)
  else
    let finish (f : File) (newOffset : Z) (n : Net) : (error + Z) * File * Net :=
      if newOffset <? 0 then (inl (InvalidSeekError offset_ whence), f, n)
      else
        let f1 :=
          match reader f with
          | Some _ =>
              if negb (newOffset =? offset f) then withReader f None else f
          | None => f
          end in
        (inr newOffset, withOffset f1 newOffset, n) in
    if whence =? SeekStart then finish f offset_ n
    else if whence =? SeekCurrent then finish f (add64 (offset f) offset_) n
    else if whence =? SeekEnd then
      match info f with
      | Some i => finish f (add64 (size i) offset_) n
      | None =>
          match stat (client (fs f)) (path f) n with
          | (inl err, n') => (inl err, withInfo f None, n')
          | (inr i, n') => finish (withInfo f (Some i)) (add64 (size i) offset_) n'
          end
      end
    else (inl (InvalidSeekError offset_ whence), f, n).

(** [File.Readdir].  A nil [dirInfos] has length 0; [s[lo:]] needs
    [0 <= lo <= len(s)] and [s[lo:hi]] needs [0 <= lo <= hi <= cap(s)],
    otherwise the run time panics. *)
Definition Readdir (f : File) (count : Z) (n : Net)
  : result (list fileInfo) * File * Net :=
  if closed f then (Err (FileClosedError (path f)), f, n)
  else
    match info f with
    | None => (Panic "nil pointer dereference", f, n)
    | Some i =>
        if negb (isDir i) then (Err (PathError "readdir" (path f) ErrInvalid), f, n)
        else
          let serve (f : File) (n : Net) : result (list fileInfo) * File * Net :=
            let infos := default [] (dirInfos f) in
            let len := Z.of_nat (length infos) in
            if count <=? 0 then
              if (0 <=? dirIndex f) && (dirIndex f <=? len) then
                let res := drop (Z.to_nat (dirIndex f)) infos in
                let f' := withDirIndex f len in
                match res with
                | [] => (Err EOF, f', n)
                | _ => (Ok res, f', n)
                end
              else (Panic "slice bounds out of range", f, n)
            else if dirIndex f >=? len then (Err EOF, f, n)
            else
              let end0 := add64 (dirIndex f) count in
              let end_ := if end0 >? len then len else end0 in
              if (0 <=? dirIndex f) && (dirIndex f <=? end_) then
                let res := take (Z.to_nat (end_ - dirIndex f))
                                (drop (Z.to_nat (dirIndex f)) infos) in
                (Ok res, withDirIndex f end_, n)
              else (Panic "slice bounds out of range", f, n) in
          match dirInfos f with
          | None =>
              match readDir (client (fs f)) (path f) n with
              | (inl err, n') => (Err err, f, n')
              | (inr infos, n') => serve (withDirIndex (withDirInfos f infos) 0) n'
              end
          | Some _ => serve f n
          end
    end.

End Facade.

(** ** Path elements

    [path.Clean] read element by element: the path is cut at its
    separators and each element is skipped, pops the buffer, or is
    appended to it.  The byte loop above is shown to compute this. *)

Module PathElems.
Import GoPath.

(** The elements of a path; [cur] is the element being read, last byte
    first. *)
Fixpoint splitSlash (path : list ascii) (cur : list ascii) : list (list ascii) :=
  match path with
  | [] => [rev cur]
  | c :: rest =>
      if is_slash c then rev cur :: splitSlash rest []
      else splitSlash rest (c :: cur)
  end.

Definition isDotElem (s : list ascii) : bool :=
  match s with
  | [c] => is_dot c
  | _ => false
  end.

Definition isDotDotElem (s : list ascii) : bool :=
  match s with
  | [c1; c2] => is_dot c1 && is_dot c2
  | _ => false
  end.

Fixpoint segLoop (rooted : bool) (segs : list (list ascii))
    (out : list ascii) (dotdot : nat) : list ascii * nat :=
  match segs with
  | [] => (out, dotdot)
  | s :: segs' =>
      match s with
      | [] => segLoop rooted segs' out dotdot
      | _ =>
          if isDotElem s then segLoop rooted segs' out dotdot
          else if isDotDotElem s then
            let '(out', dotdot') := dotdotStep rooted out dotdot in
            segLoop rooted segs' out' dotdot'
          else segLoop rooted segs' (rev s ++ addSlash rooted out) dotdot
      end
  end.

(** A real path element: not empty, without separator, neither [.] nor
    [..]. *)
Definition realElem (s : list ascii) : bool :=
  negb (length s =? 0)%nat && forallb (fun c => negb (is_slash c)) s
  && negb (isDotElem s) && negb (isDotDotElem s).

Definition noSlash (s : list ascii) : Prop := Forall (fun c => is_slash c = false) s.

(** [/s1/s2/.../sn] *)
Definition flat (segs : list (list ascii)) : list ascii :=
  concat (map (cons slash) segs).

(** A rooted clean path: the root alone, or [/s1/.../sn] over real
    elements. *)
Definition rootedPath (segs : list (list ascii)) : list ascii :=
  match segs with
  | [] => [slash]
  | _ => flat segs
  end.

End PathElems.

(** ** Vocabulary of the statements *)

Section Vocabulary.
Context `{Externals}.

(** [readPages fuel f k n] calls [Readdir(k)] until a call does not
    return a page, at most [fuel] times; it gives the entries of the
    pages in order and the result of the call that ended the loop. *)
Fixpoint readPages (fuel : nat) (f : File) (k : Z) (n : Net)
  : list fileInfo * option (result (list fileInfo)) * File * Net :=
  match fuel with
  | O => ([], None, f, n)
  | S fuel' =>
      match Readdir f k n with
      | (Ok page, f', n') =>
          let '(entries, stop, f'', n'') := readPages fuel' f' k n' in
          (page ++ entries, stop, f'', n'')
      | (r, f', n') => ([], Some r, f', n')
      end
  end.

(** A directory handle whose children are cached in [l], with the
    cursor inside the cache. *)
Definition cachedDir (f : File) (l : list fileInfo) : Prop :=
  closed f = false /\
  (exists i, info f = Some i /\ isDir i = true) /\
  dirInfos f = Some l /\
  0 <= dirIndex f <= Z.of_nat (length l).

(** A PROPFIND round trip that comes back with status 207 and a
    multistatus without entries, taking the network from [n] to [n']. *)
Definition emptyMultistatus (c : webdavClient) (pathStr : string) (depth : Z)
    (n n' : Net) : Prop :=
  exists resp rest ms,
    doRequest c "PROPFIND" pathStr (Some (chars buildPropfindBody))
              (propfindHeaders depth) n = (inr resp, rest, n') /\
    StatusCode resp = 207 /\
    parseMultistatus (RespBody resp) = inr ms /\
    Responses ms = [].

(** The request [doRequest] hands to the transport once the URL is
    built and parsed. *)
Definition requestOf (c : webdavClient) (method : string) (u : url.URL)
    (body : option (list ascii)) (headers : gmap string string) : Request :=
  {| Method := method; ReqURL := u; Body := body; Header := headers ∪ authHeader c |}.

Definition afterSend (n : Net) (req : Request) (w' : World) : Net :=
  {| world := w'; sent := sent n ++ [req] |}.


(** The offset a [Seek] call computes before it checks it, when it gets
    that far. *)
Definition seekTarget (f : File) (offset_ whence : Z) (n : Net) : option Z :=
  if whence =? SeekStart then Some offset_
  else if whence =? SeekCurrent then Some (add64 (offset f) offset_)
  else if whence =? SeekEnd then
    match info f with
    | Some i => Some (add64 (size i) offset_)
    | None =>
        match stat (client (fs f)) (path f) n with
        | (inr i, _) => Some (add64 (size i) offset_)
        | (inl _, _) => None
        end
    end
  else None.

End Vocabulary.

(** ** A test bed

    An instance of the collaborators to run the client on: every URL is
    on one host and is written as its path; a multistatus body lists one
    entry per line, [D] or [F] (collection or not) followed by the href;
    the remote end answers from a script and keeps what it has read of
    an accepted PUT. *)

Module Testbed.

Record state : Type := mkState {
  script : list (Request -> doOutcome);
  store : gmap string (list ascii)
}.

Definition isNewline (c : ascii) : bool := Ascii.eqb c (ascii_of_nat 10).

Fixpoint lines (s : list ascii) (cur : list ascii) : list (list ascii) :=
  match s with
  | [] => match cur with [] => [] | _ => [rev cur] end
  | c :: s' => if isNewline c then rev cur :: lines s' [] else lines s' (c :: cur)
  end.

Definition entry (l : list ascii) : response :=
  let '(coll, href) :=
    match l with
    | c :: r => (Ascii.eqb c "D"%char, r)
    | [] => (false, [])
    end in
  {| Href := str href;
     Propstat := {| Prop_ := {| DisplayName := ""; GetContentLength := "";
                                GetLastModified := "";
                                ResourceType := {| Collection := coll |};
                                GetETag := ""; GetContentType := "";
                                CreationDate := "" |};
                    Status := "HTTP/1.1 200 OK" |} |}.

Definition decode (body : string) : error + multistatus :=
  inr {| Responses := map entry (lines (chars body) []) |}.

Definition stores (req : Request) (o : doOutcome) : bool :=
  match o with
  | DoResponse resp _ =>
      String.eqb (Method req) "PUT" && ((StatusCode resp =? 201) || (StatusCode resp =? 204))
  | DoError _ _ => false
  end.

(** What the remote end has read of the request body. *)
Definition received (req : Request) (o : doOutcome) : list ascii :=
  match o with
  | DoResponse _ consumed | DoError _ consumed => take consumed (default [] (Body req))
  end.

Definition step (req : Request) (w : state) : doOutcome * state :=
  match script w with
  | [] => (DoError (LibError "net/http" "connection refused") 0, w)
  | answer :: rest =>
      let o := answer req in
      (o, {| script := rest;
             store := if stores req o
                      then <[ url.Path (ReqURL req) := received req o ]> (store w)
                      else store w |})
  end.

#[export] Instance bed : Externals := {|
  World := state;
  clientDo := step;
  urlParse := fun s => inr (url.mkURL "http" "example.com" s "");
  urlString := url.Path;
  basicAuth := fun u p => "Basic " +:+ u +:+ ":" +:+ p;
  xmlDecode := decode;
  timeNow := fun _ => 0;
  timeParse := fun _ _ => None;
  timeFormatUTC := fun _ _ => ""
|}.

Definition start (replies : list (Request -> doOutcome)) : Net :=
  {| world := {| script := replies; store := ∅ |}; sent := [] |}.

(** An answer that comes after the request body has been read to its
    end. *)
Definition reply (status : Z) (body : string) : Request -> doOutcome :=
  fun req =>
    DoResponse {| StatusCode := status; RespBody := body |}
               (length (default [] (Body req))).


(** The same remote end, with a server that reports [len] as the
    content length of every entry. *)
Definition entrySized (len : string) (l : list ascii) : response :=
  let r := entry l in
  {| Href := Href r;
     Propstat := {| Prop_ := {| DisplayName := ""; GetContentLength := len;
                                GetLastModified := "";
                                ResourceType := ResourceType (Prop_ (Propstat r));
                                GetETag := ""; GetContentType := "";
                                CreationDate := "" |};
                    Status := Status (Propstat r) |} |}.

Definition decodeSized (len : string) (body : string) : error + multistatus :=
  inr {| Responses := map (entrySized len) (lines (chars body) []) |}.

Definition sized (len : string) : Externals := {|
  World := state;
  clientDo := step;
  urlParse := fun s => inr (url.mkURL "http" "example.com" s "");
  urlString := url.Path;
  basicAuth := fun u p => "Basic " +:+ u +:+ ":" +:+ p;
  xmlDecode := decodeSized len;
  timeNow := fun _ => 0;
  timeParse := fun _ _ => None;
  timeFormatUTC := fun _ _ => ""
|}.

Definition startSized (len : string) (replies : list (Request -> doOutcome))
  : @Net (sized len) :=
  @mkNet (sized len) {| script := replies; store := ∅ |} [].

Definition nl : string := String (ascii_of_nat 10) "".

Definition davClient : webdavClient :=
  {| baseURL := url.mkURL "http" "example.com" "/webdav/" "";
     username := ""; password := ""; bearerToken := "" |}.

Definition davFS : FileSystem :=
  {| client := davClient; root := "/"; cwd := "/"; tempDir := "/tmp" |}.

End Testbed.

(** * The rest of the package *)

(** ** [path.Dir]

    [Split] cuts after the last separator; [Dir] cleans what is before. *)

Module GoPathDir.

(** The reversed path without its last element: everything from the
    last separator on, read off the reversed path. *)
Fixpoint dropLastElem (rpath : list ascii) : list ascii :=
  match rpath with
  | c :: r => if is_slash c then rpath else dropLastElem r
  | [] => []
  end.

Definition dirChars (path : list ascii) : list ascii :=
  GoPath.cleanChars (rev (dropLastElem (rev path))).

Definition Dir (path : string) : string := str (dirChars (chars path)).

End GoPathDir.

(** ** The other verbs of the protocol client *)

Section Verbs.
Context `{Externals}.

(** [get]; the reader is the body of the response. *)
Definition get (c : webdavClient) (pathStr : string) (offset : Z) (n : Net)
  : (error + ReadCloser) * Net :=
  let headers : gmap string string :=
    if offset >? 0 then {[ "Range" := "bytes=" +:+ fmtInt offset +:+ "-" ]} else ∅ in
  match doRequest c "GET" pathStr None headers n with
  | (inl err, _, n') => (inl err, n')
  | (inr resp, _, n') =>
      if negb (StatusCode resp =? 200) && negb (StatusCode resp =? 206) then
        (inl (httpStatusToOSError (StatusCode resp) pathStr), n')
      else (inr {| remaining := chars (RespBody resp); readerClosed := false |}, n')
  end.

(** The [Content-Range] of [putRange]:
    [fmt.Sprintf("bytes %d-%d/*", offset, offset+int64(len(data))-1)]. *)
Definition contentRange (offset : Z) (data : list ascii) : string :=
  "bytes " +:+ fmtInt offset +:+ "-"
  +:+ fmtInt (add64 (add64 offset (Z.of_nat (length data))) (-1)) +:+ "/*".

Definition putRangeHeaders (offset : Z) (data : list ascii) : gmap string string :=
  {[ "Content-Type" := "application/octet-stream";
     "Content-Range" := contentRange offset data ]}.

(** [putRange] *)
Definition putRange (c : webdavClient) (pathStr : string) (data : list ascii)
    (offset : Z) (n : Net) : option error * Net :=
  match doRequest c "PUT" pathStr (Some data) (putRangeHeaders offset data) n with
  | (inl err, _, n') => (Some err, n')
  | (inr resp, _, n') =>
      if negb (StatusCode resp =? 201) && negb (StatusCode resp =? 204) then
        (Some (httpStatusToOSError (StatusCode resp) pathStr), n')
      else (None, n')
  end.

(** [mkcol] *)
Definition mkcol (c : webdavClient) (pathStr : string) (n : Net) : option error * Net :=
  match doRequest c "MKCOL" pathStr None ∅ n with
  | (inl err, _, n') => (Some err, n')
  | (inr resp, _, n') =>
      if negb (StatusCode resp =? 201) then
        (Some (httpStatusToOSError (StatusCode resp) pathStr), n')
      else (None, n')
  end.

(** [delete] of the client *)
Definition delete_ (c : webdavClient) (pathStr : string) (n : Net) : option error * Net :=
  match doRequest c "DELETE" pathStr None ∅ n with
  | (inl err, _, n') => (Some err, n')
  | (inr resp, _, n') =>
      if negb (StatusCode resp =? 204) && negb (StatusCode resp =? 200) then
        (Some (httpStatusToOSError (StatusCode resp) pathStr), n')
      else (None, n')
  end.

Definition moveHeaders (destURL : url.URL) : gmap string string :=
  {[ "Destination" := urlString destURL; "Overwrite" := "F" ]}.

(** [move] *)
Definition move (c : webdavClient) (oldPath newPath : string) (n : Net)
  : option error * Net :=
  match buildURL c newPath with
  | inl err => (Some err, n)
  | inr destURL =>
      match doRequest c "MOVE" oldPath None (moveHeaders destURL) n with
      | (inl err, _, n') => (Some err, n')
      | (inr resp, _, n') =>
          if negb (StatusCode resp =? 201) && negb (StatusCode resp =? 204) then
            (Some (httpStatusToOSError (StatusCode resp) oldPath), n')
          else (None, n')
      end
  end.

End Verbs.

(** ** The other operations of the facade *)

Module OfFS.
Section OfFS.
Context `{Externals}.

(** [FileSystem.Stat] *)
Definition Stat (fs : FileSystem) (name : string) (n : Net) : (error + fileInfo) * Net :=
  stat (client fs) (cleanPath fs name) n.

(** [FileSystem.Truncate] *)
Definition Truncate (fs : FileSystem) (name : string) (size : Z) (n : Net)
  : option error * Net :=
  let name := cleanPath fs name in
  if size =? 0 then
    let '(r, _, n') := put (client fs) name [] n in (r, n')
  else (Some (PathError "truncate" name ErrInvalid), n).

End OfFS.
End OfFS.

Section Facade2.
Context `{Externals}.

(** [FileSystem.Open] *)
Definition Open (fs : FileSystem) (name : string) (n : Net) : (error + File) * Net :=
  OpenFile fs name O_RDONLY 0 n.

(** [FileSystem.Create]; the permission is [0666]. *)
Definition Create (fs : FileSystem) (name : string) (n : Net) : (error + File) * Net :=
  OpenFile fs name (Z.lor O_RDWR (Z.lor O_CREATE O_TRUNC)) 438 n.

(** [FileSystem.Mkdir] *)
Definition Mkdir (fs : FileSystem) (name : string) (perm : Z) (n : Net)
  : option error * Net :=
  mkcol (client fs) (cleanPath fs name) n.

(** [FileSystem.MkdirAll].  The recursion on the parent directory is
    not structural; [fuel] bounds its depth, and [None] is "out of
    fuel". *)
Fixpoint MkdirAll (fuel : nat) (fs : FileSystem) (name : string) (perm : Z) (n : Net)
  : option (option error * Net) :=
  match fuel with
  | O => None
  | S fuel' =>
      let name := cleanPath fs name in
      match stat (client fs) name n with
      | (inr info, n1) =>
          if isDir info then Some (None, n1)
          else Some (Some (PathError "mkdir" name ErrExist), n1)
      | (inl _, n1) =>
          let parent := GoPathDir.Dir name in
          if negb (String.eqb parent "/") && negb (String.eqb parent ".") then
            match MkdirAll fuel' fs parent perm n1 with
            | None => None
            | Some (Some err, n2) => Some (Some err, n2)
            | Some (None, n2) => Some (mkcol (client fs) name n2)
            end
          else Some (mkcol (client fs) name n1)
      end
  end.

(** [FileSystem.Remove] *)
Definition Remove (fs : FileSystem) (name : string) (n : Net) : option error * Net :=
  delete_ (client fs) (cleanPath fs name) n.

(** [FileSystem.RemoveAll] *)
Definition RemoveAll (fs : FileSystem) (name : string) (n : Net) : option error * Net :=
  delete_ (client fs) (cleanPath fs name) n.

(** [FileSystem.Rename] *)
Definition Rename (fs : FileSystem) (oldpath newpath : string) (n : Net)
  : option error * Net :=
  move (client fs) (cleanPath fs oldpath) (cleanPath fs newpath) n.

(** [FileSystem.Chmod] *)
Definition Chmod (fs : FileSystem) (name : string) (mode : Z) (n : Net)
  : option error * Net :=
  match stat (client fs) (cleanPath fs name) n with
  | (inl err, n') => (Some err, n')
  | (inr _, n') => (None, n')
  end.

(** [FileSystem.Chown] *)
Definition Chown (fs : FileSystem) (name : string) (uid gid : Z) (n : Net)
  : option error * Net :=
  match stat (client fs) (cleanPath fs name) n with
  | (inl err, n') => (Some err, n')
  | (inr _, n') => (None, n')
  end.

(** [FileSystem.Chdir]; the filesystem comes back with its working
    directory. *)
Definition Chdir (fs : FileSystem) (dir : string) (n : Net)
  : option error * FileSystem * Net :=
  let dir := cleanPath fs dir in
  match stat (client fs) dir n with
  | (inl err, n') => (Some err, fs, n')
  | (inr info, n') =>
      if negb (isDir info) then (Some (PathError "chdir" dir ErrInvalid), fs, n')
      else (None, {| client := client fs; root := root fs; cwd := dir;
                     tempDir := tempDir fs |}, n')
  end.

(** [FileSystem.Getwd] *)
Definition Getwd (fs : FileSystem) : string := cwd fs.

(** [FileSystem.TempDir] *)
Definition TempDir_ (fs : FileSystem) : string := tempDir fs.

End Facade2.

(** ** The other operations of the handle *)

(** Reading from the body of a response is the transport's business:
    [bodyRead r k] is [r.Read(b)] with [len(b) = k], giving the bytes
    put into [b] (at most [k], by the contract of [io.Reader]), the
    error and the reader afterwards; [bodyReadFull] is
    [io.ReadFull(r, b)]. *)
Class Streams : Type := {
  bodyRead : ReadCloser -> nat -> list ascii * option error * ReadCloser;
  bodyReadFull : ReadCloser -> nat -> list ascii * option error * ReadCloser
}.

Module OfFile.
Section OfFile.
Context `{Externals}.

(** [File.Stat] *)
Definition Stat (f : File) (n : Net) : (error + fileInfo) * File * Net :=
  if closed f then (inl (FileClosedError (path f)), f, n)
  else
    match info f with
    | Some i => (inr i, f, n)
    | None =>
        match stat (client (fs f)) (path f) n with
        | (inl err, n') => (inl err, f, n')
        | (inr i, n') => (inr i, withInfo f (Some i), n')
        end
    end.

(** [File.Truncate] *)
Definition Truncate (f : File) (size : Z) : option error * File :=
  if closed f then (Some (FileClosedError (path f)), f)
  else if Z.land (flag f) (Z.lor O_WRONLY O_RDWR) =? 0 then
    (Some (PathError "truncate" (path f) ErrInvalid), f)
  else if size =? 0 then
    (None, withModified (withBuffer f (Some [])) true)
  else (Some (PathError "truncate" (path f) ErrInvalid), f).

End OfFile.
End OfFile.

Section Handle2.
Context `{Externals} `{Streams}.

(** [File.Read]; [k] is [len(b)], the result the bytes read into [b]. *)
Definition Read (f : File) (k : nat) (n : Net) : result (list ascii * option error) * File * Net :=
  if closed f then (Err (FileClosedError (path f)), f, n)
  else if negb (Z.land (flag f) O_WRONLY =? 0) then
    (Err (PathError "read" (path f) ErrInvalid), f, n)
  else
    match info f with
    | None => (Panic "nil pointer dereference", f, n)
    | Some i =>
        if isDir i then (Err (PathError "read" (path f) ErrInvalid), f, n)
        else
          let serve (r : ReadCloser) (n' : Net) :=
            let '(data, err, r') := bodyRead r k in
            let f1 := withReader f (Some r') in
            (Ok (data, err),
             withOffset f1 (add64 (offset f1) (Z.of_nat (length data))), n') in
          match reader f with
          | Some r => serve r n
          | None =>
              match get (client (fs f)) (path f) (offset f) n with
              | (inl err, n') => (Err err, f, n')
              | (inr r, n') => serve r n'
              end
          end
    end.

(** [File.ReadAt]; the reader of the call is closed and dropped. *)
Definition ReadAt (f : File) (k : nat) (off : Z) (n : Net)
  : result (list ascii * option error) * File * Net :=
  if closed f then (Err (FileClosedError (path f)), f, n)
  else if negb (Z.land (flag f) O_WRONLY =? 0) then
    (Err (PathError "read" (path f) ErrInvalid), f, n)
  else
    match get (client (fs f)) (path f) off n with
    | (inl err, n') => (Err err, f, n')
    | (inr r, n') =>
        let '(data, err, _) := bodyReadFull r k in (Ok (data, err), f, n')
    end.

(** [File.WriteAt] *)
Definition WriteAt (f : File) (b : list ascii) (off : Z) (n : Net)
  : result Z * File * Net :=
  if closed f then (Err (FileClosedError (path f)), f, n)
  else if Z.land (flag f) (Z.lor O_WRONLY O_RDWR) =? 0 then
    (Err (PathError "write" (path f) ErrInvalid), f, n)
  else
    match putRange (client (fs f)) (path f) b off n with
    | (Some err, n') => (Err err, f, n')
    | (None, n') => (Ok (Z.of_nat (length b)), f, n')
    end.

(** [File.Readdirnames] *)
Definition Readdirnames (f : File) (count : Z) (n : Net)
  : result (list string) * File * Net :=
  match Readdir f count n with
  | (Ok infos, f', n') => (Ok (map name infos), f', n')
  | (Err err, f', n') => (Err err, f', n')
  | (Panic msg, f', n') => (Panic msg, f', n')
  end.

(** [File.Name] *)
Definition Name (f : File) : string := path f.

(** [File.WriteString] *)
Definition WriteString (f : File) (s : string) : result Z * File := Write f (chars s).

(** [FileSystem.WriteFile]: the deferred [Close] runs on every way out
    after [Create], its result dropped. *)
Definition WriteFile (fs : FileSystem) (name : string) (data : list ascii) (perm : Z)
    (n : Net) : result unit * Net :=
  match Create fs name n with
  | (inl err, n1) => (Err err, n1)
  | (inr f, n1) =>
      match Write f data with
      | (Err err, f1) => let '(_, _, n2) := Close f1 n1 in (Err err, n2)
      | (Panic msg, f1) => let '(_, _, n2) := Close f1 n1 in (Panic msg, n2)
      | (Ok _, f1) =>
          let '(r, f2, n2) := Close f1 n1 in
          let '(_, _, n3) := Close f2 n2 in
          (match r with Some err => Err err | None => Ok tt end, n3)
      end
  end.

End Handle2.

(** The run time's part in [make([]byte, n)]: [maxAlloc] is the largest
    size of one allocation (it depends on the platform), and
    [hasMemory n] tells whether the system has [n] bytes to give. *)
Class Runtime : Type := {
  maxAlloc : Z;
  hasMemory : Z -> bool
}.

Section WholeFiles.
Context `{Externals} `{Streams} `{Runtime}.

(** [FileSystem.ReadFile]: one [Read] into a slice of the declared
    size.  [make] panics on a length that is negative or above the limit
    of the run time; an allocation the system cannot satisfy stops the
    program at once, without running the deferred [Close], which is given
    here as a panic as well. *)
Definition ReadFile (fs : FileSystem) (name : string) (n : Net)
  : result (list ascii) * Net :=
  match Open fs name n with
  | (inl err, n1) => (Err err, n1)
  | (inr f, n1) =>
      match OfFile.Stat f n1 with
      | (inl err, f1, n2) => let '(_, _, n3) := Close f1 n2 in (Err err, n3)
      | (inr i, f1, n2) =>
          if isDir i then
            let '(_, _, n3) := Close f1 n2 in
            (Err (PathError "read" name ErrInvalid), n3)
          else if (size i <? 0) || (maxAlloc <? size i) then
            let '(_, _, n3) := Close f1 n2 in (Panic "makeslice: len out of range", n3)
          else if negb (hasMemory (size i)) then
            (Panic "fatal error: runtime: out of memory", n2)
          else
            match Read f1 (Z.to_nat (size i)) n2 with
            | (Ok (data, err), f2, n3) =>
                let '(_, _, n4) := Close f2 n3 in
                match err with
                | Some EOF | None => (Ok data, n4)
                | Some e => (Err e, n4)
                end
            | (Err e, f2, n3) => let '(_, _, n4) := Close f2 n3 in (Err e, n4)
            | (Panic msg, f2, n3) => let '(_, _, n4) := Close f2 n3 in (Panic msg, n4)
            end
      end
  end.

End WholeFiles.

(** ** Vocabulary of the further statements *)

(** A rooted clean path: [/], or [/s1/.../sn] over real elements. *)
Definition rootedClean (p : string) : Prop :=
  exists st, forallb PathElems.realElem st = true /\ chars p = PathElems.rootedPath st.

(** A call that goes through [doRequest] once sends nothing, or one
    request of the given method. *)
Definition sendsOne `{Externals} (method : string) (n n' : Net) : Prop :=
  sent n' = sent n \/ exists req, sent n' = sent n ++ [req] /\ Method req = method.

(** From [n] to [n'] only requests with methods in [methods] were
    sent. *)
Definition sendsOnly `{Externals} (methods : list string) (n n' : Net) : Prop :=
  exists reqs, sent n' = sent n ++ reqs /\
               Forall (fun req => In (Method req) methods) reqs.

(** [writeAll f bs]: the chunks [bs] written one after the other with
    [Write], when every call succeeds. *)
Fixpoint writeAll (f : File) (bs : list (list ascii)) : option File :=
  match bs with
  | [] => Some f
  | b :: bs' =>
      match Write f b with
      | (Ok _, f') => writeAll f' bs'
      | _ => None
      end
  end.

(** The [Range] header of a download from [offset]. *)
Definition rangeHeader (offset : Z) : option string :=
  if offset >? 0 then Some ("bytes=" +:+ fmtInt offset +:+ "-") else None.

(** ** A body stream for the test bed

    The reader hands out what is left of the body, at most [k] bytes a
    call, and reports the end of the stream once nothing is left. *)

Module TestbedStreams.

Definition readSome (r : ReadCloser) (k : nat)
  : list ascii * option error * ReadCloser :=
  (firstn k (remaining r),
   match remaining r with [] => Some EOF | _ => None end,
   {| remaining := skipn k (remaining r); readerClosed := readerClosed r |}).

#[export] Instance body : Streams := {|
  bodyRead := readSome;
  bodyReadFull := readSome
|}.

(** A run time that allocates up to 2^48 bytes at once and has a
    mebibyte to give. *)
#[export] Instance runtime : Runtime := {|
  maxAlloc := 2 ^ 48;
  hasMemory := fun n => n <=? 2 ^ 20
|}.

(** A handle on a regular file, as [OpenFile] makes it. *)
Definition handle (path : string) (flag size : Z) : File :=
  mkFile Testbed.davFS path flag 0
    (Some (mkFileInfo "a.txt" size mode0644 0 false))
    None false false None 0 None.

End TestbedStreams.

(** ** Vocabulary of the statements about the server's answers *)

(** The server answers whatever is sent next for [pathStr] with
    [status]. *)
Definition answers `{Externals} (c : webdavClient) (pathStr : string) (status : Z)
    (n : Net) : Prop :=
  exists reqURL u,
    buildURL c pathStr = inr reqURL /\ urlParse (urlString reqURL) = inr u /\
    forall method body headers,
      exists resp k w',
        clientDo (requestOf c method u body headers) (world n)
        = (DoResponse resp k, w') /\
        StatusCode resp = status.

(** The credentials of a client as they go into the [Authorization]
    header: the bearer token, else the basic credentials, else none. *)
Definition credentials `{Externals} (c : webdavClient) : option string :=
  if nonEmpty (bearerToken c) then Some ("Bearer " +:+ bearerToken c)
  else if nonEmpty (username c) || nonEmpty (password c)
       then Some (basicAuth (username c) (password c))
       else None.

(** From [n] to [n'] at most one request was sent, and it carries the
    credentials of [c]. *)
Definition authorized `{Externals} (c : webdavClient) (n n' : Net) : Prop :=
  sent n' = sent n \/
  exists req, sent n' = sent n ++ [req] /\
              Header req !! "Authorization" = credentials c.

(** ** Making a filesystem *)

(** The [*http.Client] of a configuration; requests go through the
    transport of [Externals], so all that is kept of a client is its
    timeout. *)
Record httpClient : Type := mkHTTPClient {
  ClientTimeout : Z
}.

(** A [Config] with its [HTTPClient] field; [None] is the nil client. *)
Record Settings : Type := mkSettings {
  config : Config;
  HTTPClient : option httpClient
}.

(** [time.Second], in nanoseconds. *)
Definition Second : Z := 1000000000.

(** [Config.setDefaults] *)
Definition setDefaults (c : Settings) : Settings :=
  let timeout := if Timeout (config c) =? 0 then 30 * Second else Timeout (config c) in
  let httpc :=
    match HTTPClient c with
    | None => Some {| ClientTimeout := timeout |}
    | Some h => Some h
    end in
  let temp := if String.eqb (TempDir (config c)) "" then "/tmp" else TempDir (config c) in
  {| config := {| URL := URL (config c); Username := Username (config c);
                  Password := Password (config c);
                  BearerToken := BearerToken (config c);
                  Timeout := timeout; TempDir := temp |};
     HTTPClient := httpc |}.

Section Making.
Context `{Externals}.

(** [New]; the configuration is changed in place, so it comes back
    with the result. *)
Definition New (c : option Settings) : (error + FileSystem) * option Settings :=
  match c with
  | None => (inl (ConfigError "config" "config cannot be nil"), None)
  | Some c =>
      let c := setDefaults c in
      match validate (config c) with
      | Some err => (inl err, Some c)
      | None =>
          match newWebDAVClient (config c) with
          | inl err => (inl err, Some c)
          | inr client =>
              (inr {| client := client; root := "/"; cwd := "/";
                      tempDir := TempDir (config c) |}, Some c)
          end
      end
  end.

(** Changing directory again and again, whatever each call returns. *)
Fixpoint chdirs (fs : FileSystem) (dirs : list string) (n : Net) : FileSystem * Net :=
  match dirs with
  | [] => (fs, n)
  | d :: dirs' =>
      let '(_, fs', n') := Chdir fs d n in chdirs fs' dirs' n'
  end.

End Making.

(** ** The server side *)

Module GoStringsMore.

(** [strings.HasPrefix] on bytes. *)
Fixpoint hasPrefix (s prefix : list ascii) : bool :=
  match prefix, s with
  | [], _ => true
  | p :: prefix', c :: s' => Ascii.eqb c p && hasPrefix s' prefix'
  | _ :: _, [] => false
  end.

Definition HasPrefix (s prefix : string) : bool := hasPrefix (chars s) (chars prefix).

(** [strings.TrimSuffix(s, "/")] on bytes. *)
Definition trimSlashSuffix (s : list ascii) : list ascii :=
  match rev s with
  | c :: r => if is_slash c then rev r else s
  | [] => []
  end.

Definition TrimSuffixSlash (s : string) : string := str (trimSlashSuffix (chars s)).

End GoStringsMore.

Section ServerPaths.
Context `{Externals}.

(** [normalizePath] *)
Definition normalizePath (p : string) : string :=
  let p :=
    if GoStringsMore.HasPrefix p "http://" || GoStringsMore.HasPrefix p "https://" then
      match urlParse p with
      | inr u => url.Path u
      | inl _ => p
      end
    else p in
  if (1 <? String.length p)%nat && GoStrings.HasSuffixSlash p
  then GoStringsMore.TrimSuffixSlash p
  else p.

End ServerPaths.

(** The adapter [ServerFileSystem] wraps any filesystem of the
    interface; [fsRename] is the [Rename] of the wrapped one. *)
Module ServerFileSystem.
Section ServerFileSystem.
Context `{Externals}.

(** [ServerFileSystem.Rename] *)
Definition Rename {R : Type} (fsRename : string -> string -> R)
    (oldName newName : string) : R :=
  fsRename (normalizePath oldName) (normalizePath newName).

End ServerFileSystem.
End ServerFileSystem.

(** *** Authentication

    What a handler does to its [http.ResponseWriter] is the list of the
    calls it makes on it, in order. *)
Inductive call : Type :=
| HeaderSet (key value : string)
| HeaderDel (key : string)
| WriteHeader (code : Z)
| WriteBody (b : list ascii).

Definition isHeaderOp (c : call) : bool :=
  match c with
  | HeaderSet _ _ | HeaderDel _ => true
  | WriteHeader _ | WriteBody _ => false
  end.

(** The library's part: [requestBasicAuth r] is [r.BasicAuth()], and
    [httpError msg code] the calls of [http.Error(w, msg, code)] on
    [w]. *)
Class ServerExternals : Type := {
  requestBasicAuth : Request -> option (string * string);
  httpError : string -> Z -> list call
}.

(** [AuthProvider]: [Authenticate(w, r)] gives its verdict and makes
    calls on [w]. *)
Definition AuthProvider : Type := Request -> bool * list call.

(** [authRecorder] *)
Record authRecorder : Type := mkRecorder {
  statusCode : Z;
  written : bool
}.

(** One call on a recorder around [w]: what reaches [w], and the
    recorder afterwards.  [Header] is the embedded writer's own;
    [WriteHeader] and [Write] are the recorder's. *)
Definition recorderCall (rec : authRecorder) (c : call) : list call * authRecorder :=
  match c with
  | HeaderSet _ _ | HeaderDel _ => ([c], rec)
  | WriteHeader code => ([], {| statusCode := code; written := true |})
  | WriteBody _ => ([], {| statusCode := statusCode rec; written := true |})
  end.

Fixpoint recorderCalls (rec : authRecorder) (cs : list call) : list call * authRecorder :=
  match cs with
  | [] => ([], rec)
  | c :: cs' =>
      let '(out, rec1) := recorderCall rec c in
      let '(out', rec2) := recorderCalls rec1 cs' in
      (out ++ out', rec2)
  end.

Section Auth.
Context `{ServerExternals}.

(** [BasicAuth.Authenticate] *)
Definition BasicAuth (Realm : string) (Validator : option (string -> string -> bool))
  : AuthProvider :=
  fun r =>
    let challenge :=
      let realm := if String.eqb Realm "" then "WebDAV" else Realm in
      HeaderSet "WWW-Authenticate" ("Basic realm=" +:+ dq +:+ realm +:+ dq)
      :: httpError "Unauthorized" 401 in
    match requestBasicAuth r with
    | None => (false, challenge)
    | Some (username, password) =>
        match Validator with
        | None => (false, challenge)
        | Some validator =>
            if negb (validator username password) then (false, challenge)
            else (true, [])
        end
    end.

(** [BearerAuth.sendChallenge] *)
Definition sendChallenge (Realm : string) : list call :=
  let realm := if String.eqb Realm "" then "WebDAV" else Realm in
  HeaderSet "WWW-Authenticate" ("Bearer realm=" +:+ dq +:+ realm +:+ dq)
  :: httpError "Unauthorized" 401.

(** [BearerAuth.Authenticate]; [r.Header.Get] gives the empty string for
    a header that is not there. *)
Definition BearerAuth (Realm : string) (Validator : option (string -> bool))
  : AuthProvider :=
  fun r =>
    let auth := default "" (Header r !! "Authorization") in
    let prefix := "Bearer " in
    if (String.length auth <? String.length prefix)%nat
       || negb (String.eqb (substring 0 (String.length prefix) auth) prefix)
    then (false, sendChallenge Realm)
    else
      let token :=
        substring (String.length prefix) (String.length auth - String.length prefix) auth in
      match Validator with
      | None => (false, sendChallenge Realm)
      | Some validator =>
          if negb (validator token) then (false, sendChallenge Realm)
          else (true, [])
      end.

(** The loop of [MultiAuth.Authenticate]: every provider gets a fresh
    recorder around [w]. *)
Fixpoint tryProviders (ps : list AuthProvider) (r : Request) : bool * list call :=
  match ps with
  | [] => (false, [])
  | p :: ps' =>
      let '(ok, calls) := p r in
      let passed := fst (recorderCalls {| statusCode := 0; written := false |} calls) in
      if ok then (true, passed)
      else
        let '(ok', rest) := tryProviders ps' r in
        (ok', passed ++ rest)
  end.

(** [MultiAuth.Authenticate]: when all providers failed the last one is
    run once more, on [w] itself, and its verdict dropped. *)
Definition MultiAuth (Providers : list AuthProvider) : AuthProvider :=
  fun r =>
    let '(ok, calls) := tryProviders Providers r in
    if ok then (true, calls)
    else
      match last Providers with
      | Some p => (false, calls ++ snd (p r))
      | None => (false, calls ++ httpError "Unauthorized" 401)
      end.

(** [Server]; the handler is the library's [webdav.Handler]. *)
Record Server : Type := mkServer {
  handler : Request -> list call;
  auth : option AuthProvider
}.

(** [Server.ServeHTTP] *)
Definition ServeHTTP (s : Server) (r : Request) : list call :=
  match auth s with
  | Some a =>
      let '(ok, calls) := a r in
      if negb ok then calls else calls ++ handler s r
  | None => handler s r
  end.

(** [Server.SetAuth] *)
Definition SetAuth (s : Server) (a : option AuthProvider) : Server :=
  {| handler := handler s; auth := a |}.

End Auth.

(** A request is served: the handler has run on it, and before it
    nothing but header operations reached the response. *)
Definition served `{ServerExternals} (s : Server) (r : Request) : Prop :=
  exists hs, forallb isHeaderOp hs = true /\ ServeHTTP s r = hs ++ handler s r.

(** A test server library: no basic credentials are ever found, and
    [http.Error] sets two headers, writes the status and the message. *)
Module TestbedServer.

#[export] Instance lib : ServerExternals := {|
  requestBasicAuth := fun _ => None;
  httpError := fun msg code =>
    [HeaderSet "Content-Type" "text/plain; charset=utf-8";
     HeaderSet "X-Content-Type-Options" "nosniff";
     WriteHeader code;
     WriteBody (chars msg ++ [ascii_of_nat 10])]
|}.

Definition bearerClient : webdavClient :=
  {| baseURL := url.mkURL "http" "example.com" "/webdav/" "";
     username := ""; password := ""; bearerToken := "s3cret" |}.

Definition server : Server :=
  {| handler := fun _ => [WriteHeader 207];
     auth := Some (MultiAuth [BasicAuth "files" None;
                              BearerAuth "" (Some (String.eqb "s3cret"))]) |}.

End TestbedServer.
(** * Facts *)

(** ** Bytes and strings *)

Lemma is_slash_true (c : ascii) : is_slash c = true -> c = slash.
Proof. unfold is_slash. apply Ascii.eqb_eq. Qed.

Lemma is_slash_slash : is_slash slash = true.
Proof. reflexivity. Qed.

Lemma chars_app (s t : string) : chars (s +:+ t) = chars s ++ chars t.
Proof. induction s as [|c s IH]; simpl; [reflexivity | now rewrite IH]. Qed.

Lemma str_app (a b : list ascii) : str (a ++ b) = str a +:+ str b.
Proof. induction a as [|c a IH]; simpl; [reflexivity | now rewrite IH]. Qed.

Lemma str_inj (a b : list ascii) : str a = str b -> a = b.
Proof.
  intros E. rewrite <- (list_ascii_of_string_of_list_ascii a),
    <- (list_ascii_of_string_of_list_ascii b). now rewrite E.
Qed.

Lemma prefix_app (s t : string) : String.prefix s (s +:+ t) = true.
Proof.
  induction s as [|c s IH]; simpl.
  - now destruct t.
  - destruct (ascii_dec c c) as [_|N]; [exact IH | now destruct N].
Qed.

Lemma prefix_refl (s : string) : String.prefix s s = true.
Proof.
  induction s as [|c s IH]; simpl; [reflexivity|].
  destruct (ascii_dec c c) as [_|N]; [exact IH | now destruct N].
Qed.

(** ** [path.Clean] works element by element *)

Module PathFacts.
Import GoPath PathElems.

Lemma splitSlash_acc (path cur : list ascii) :
  splitSlash path cur =
  match splitSlash path [] with
  | e :: ss => (rev cur ++ e) :: ss
  | [] => []
  end.
Proof.
  revert cur. induction path as [|c rest IH]; intros cur; simpl.
  - now rewrite app_nil_r.
  - destruct (is_slash c).
    + now rewrite app_nil_r.
    + rewrite (IH (c :: cur)), (IH [c]).
      destruct (splitSlash rest []) as [|e ss]; [reflexivity|].
      simpl. now rewrite <- app_assoc.
Qed.

Lemma splitSlash_app (x y cur : list ascii) :
  splitSlash (x ++ slash :: y) cur = splitSlash x cur ++ splitSlash y [].
Proof.
  revert cur. induction x as [|c x IH]; intros cur; simpl.
  - reflexivity.
  - destruct (is_slash c); [now rewrite IH | apply IH].
Qed.

Lemma splitSlash_noslash (s cur : list ascii) :
  forallb (fun c => negb (is_slash c)) s = true ->
  splitSlash s cur = [rev cur ++ s].
Proof.
  revert cur. induction s as [|c s IH]; intros cur Hs; simpl in *.
  - now rewrite app_nil_r.
  - apply andb_prop in Hs as [Hc Hs].
    destruct (is_slash c); [discriminate|].
    rewrite (IH _ Hs). simpl. now rewrite <- app_assoc.
Qed.

Lemma splitSlash_cons (path cur : list ascii) :
  exists e ss, splitSlash path cur = e :: ss.
Proof.
  revert cur. induction path as [|c rest IH]; intros cur; simpl.
  - eauto.
  - destruct (is_slash c); [eauto | apply IH].
Qed.

(** The first element is empty exactly at a boundary. *)
Lemma atBoundary_split (rest e : list ascii) (ss : list (list ascii)) :
  splitSlash rest [] = e :: ss -> atBoundary rest = (length e =? 0)%nat.
Proof.
  destruct rest as [|c rest]; simpl.
  - intros [= <- _]. reflexivity.
  - destruct (is_slash c) eqn:E.
    + intros [= <- _]. reflexivity.
    + rewrite splitSlash_acc.
      destruct (splitSlash rest []); [discriminate|].
      intros [= <- _]. reflexivity.
Qed.

Lemma segLoop_app (r : bool) (a b : list (list ascii)) (out : list ascii) (dd : nat) :
  segLoop r (a ++ b) out dd =
  let '(o, d) := segLoop r a out dd in segLoop r b o d.
Proof.
  revert out dd. induction a as [|s a IH]; intros out dd; simpl; [reflexivity|].
  destruct s as [|c s]; [apply IH|].
  destruct (isDotElem (c :: s)); [apply IH|].
  destruct (isDotDotElem (c :: s)); [|apply IH].
  destruct (dotdotStep r out dd). apply IH.
Qed.

Lemma isDotElem_cons (c : ascii) (e : list ascii) :
  isDotElem (c :: e) = is_dot c && (length e =? 0)%nat.
Proof. destruct e; simpl; [now rewrite andb_true_r | now rewrite andb_false_r]. Qed.

Lemma isDotDotElem_cons2 (c c2 : ascii) (e : list ascii) :
  isDotDotElem (c :: c2 :: e) = is_dot c && is_dot c2 && (length e =? 0)%nat.
Proof. destruct e; simpl; [now rewrite andb_true_r | now rewrite andb_false_r]. Qed.

Lemma segLoop_real (r : bool) (s : list ascii) (ss : list (list ascii))
    (out : list ascii) (dd : nat) :
  s <> [] -> isDotElem s = false -> isDotDotElem s = false ->
  segLoop r (s :: ss) out dd = segLoop r ss (rev s ++ addSlash r out) dd.
Proof.
  intros Hs H1 H2. destruct s as [|c s]; [congruence|].
  cbn [segLoop]. now rewrite H1, H2.
Qed.

(** The byte loop and the element loop agree, in both modes of the byte
    loop. *)
Lemma cleanLoop_elems_aux (r : bool) (n : nat) :
  forall path, (length path <= n)%nat -> forall out dd,
    cleanLoop r false path out dd = fst (segLoop r (splitSlash path []) out dd)
    /\ (forall e ss, splitSlash path [] = e :: ss ->
          cleanLoop r true path out dd = fst (segLoop r ss (rev e ++ out) dd)).
Proof.
  induction n as [|n IH]; intros path Hlen out dd.
  - destruct path; [|simpl in Hlen; lia]. simpl. split; [reflexivity|].
    intros e ss [= <- <-]. reflexivity.
  - destruct path as [|c rest].
    { simpl. split; [reflexivity|]. intros e ss [= <- <-]. reflexivity. }
    simpl in Hlen. assert (Hrest : (length rest <= n)%nat) by lia.
    destruct (splitSlash_cons rest []) as (e' & ss' & Erest).
    pose proof (atBoundary_split _ _ _ Erest) as Hb.
    split.
    + (* outer loop *)
      cbn [cleanLoop splitSlash]. destruct (is_slash c) eqn:Ec.
      { rewrite (proj1 (IH rest Hrest out dd)). reflexivity. }
      rewrite (splitSlash_acc rest [c]), Erest. cbn [rev app].
      destruct (is_dot c && atBoundary rest) eqn:Edot.
      { apply andb_prop in Edot as [Ed Eb]. rewrite Hb in Eb.
        destruct e' as [|? ?]; [|discriminate].
        rewrite (proj1 (IH rest Hrest out dd)), Erest. simpl. now rewrite Ed. }
      assert (Hnd : isDotElem (c :: e') = false)
        by (now rewrite isDotElem_cons, <- Hb).
      destruct rest as [|c2 rest2].
      { injection Erest as <- <-. simpl. simpl in Hnd. now rewrite Hnd. }
      simpl in Hlen. assert (Hrest2 : (length rest2 <= n)%nat) by lia.
      destruct (splitSlash_cons rest2 []) as (e2 & ss2 & Erest2).
      pose proof (atBoundary_split _ _ _ Erest2) as Hb2.
      destruct (is_slash c2) eqn:Ec2.
      { (* the element is the single byte c *)
        simpl in Erest. rewrite Ec2 in Erest. injection Erest as <- <-.
        assert (is_dot c2 = false) as Ed2.
        { apply is_slash_true in Ec2. subst c2. reflexivity. }
        rewrite Ed2, andb_false_r. cbn [andb].
        rewrite (proj2 (IH (c2 :: rest2) Hrest (c :: addSlash r out) dd) [] (splitSlash rest2 [])).
        2:{ simpl. now rewrite Ec2. }
        rewrite segLoop_real; [reflexivity | discriminate | exact Hnd | reflexivity]. }
      assert (Ee' : e' = c2 :: e2 /\ ss' = ss2).
      { simpl in Erest. rewrite Ec2 in Erest.
        rewrite splitSlash_acc, Erest2 in Erest. simpl in Erest.
        injection Erest as <- <-. split; reflexivity. }
      destruct Ee' as [-> ->].
      destruct (is_dot c && is_dot c2 && atBoundary rest2) eqn:Edd.
      { (* .. element *)
        rewrite Hb2 in Edd.
        destruct (dotdotStep r out dd) as [o' d'] eqn:Estep.
        rewrite (proj1 (IH rest2 Hrest2 o' d')), Erest2.
        cbn [segLoop]. rewrite Hnd, isDotDotElem_cons2, Edd, Estep.
        apply andb_prop in Edd as [_ El].
        destruct e2; [reflexivity | discriminate]. }
      (* real element *)
      rewrite (proj2 (IH (c2 :: rest2) Hrest (c :: addSlash r out) dd) _ _ Erest).
      rewrite segLoop_real; [| discriminate | exact Hnd |].
      * cbn [rev]. now rewrite <- !app_assoc.
      * now rewrite isDotDotElem_cons2, <- Hb2.
    + (* inner loop *)
      intros e ss Esplit. cbn [cleanLoop]. simpl in Esplit.
      destruct (is_slash c) eqn:Ec.
      * injection Esplit as <- <-.
        rewrite (proj1 (IH rest Hrest out dd)). reflexivity.
      * rewrite splitSlash_acc, Erest in Esplit. simpl in Esplit.
        injection Esplit as <- <-.
        rewrite (proj2 (IH rest Hrest (c :: out) dd) _ _ Erest).
        cbn [rev]. now rewrite <- !app_assoc.
Qed.

Lemma cleanLoop_elems (r : bool) (path out : list ascii) (dd : nat) :
  cleanLoop r false path out dd = fst (segLoop r (splitSlash path []) out dd).
Proof. exact (proj1 (cleanLoop_elems_aux r (length path) path (le_n _) out dd)). Qed.

(** *** Real elements and the rooted buffer *)

Lemma realElem_inv (s : list ascii) :
  realElem s = true ->
  s <> [] /\ noSlash s /\ isDotElem s = false /\ isDotDotElem s = false.
Proof.
  unfold realElem. intros Hs.
  apply andb_prop in Hs as [Hs H4]. apply andb_prop in Hs as [Hs H3].
  apply andb_prop in Hs as [H1 H2].
  repeat split.
  - intros ->. discriminate.
  - apply Forall_forall. intros c Hc.
    rewrite forallb_forall in H2. specialize (H2 c).
    destruct (is_slash c); [|reflexivity].
    assert (negb true = true) by (apply H2; now apply list_elem_of_In).
    discriminate.
  - now destruct (isDotElem s).
  - now destruct (isDotDotElem s).
Qed.

Lemma realElem_intro (s : list ascii) :
  s <> [] -> noSlash s -> isDotElem s = false -> isDotDotElem s = false ->
  realElem s = true.
Proof.
  intros H1 H2 H3 H4. unfold realElem. rewrite H3, H4.
  rewrite !andb_true_r. apply andb_true_intro. split.
  - destruct s; [congruence | reflexivity].
  - apply forallb_forall. intros c Hc. apply list_elem_of_In in Hc.
    unfold noSlash in H2. rewrite Forall_forall in H2. now rewrite (H2 c Hc).
Qed.

Lemma splitSlash_noSlash (path cur : list ascii) :
  noSlash cur -> Forall noSlash (splitSlash path cur).
Proof.
  revert cur. induction path as [|c rest IH]; intros cur Hcur; simpl.
  - repeat constructor. now apply Forall_rev.
  - destruct (is_slash c) eqn:Ec.
    + constructor; [now apply Forall_rev | apply IH; constructor].
    + apply IH. now constructor.
Qed.

Lemma flat_snoc (st : list (list ascii)) (t : list ascii) :
  flat (st ++ [t]) = flat st ++ slash :: t.
Proof.
  unfold flat. rewrite map_app, concat_app. simpl. now rewrite app_nil_r.
Qed.

Lemma flat_length (s : list ascii) (st : list (list ascii)) :
  s <> [] -> (2 <= length (flat (s :: st)))%nat.
Proof.
  intros Hs. unfold flat. simpl. rewrite length_app.
  destruct s; [congruence | simpl; lia].
Qed.

Lemma rootedPath_snoc_length (st : list (list ascii)) (t : list ascii) :
  forallb realElem (st ++ [t]) = true ->
  (2 <= length (flat (st ++ [t])))%nat.
Proof.
  intros Hr. destruct st as [|s st]; simpl in Hr.
  - apply andb_prop in Hr as [Ht _]. apply realElem_inv in Ht as (Ht & _).
    now apply (flat_length t []).
  - apply andb_prop in Hr as [Hs _]. apply realElem_inv in Hs as (Hs & _).
    now apply (flat_length s (st ++ [t])).
Qed.

Lemma backtrack_to_root (rs : list ascii) :
  rs <> [] -> noSlash rs -> backtrack 1 (rs ++ [slash]) = [slash].
Proof.
  induction rs as [|c rs IH]; intros Hne Hns; [congruence|].
  inversion Hns as [|? ? Hc Hrs]; subst. simpl.
  destruct rs as [|c' rs'].
  - reflexivity.
  - rewrite Hc. simpl length. rewrite length_app. simpl.
    replace (1 <? S (length rs' + 1))%nat with true
      by (symmetry; apply Nat.ltb_lt; lia).
    apply IH; [discriminate | assumption].
Qed.

Lemma backtrack_to_slash (rs out : list ascii) :
  noSlash rs -> (2 <= length out)%nat ->
  backtrack 1 (rs ++ slash :: out) = out.
Proof.
  induction rs as [|c rs IH]; intros Hns Hlen.
  - simpl. now rewrite andb_false_r.
  - inversion Hns as [|? ? Hc Hrs]; subst. simpl. rewrite Hc.
    rewrite length_app. simpl.
    replace (1 <? length rs + S (length out))%nat with true
      by (symmetry; apply Nat.ltb_lt; lia).
    now apply IH.
Qed.

Lemma addSlash_root : addSlash true [slash] = [slash].
Proof. reflexivity. Qed.

Lemma addSlash_long (r : bool) (out : list ascii) :
  (2 <= length out)%nat -> addSlash r out = slash :: out.
Proof.
  intros Hlen. unfold addSlash.
  destruct out as [|a [|b out]]; simpl in Hlen; try lia.
  destruct r; reflexivity.
Qed.

Lemma addSlash_unrooted (out : list ascii) :
  out <> [] -> addSlash false out = slash :: out.
Proof. destruct out; [congruence | reflexivity]. Qed.

Lemma addSlash_rooted_nonempty (out : list ascii) : addSlash true out <> [].
Proof. unfold addSlash. destruct out as [|a [|b out]]; simpl; discriminate. Qed.

(** Pushing real elements. *)
Lemma segLoop_push (r : bool) (st : list (list ascii)) :
  forall (s out : list ascii) (dd : nat),
    forallb realElem (s :: st) = true ->
    (r = false -> s <> []) ->
    segLoop r (s :: st) out dd = (rev (s ++ flat st) ++ addSlash r out, dd).
Proof.
  induction st as [|t st IH]; intros s out dd Hr _.
  - simpl in Hr. apply andb_prop in Hr as [Hs _].
    apply realElem_inv in Hs as (Hs & _ & Hd & Hdd).
    rewrite segLoop_real by assumption. unfold flat. simpl.
    now rewrite app_nil_r.
  - cbn [forallb] in Hr. apply andb_prop in Hr as [Hs Hr].
    pose proof Hs as Hs'. apply realElem_inv in Hs' as (Hne & _ & Hd & Hdd).
    rewrite segLoop_real by assumption.
    rewrite IH; [| exact Hr |].
    2:{ intros _. cbn [forallb] in Hr. apply andb_prop in Hr as [Ht _].
        now apply realElem_inv in Ht as (Ht & _). }
    f_equal.
    assert (Hadd : addSlash r (rev s ++ addSlash r out) = slash :: rev s ++ addSlash r out).
    { destruct r.
      - apply addSlash_long. rewrite length_app, length_rev.
        pose proof (addSlash_rooted_nonempty out).
        destruct s; [congruence|]. destruct (addSlash true out); [congruence|].
        simpl. lia.
      - apply addSlash_unrooted. destruct s; [congruence|].
        simpl. intros E. apply app_eq_nil in E as [E _].
        apply app_eq_nil in E as [_ E]. discriminate. }
    rewrite Hadd. unfold flat. simpl.
    rewrite !rev_app_distr. simpl. rewrite !rev_app_distr.
    rewrite <- !app_assoc. simpl. reflexivity.
Qed.

Lemma splitSlash_flat (st : list (list ascii)) :
  Forall noSlash st -> forall s cur,
    noSlash s -> splitSlash (s ++ flat st) cur = (rev cur ++ s) :: st.
Proof.
  induction 1 as [|t st Ht Hst IH]; intros s cur Hs.
  - unfold flat. simpl. rewrite app_nil_r.
    rewrite splitSlash_noslash; [reflexivity|].
    apply forallb_forall. intros c Hc. apply list_elem_of_In in Hc.
    unfold noSlash in Hs. rewrite Forall_forall in Hs. now rewrite (Hs c Hc).
  - unfold flat. simpl. fold (flat st).
    rewrite splitSlash_app. rewrite (IH t [] Ht). simpl.
    rewrite splitSlash_noslash; [reflexivity|].
    apply forallb_forall. intros c Hc. apply list_elem_of_In in Hc.
    unfold noSlash in Hs. rewrite Forall_forall in Hs. now rewrite (Hs c Hc).
Qed.

Lemma realElems_noSlash (st : list (list ascii)) :
  forallb realElem st = true -> Forall noSlash st.
Proof.
  induction st as [|s st IH]; simpl; intros Hr; [constructor|].
  apply andb_prop in Hr as [Hs Hr]. constructor; [|now apply IH].
  now apply realElem_inv in Hs as (_ & Hs & _).
Qed.

Lemma splitSlash_rootedPath (st : list (list ascii)) :
  forallb realElem st = true ->
  splitSlash (rootedPath st) [] = match st with [] => [[]; []] | _ => [] :: st end.
Proof.
  intros Hr. destruct st as [|s st]; [reflexivity|].
  unfold rootedPath, flat. simpl. fold (flat st). f_equal.
  pose proof (realElems_noSlash _ Hr) as Hns. inversion Hns; subst.
  now rewrite splitSlash_flat.
Qed.

Lemma forallb_rev_true {A : Type} (f : A -> bool) (l : list A) :
  forallb f (rev l) = true <-> forallb f l = true.
Proof.
  rewrite !forallb_forall. split; intros Hl x Hx; apply Hl.
  - now apply in_rev in Hx.
  - now apply in_rev.
Qed.

Lemma rootedPath_snoc (st : list (list ascii)) (t : list ascii) :
  rootedPath (st ++ [t]) = flat st ++ slash :: t.
Proof.
  destruct st; [|apply (flat_snoc (_ :: _))].
  unfold rootedPath, flat. simpl. now rewrite app_nil_r.
Qed.

(** The buffer of a rooted path, as a stack of real elements [rst], the
    last element first. *)
Lemma rootedBuf_cons (t : list ascii) (rst : list (list ascii)) :
  rev (rootedPath (rev (t :: rst))) = rev t ++ slash :: rev (flat (rev rst)).
Proof.
  cbn [rev]. rewrite rootedPath_snoc, rev_app_distr. cbn [rev].
  now rewrite <- app_assoc.
Qed.

Lemma rootedBuf_long (t : list ascii) (rst : list (list ascii)) :
  t <> [] -> (2 <= length (rev (rootedPath (rev (t :: rst)))))%nat.
Proof.
  intros Ht. rewrite rootedBuf_cons, length_app, length_rev. simpl.
  destruct t; [congruence | simpl; lia].
Qed.

Lemma rootedBuf_flat (t : list ascii) (rst : list (list ascii)) :
  rev (flat (rev (t :: rst))) = rev (rootedPath (rev (t :: rst))).
Proof. cbn [rev]. now destruct (rev rst). Qed.

(** On a rooted buffer the element loop keeps a rooted buffer. *)
Lemma rooted_segLoop (ss : list (list ascii)) :
  Forall noSlash ss ->
  forall rst, forallb realElem rst = true ->
    exists rst', forallb realElem rst' = true /\
      segLoop true ss (rev (rootedPath (rev rst))) 1 = (rev (rootedPath (rev rst')), 1%nat).
Proof.
  induction 1 as [|s ss Hs Hss IH]; intros rst Hrst.
  - exists rst. now split.
  - destruct s as [|c s0]; [now apply IH|].
    cbn [segLoop].
    destruct (isDotElem (c :: s0)) eqn:Ed; [now apply IH|].
    destruct (isDotDotElem (c :: s0)) eqn:Edd.
    + (* pop *)
      destruct rst as [|t rst0].
      * simpl. apply (IH [] eq_refl).
      * cbn [forallb] in Hrst. apply andb_prop in Hrst as [Ht Hrst0].
        apply realElem_inv in Ht as (Htne & Htns & _).
        unfold dotdotStep.
        replace (1 <? length (rev (rootedPath (rev (t :: rst0)))))%nat with true
          by (symmetry; apply Nat.ltb_lt; pose proof (rootedBuf_long t rst0 Htne); lia).
        rewrite rootedBuf_cons.
        assert (Hrt : noSlash (rev t)) by now apply Forall_rev.
        destruct rst0 as [|t0 rst1].
        { simpl. rewrite backtrack_to_root.
          - apply (IH [] eq_refl).
          - destruct t; [congruence|]. simpl. now destruct (rev t).
          - exact Hrt. }
        rewrite backtrack_to_slash.
        { rewrite rootedBuf_flat. now apply IH. }
        { exact Hrt. }
        { rewrite rootedBuf_flat. apply rootedBuf_long.
          cbn [forallb] in Hrst0. apply andb_prop in Hrst0 as [Ht0 _].
          now apply realElem_inv in Ht0 as (Ht0 & _). }
    + (* push *)
      assert (Hreal : realElem (c :: s0) = true)
        by (apply realElem_intro; [discriminate | assumption..]).
      destruct (IH ((c :: s0) :: rst)) as (rst' & Hrst' & E).
      { cbn [forallb]. now rewrite Hreal. }
      exists rst'. split; [exact Hrst'|]. rewrite <- E. f_equal.
      rewrite rootedBuf_cons.
      destruct rst as [|t rst0].
      * reflexivity.
      * rewrite rootedBuf_flat. rewrite addSlash_long; [reflexivity|].
        apply rootedBuf_long. cbn [forallb] in Hrst.
        apply andb_prop in Hrst as [Ht _].
        now apply realElem_inv in Ht as (Ht & _).
Qed.

(** Cleaning a rooted path gives the root or [/s1/.../sn] over real
    elements. *)
Lemma cleanChars_rooted (t : list ascii) :
  exists st, forallb realElem st = true /\ cleanChars (slash :: t) = rootedPath st.
Proof.
  unfold cleanChars. rewrite is_slash_slash, cleanLoop_elems.
  assert (Hnil : noSlash []) by constructor.
  destruct (rooted_segLoop (splitSlash t []) (splitSlash_noSlash t [] Hnil) [] eq_refl)
    as (rst & Hrst & E).
  change [slash] with (rev (rootedPath (rev []))). rewrite E. cbn [fst].
  exists (rev rst). split; [now apply forallb_rev_true|].
  destruct (rev (rootedPath (rev rst))) eqn:Eo.
  - apply (f_equal (@length ascii)) in Eo. rewrite length_rev in Eo.
    destruct (rev rst); simpl in Eo; [lia|].
    unfold flat in Eo. simpl in Eo. lia.
  - rewrite <- Eo. apply rev_involutive.
Qed.

(** The buffer and [dotdot] index [path.Clean] ends with. *)
Lemma cleanChars_state (c0 : ascii) (b' : list ascii) :
  exists r o d,
    cleanChars (c0 :: b') = match o with [] => [dot] | _ => rev o end /\
    (r = true -> exists rst, forallb realElem rst = true /\ o = rev (rootedPath (rev rst))) /\
    forall y, cleanChars ((c0 :: b') ++ slash :: y) =
              match fst (segLoop r (splitSlash y []) o d) with
              | [] => [dot]
              | o' => rev o'
              end.
Proof.
  destruct (is_slash c0) eqn:Ec.
  - assert (Hnil : noSlash []) by constructor.
    destruct (rooted_segLoop (splitSlash b' []) (splitSlash_noSlash b' [] Hnil) [] eq_refl)
      as (rst & Hrst & E).
    change (rev (rootedPath (rev []))) with [slash] in E.
    exists true, (rev (rootedPath (rev rst))), 1%nat. split; [|split].
    + unfold cleanChars. now rewrite Ec, cleanLoop_elems, E.
    + intros _. now exists rst.
    + intros y. cbn [app]. unfold cleanChars.
      rewrite Ec, cleanLoop_elems, splitSlash_app, segLoop_app, E.
      cbv beta iota zeta.
      now destruct (fst (segLoop true (splitSlash y []) (rev (rootedPath (rev rst))) 1)).
  - destruct (segLoop false (splitSlash (c0 :: b') []) [] 0) as [o d] eqn:E.
    exists false, o, d. split; [|split].
    + unfold cleanChars. now rewrite Ec, cleanLoop_elems, E.
    + discriminate.
    + intros y. cbn [app]. unfold cleanChars. rewrite Ec, cleanLoop_elems.
      change (c0 :: b' ++ slash :: y) with ((c0 :: b') ++ slash :: y).
      rewrite splitSlash_app, segLoop_app, E. cbv beta iota zeta.
      now destruct (fst (segLoop false (splitSlash y []) o d)).
Qed.

(** [path.Join] of a base and a rooted clean path: the cleaned base
    followed by the path, without the path when it is the root and
    without a second separator when the cleaned base is the root. *)
Lemma joinChars_rooted (b : list ascii) (st : list (list ascii)) :
  forallb realElem st = true ->
  cleanChars b <> [dot] ->
  match st with
  | [] => joinChars [b; rootedPath st] = cleanChars b
  | _ => joinChars [b; rootedPath st] = cleanChars b ++ rootedPath st
         \/ (cleanChars b = [slash] /\ joinChars [b; rootedPath st] = rootedPath st)
  end.
Proof.
  intros Hst Hb. destruct b as [|c0 b']; [now destruct Hb|].
  assert (Ej : joinChars [c0 :: b'; rootedPath st] =
               cleanChars ((c0 :: b') ++ slash :: rootedPath st)).
  { unfold joinChars. cbn [forallb length Nat.eqb andb joinBuf].
    destruct (rootedPath st); reflexivity. }
  destruct (cleanChars_state c0 b') as (r & o & d & Eb & Hr & Ey).
  rewrite Ej, Ey, (splitSlash_rootedPath st Hst).
  assert (Ho : o <> []) by (intros ->; now apply Hb).
  destruct st as [|s st2].
  - cbn [segLoop fst]. rewrite Eb. now destruct o.
  - change (segLoop r ([] :: s :: st2) o d) with (segLoop r (s :: st2) o d).
    rewrite segLoop_push; [|exact Hst|].
    2:{ intros _. cbn [forallb] in Hst. apply andb_prop in Hst as [Hs _].
        now apply realElem_inv in Hs as (Hs & _). }
    cbn [fst].
    assert (Hout : forall a, rev (rev (s ++ flat st2) ++ a) = rev a ++ s ++ flat st2).
    { intros a. now rewrite rev_app_distr, rev_involutive. }
    assert (Hne : forall a, a <> [] ->
              match rev (s ++ flat st2) ++ a with
              | [] => [dot]
              | o' => rev o'
              end = rev a ++ s ++ flat st2).
    { intros a Ha. destruct (rev (s ++ flat st2) ++ a) eqn:E.
      - apply app_eq_nil in E as [_ E]. congruence.
      - rewrite <- E. apply Hout. }
    assert (Ecb : cleanChars (c0 :: b') = rev o) by (rewrite Eb; now destruct o).
    destruct r.
    + destruct (Hr eq_refl) as (rst & Hrst & ->).
      rewrite Hne by apply addSlash_rooted_nonempty.
      destruct rst as [|t rst0].
      * right. split; [exact Ecb|]. reflexivity.
      * left. rewrite Ecb, addSlash_long.
        2:{ apply rootedBuf_long. cbn [forallb] in Hrst.
            apply andb_prop in Hrst as [Ht _].
            now apply realElem_inv in Ht as (Ht & _). }
        cbn [rev]. rewrite <- app_assoc. reflexivity.
    + left. rewrite addSlash_unrooted by exact Ho.
      rewrite Hne by discriminate. rewrite Ecb.
      cbn [rev]. rewrite <- app_assoc. reflexivity.
Qed.

End PathFacts.

(** The vectors of the library's own tests. *)
Example clean_vectors :
  map GoPath.Clean
    [""; "abc"; "abc/def"; "a/b/c"; "."; ".."; "../.."; "../../abc"; "/abc"; "/";
     "abc/"; "abc/def/"; "a/b/c/"; "./"; "../"; "../../"; "/abc/";
     "abc//def//ghi"; "//abc"; "///abc"; "//abc//"; "abc//";
     "abc/./def"; "/./abc/def"; "abc/.";
     "abc/def/ghi/../jkl"; "abc/def/../ghi/../jkl"; "abc/def/.."; "abc/def/../..";
     "/abc/def/../.."; "abc/def/../../.."; "/abc/def/../../.."; "abc/def/../../../ghi/jkl/../../../mno";
     "abc/./../def"; "abc//./../def"; "abc/../../././../def"]
  = ["."; "abc"; "abc/def"; "a/b/c"; "."; ".."; "../.."; "../../abc"; "/abc"; "/";
     "abc"; "abc/def"; "a/b/c"; "."; ".."; "../.."; "/abc";
     "abc/def/ghi"; "/abc"; "/abc"; "/abc"; "abc";
     "abc/def"; "/abc/def"; "abc";
     "abc/def/jkl"; "abc/jkl"; "abc"; ".";
     "/"; ".."; "/"; "../../mno";
     "def"; "def"; "../../def"].
Proof. vm_compute. reflexivity. Qed.

Example join_vectors :
  map GoPath.Join [[]; [""]; ["a"]; ["a"; "b"]; ["a"; ""]; [""; "b"]; ["/"; "a"];
                   ["/"; ""]; ["a/"; "b"]; ["a/"; ""]; [""; ""]; ["/webdav/"; "/"]]
  = [""; ""; "a"; "a/b"; "a"; "b"; "/a"; "/"; "a/b"; "a"; ""; "/webdav"].
Proof. vm_compute. reflexivity. Qed.

Example base_vectors :
  map GoPath.Base [""; "."; "/."; "/"; "////"; "x/"; "abc"; "abc/def"; "a/b/.x"; "a/b/c."; "a/b/c.x"]
  = ["."; "."; "."; "/"; "/"; "x"; "abc"; "def"; ".x"; "c."; "c.x"].
Proof. vm_compute. reflexivity. Qed.

(** ** The error mapper *)

Lemma fmtInt_reads_back (z : Z) :
  option_map Z.of_int (NilZero.int_of_string (fmtInt z)) = Some z.
Proof.
  unfold fmtInt. rewrite NilZero.isi.
  - simpl. now rewrite DecimalZ.of_to.
  - destruct z as [|p|p]; simpl; try discriminate.
    intros [= E]. now apply (DecimalPos.Unsigned.to_uint_nonnil p).
  - destruct z as [|p|p]; simpl; try discriminate.
    intros [= E]. now apply (DecimalPos.Unsigned.to_uint_nonnil p).
Qed.

(** C2: [httpStatusToOSError] is a function defined on every status
    code: 404 and 409 give not-exist, 403 and 423 permission-denied, 412
    already-exists, 507 the insufficient-storage error, and every other
    code the protocol error whose text carries the code in decimal, from
    which the code reads back. *)
Theorem httpStatusToOSError_table (path : string) :
  httpStatusToOSError 404 path = PathError "stat" path ErrNotExist /\
  httpStatusToOSError 403 path = PathError "access" path ErrPermission /\
  httpStatusToOSError 409 path = PathError "create" path ErrNotExist /\
  httpStatusToOSError 412 path = PathError "create" path ErrExist /\
  httpStatusToOSError 423 path = PathError "access" path ErrPermission /\
  httpStatusToOSError 507 path = PathError "write" path (Errorf "insufficient storage") /\
  forall code : Z,
    ~ In code [404; 403; 409; 412; 423; 507] ->
    httpStatusToOSError code path
      = PathError "webdav" path (Errorf ("http status " +:+ fmtInt code)) /\
    option_map Z.of_int (NilZero.int_of_string (fmtInt code)) = Some code.
Proof.
  repeat (split; [reflexivity|]).
  intros code Hcode. split; [|apply fmtInt_reads_back].
  unfold httpStatusToOSError.
  repeat match goal with
  | |- context [?a =? ?b] =>
      destruct (Z.eqb_spec a b) as [->|_];
      [exfalso; apply Hcode; simpl; tauto|]
  end.
  reflexivity.
Qed.

Lemma httpStatusToOSError_table_witness :
  httpStatusToOSError 500 "/a"
    = PathError "webdav" "/a" (Errorf "http status 500") /\
  httpStatusToOSError (-1) "/a"
    = PathError "webdav" "/a" (Errorf "http status -1").
Proof.
  split.
  - apply (proj2 (proj2 (proj2 (proj2 (proj2 (proj2 (httpStatusToOSError_table "/a"))))))).
    simpl. intros H; repeat (destruct H as [H|H]; [discriminate H|]); exact H.
  - apply (proj2 (proj2 (proj2 (proj2 (proj2 (proj2 (httpStatusToOSError_table "/a"))))))).
    simpl. intros H; repeat (destruct H as [H|H]; [discriminate H|]); exact H.
Defined.

(** ** Configuration *)

Lemma nonEmpty_true (s : string) : nonEmpty s = true <-> s <> "".
Proof.
  unfold nonEmpty. destruct (String.eqb_spec s ""); simpl; split; intros; congruence.
Qed.

(** C9: validation fails with a configuration error whenever the bearer
    token is set together with a user name or a password, and passes for
    every configuration with a URL in which they are not both set. *)
Theorem validate_auth_exclusive (c : Config) :
  (BearerToken c <> "" -> Username c <> "" \/ Password c <> "" ->
   exists field reason, validate c = Some (ConfigError field reason)) /\
  (URL c <> "" ->
   ~ (BearerToken c <> "" /\ (Username c <> "" \/ Password c <> "")) ->
   validate c = None).
Proof.
  unfold validate. split.
  - intros Hb Hup.
    destruct (String.eqb (URL c) ""); [eauto|].
    apply nonEmpty_true in Hb. rewrite Hb.
    assert (nonEmpty (Username c) || nonEmpty (Password c) = true) as ->.
    { apply orb_true_iff. destruct Hup as [Hu|Hp]; [left|right]; now apply nonEmpty_true. }
    simpl. eauto.
  - intros Hurl Hex.
    destruct (String.eqb_spec (URL c) ""); [congruence|].
    destruct (nonEmpty (BearerToken c) && (nonEmpty (Username c) || nonEmpty (Password c))) eqn:E;
      [|reflexivity].
    exfalso. apply Hex. apply andb_prop in E as [Hb Hup].
    split; [now apply nonEmpty_true|].
    apply orb_true_iff in Hup as [Hu|Hp]; [left|right]; now apply nonEmpty_true.
Qed.

Lemma validate_auth_exclusive_witness :
  (exists field reason,
     validate (mkConfig "https://dav.example.com/" "alice" "" "tok" 0 "")
     = Some (ConfigError field reason)) /\
  validate (mkConfig "https://dav.example.com/" "alice" "secret" "" 0 "") = None.
Proof.
  split.
  - apply (proj1 (validate_auth_exclusive _)); simpl; [discriminate | left; discriminate].
  - apply (proj2 (validate_auth_exclusive _)); simpl; [discriminate|].
    intros [Hb _]. now apply Hb.
Defined.

(** ** URL construction *)

Section BuildURL.
Context `{Externals}.
Import PathElems.

Lemma Clean_rooted (p : string) :
  exists segs, forallb realElem segs = true /\
    chars (GoPath.Clean ("/" +:+ p)) = rootedPath segs.
Proof.
  unfold GoPath.Clean. simpl chars.
  destruct (PathFacts.cleanChars_rooted (chars p)) as (st & Hst & E).
  exists st. split; [exact Hst|].
  rewrite list_ascii_of_string_of_list_ascii. exact E.
Qed.

(** An absolute base path never cleans to [.]. *)
Lemma Clean_abs_not_dot (p : string) :
  GoPath.IsAbs p = true -> GoPath.Clean p <> ".".
Proof.
  unfold GoPath.IsAbs, GoPath.Clean. destruct (chars p) as [|c t]; [discriminate|].
  intros Hc. apply is_slash_true in Hc. subst c.
  destruct (PathFacts.cleanChars_rooted t) as (st & _ & ->).
  destruct st; discriminate.
Qed.

(** C3, as the code has it: [buildURL] cleans the path into the root or
    [/s1/.../sn] over real elements (one leading separator, no [.] or
    [..]) and joins it onto the path of the base URL; when that base path
    does not clean to [.], the resulting path is the cleaned base path
    alone, or the cleaned base path followed by the cleaned path, or the
    cleaned path when the cleaned base path is the root: it always has
    the cleaned base path as a prefix. *)
Theorem buildURL_under_cleaned_base (c : webdavClient) (pathStr : string) (u : url.URL) :
  urlParse (urlString (baseURL c)) = inr u ->
  GoPath.Clean (url.Path u) <> "." ->
  let cleaned := GoPath.Clean ("/" +:+ GoStrings.TrimPrefixSlash pathStr) in
  let base := GoPath.Clean (url.Path u) in
  (exists segs, forallb realElem segs = true /\ chars cleaned = rootedPath segs) /\
  exists u',
    buildURL c pathStr = inr u' /\
    url.Path u' = GoPath.Join [url.Path u; cleaned] /\
    String.prefix base (url.Path u') = true /\
    (url.Path u' = base \/ url.Path u' = base +:+ cleaned
     \/ (base = "/" /\ url.Path u' = cleaned)).
Proof.
  intros Hu Hbase cleaned base.
  destruct (Clean_rooted (GoStrings.TrimPrefixSlash pathStr)) as (st & Hst & Ec).
  fold cleaned in Ec. split; [now exists st|].
  exists (setPath u (GoPath.Join [url.Path u; cleaned])).
  split; [unfold buildURL; now rewrite Hu|].
  split; [reflexivity|].
  cbn [setPath url.Path].
  assert (Hb : GoPath.cleanChars (chars (url.Path u)) <> [dot]).
  { intros E. apply Hbase. unfold GoPath.Clean. now rewrite E. }
  pose proof (PathFacts.joinChars_rooted _ st Hst Hb) as Hj.
  assert (Ejoin : GoPath.Join [url.Path u; cleaned]
                  = str (GoPath.joinChars [chars (url.Path u); rootedPath st])).
  { unfold GoPath.Join. cbn [map]. now rewrite Ec. }
  assert (Ecl : cleaned = str (rootedPath st)).
  { rewrite <- Ec. now rewrite string_of_list_ascii_of_string. }
  rewrite Ejoin.
  destruct st as [|s st2].
  - rewrite Hj. fold (GoPath.Clean (url.Path u)). fold base.
    split; [apply prefix_refl | now left].
  - destruct Hj as [Hj|[Hroot Hj]]; rewrite Hj.
    + rewrite str_app. fold (GoPath.Clean (url.Path u)). fold base.
      rewrite <- Ecl. split; [apply prefix_app | right; now left].
    + assert (Eb : base = "/").
      { unfold base, GoPath.Clean. now rewrite Hroot. }
      rewrite <- Ecl. split; [|right; right; now split].
      rewrite Eb, Ecl. unfold rootedPath, flat. cbn [map concat app str].
      change slash with "/"%char. cbn.
      now destruct (str (s ++ concat (map (cons "/"%char) st2))).
Qed.

End BuildURL.

Lemma buildURL_under_cleaned_base_witness :
  exists u',
    buildURL (H := Testbed.bed) Testbed.davClient "/a/../docs/./x.txt" = inr u' /\
    url.Path u' = "/webdav/docs/x.txt" /\
    String.prefix "/webdav" (url.Path u') = true.
Proof.
  destruct (buildURL_under_cleaned_base (H := Testbed.bed) Testbed.davClient
              "/a/../docs/./x.txt" (baseURL Testbed.davClient) eq_refl)
    as (_ & u' & Eu & Ep & Hpre & _).
  - vm_compute. discriminate.
  - exists u'. split; [exact Eu|]. split; [rewrite Ep; reflexivity | exact Hpre].
Defined.

(** The base path itself need not be a prefix of the result: the base
    path [/webdav/] and the path [/] give [/webdav]. *)
Lemma buildURL_base_not_prefix :
  exists u',
    buildURL (H := Testbed.bed) Testbed.davClient "/" = inr u' /\
    url.Path u' = "/webdav" /\
    String.prefix (url.Path (baseURL Testbed.davClient)) (url.Path u') = false.
Proof.
  eexists. split; [reflexivity|]. split; reflexivity.
Qed.

(** ** Names from hrefs *)

Lemma baseChars_nonempty (p : list ascii) : GoPath.baseChars p <> [].
Proof.
  unfold GoPath.baseChars. destruct p; [discriminate|].
  destruct (GoPath.lastElem _ _); discriminate.
Qed.

(** [path.Base] never returns the empty string. *)
Lemma Base_nonempty (p : string) : GoPath.Base p <> "".
Proof.
  unfold GoPath.Base. pose proof (baseChars_nonempty (chars p)).
  destruct (GoPath.baseChars (chars p)); [congruence | discriminate].
Qed.

Section Names.
Context `{Externals}.

(** The name [parseFileInfo] gives: the base name of the trimmed href,
    and the base name of the requested path only when that is [/]. *)
Lemma parseFileInfo_name (now : Time) (resp : response) (basePath : string) :
  exists fi, parseFileInfo now resp basePath = inr fi /\
    name fi =
      if String.eqb (GoPath.Base (GoStrings.TrimPrefixSlash (Href resp))) "/"
      then GoPath.Base basePath
      else GoPath.Base (GoStrings.TrimPrefixSlash (Href resp)).
Proof.
  unfold parseFileInfo. eexists. split; [reflexivity|]. cbn [name].
  destruct (String.eqb_spec (GoPath.Base (GoStrings.TrimPrefixSlash (Href resp))) "") as [E|_].
  - now apply Base_nonempty in E.
  - reflexivity.
Qed.

(** C8, what the code does with an empty href: [path.Base] of the empty
    string is [.], which is neither empty nor the root, so the name is
    [.] and not the base name of the requested path. *)
Theorem parseFileInfo_empty_href (now : Time) (resp : response) (basePath : string) :
  Href resp = "" ->
  exists fi, parseFileInfo now resp basePath = inr fi /\ name fi = ".".
Proof.
  intros Eh. destruct (parseFileInfo_name now resp basePath) as (fi & E & En).
  exists fi. split; [exact E|]. rewrite En, Eh. reflexivity.
Qed.

(** An href of separators only does fall back to the requested path. *)
Lemma parseFileInfo_root_href (now : Time) (resp : response) (basePath : string) :
  Href resp = "//" ->
  exists fi, parseFileInfo now resp basePath = inr fi /\ name fi = GoPath.Base basePath.
Proof.
  intros Eh. destruct (parseFileInfo_name now resp basePath) as (fi & E & En).
  exists fi. split; [exact E|]. rewrite En, Eh. reflexivity.
Qed.

End Names.

Lemma parseFileInfo_empty_href_witness :
  exists fi,
    parseFileInfo (H := Testbed.bed) 0 (Testbed.entry []) "/docs/report.txt" = inr fi /\
    name fi = "." /\ GoPath.Base "/docs/report.txt" = "report.txt".
Proof.
  destruct (parseFileInfo_empty_href (H := Testbed.bed) 0 (Testbed.entry []) "/docs/report.txt" eq_refl)
    as (fi & E & En).
  exists fi. split; [exact E|]. split; [exact En | reflexivity].
Defined.

(** ** Round trips *)

Section RoundTrips.
Context `{Externals}.

(** [doRequest] once the URL is built: the request goes to the
    transport and is recorded; an error of the transport comes back
    wrapped, a response as it is. *)
Lemma doRequest_sends (c : webdavClient) (method pathStr : string)
    (body : option (list ascii)) (headers : gmap string string) (n : Net)
    (reqURL u : url.URL) :
  buildURL c pathStr = inr reqURL ->
  urlParse (urlString reqURL) = inr u ->
  doRequest c method pathStr body headers n =
  let req := requestOf c method u body headers in
  match clientDo req (world n) with
  | (DoError err k, w') =>
      (inl (PathError method pathStr err), afterRead k body, afterSend n req w')
  | (DoResponse resp k, w') => (inr resp, afterRead k body, afterSend n req w')
  end.
Proof.
  intros Eb Eu. unfold doRequest. rewrite Eb, Eu.
  fold (requestOf c method u body headers). cbv zeta.
  destruct (clientDo _ _) as [[err k|resp k] w']; reflexivity.
Qed.

(** What a call of [doRequest] leaves on the wire: nothing when the
    request could not be built, else exactly one request with the given
    method and body. *)
Lemma doRequest_trace (c : webdavClient) (method pathStr : string)
    (body : option (list ascii)) (headers : gmap string string) (n : Net) :
  match doRequest c method pathStr body headers n with
  | (r, _, n') =>
      (sent n' = sent n /\ exists err, r = inl err) \/
      exists req, sent n' = sent n ++ [req] /\ Method req = method /\ Body req = body
  end.
Proof.
  unfold doRequest.
  destruct (buildURL c pathStr) as [err|reqURL]; [left; eauto|].
  destruct (urlParse (urlString reqURL)) as [err|u]; [left; eauto|].
  destruct (clientDo _ _) as [[err k|resp k] w']; right; eexists; simpl; eauto.
Qed.

(** C4, as the code has it: when the PROPFIND round trip comes back
    with status 207 and a multistatus without entries, [propfind] itself
    returns that multistatus and no error; [stat] turns it into a
    not-exist error; [readDir] returns an empty listing and no error. *)
Theorem empty_multistatus (c : webdavClient) (pathStr : string) (n n' : Net) :
  (emptyMultistatus c pathStr 0 n n' ->
     (exists ms, propfind c pathStr 0 n = (inr ms, n') /\ Responses ms = []) /\
     stat c pathStr n = (inl (PathError "stat" pathStr ErrNotExist), n') /\
     IsNotExist (PathError "stat" pathStr ErrNotExist) = true) /\
  (emptyMultistatus c (dirPath pathStr) 1 n n' ->
     (exists ms, propfind c (dirPath pathStr) 1 n = (inr ms, n') /\ Responses ms = []) /\
     readDir c pathStr n = (inr (Some []), n')).
Proof.
  assert (Hp : forall p depth, emptyMultistatus c p depth n n' ->
             exists ms, propfind c p depth n = (inr ms, n') /\ Responses ms = []).
  { intros p depth (resp & rest & ms & Ed & Es & Em & Er).
    exists ms. split; [|exact Er].
    unfold propfind. cbv zeta. rewrite Ed, Es, Em. reflexivity. }
  split; intros He; destruct (Hp _ _ He) as (ms & Ep & Er).
  - split; [eauto|]. split; [|reflexivity].
    unfold stat. now rewrite Ep, Er.
  - split; [eauto|]. unfold readDir. cbv zeta. now rewrite Ep, Er.
Qed.


End RoundTrips.

Lemma empty_multistatus_witness :
  stat (H := Testbed.bed) Testbed.davClient "/gone"
       (Testbed.start [Testbed.reply 207 ""])
  = (inl (PathError "stat" "/gone" ErrNotExist),
     snd (stat (H := Testbed.bed) Testbed.davClient "/gone"
               (Testbed.start [Testbed.reply 207 ""]))) /\
  readDir (H := Testbed.bed) Testbed.davClient "/dir"
          (Testbed.start [Testbed.reply 207 ""])
  = (inr (Some []),
     snd (readDir (H := Testbed.bed) Testbed.davClient "/dir"
                  (Testbed.start [Testbed.reply 207 ""]))).
Proof.
  split.
  - apply (proj1 (empty_multistatus (H := Testbed.bed) Testbed.davClient "/gone" _ _)).
    eexists _, _, _. split; [reflexivity|]. split; [reflexivity|]. split; reflexivity.
  - apply (proj2 (empty_multistatus (H := Testbed.bed) Testbed.davClient "/dir" _ _)).
    eexists _, _, _. split; [reflexivity|]. split; [reflexivity|]. split; reflexivity.
Defined.

(** On a 207 response with an empty multistatus [readDir] returns a
    listing, not an error. *)
Lemma readDir_empty_multistatus_no_error :
  fst (propfind (H := Testbed.bed) Testbed.davClient "/dir/" 1
                (Testbed.start [Testbed.reply 207 ""]))
  = inr {| Responses := [] |} /\
  fst (readDir (H := Testbed.bed) Testbed.davClient "/dir"
               (Testbed.start [Testbed.reply 207 ""]))
  = inr (Some []) /\
  ~ (exists err,
       fst (readDir (H := Testbed.bed) Testbed.davClient "/dir"
                    (Testbed.start [Testbed.reply 207 ""])) = inl err
       /\ IsNotExist err = true).
Proof.
  split; [reflexivity|]. split; [reflexivity|].
  intros (err & E & _). discriminate E.
Qed.



(** ** Seek *)

Lemma wrap64_id (z : Z) : minInt64 <= z <= maxInt64 -> wrap64 z = z.
Proof.
  unfold wrap64, minInt64, maxInt64. intros Hz.
  rewrite Z.mod_small; lia.
Qed.

(** Adding to a non-negative position cannot wrap below the smallest
    integer: a negative sum is the sum the code computes. *)
Lemma add64_negative (a b : Z) :
  0 <= a <= maxInt64 -> minInt64 <= b <= maxInt64 -> a + b < 0 ->
  add64 a b = a + b.
Proof.
  intros Ha Hb Hs. unfold add64. apply wrap64_id.
  unfold minInt64, maxInt64 in *. lia.
Qed.

Section SeekFacts.
Context `{Externals}.

(** A call that gets to an invalid whence or to a negative computed
    offset is refused and changes neither offset nor stream. *)
Lemma Seek_refused (f : File) (offset_ whence : Z) (n : Net) :
  closed f = false ->
  (whence <> SeekStart /\ whence <> SeekCurrent /\ whence <> SeekEnd)
  \/ (exists t, seekTarget f offset_ whence n = Some t /\ t < 0) ->
  exists f' n',
    Seek f offset_ whence n = (inl (InvalidSeekError offset_ whence), f', n') /\
    offset f' = offset f /\ reader f' = reader f.
Proof.
  intros Hopen Hbad. unfold Seek. rewrite Hopen.
  destruct Hbad as [(H0 & H1 & H2)|(t & Et & Hneg)].
  - apply Z.eqb_neq in H0, H1, H2. rewrite H0, H1, H2. eauto.
  - unfold seekTarget in Et.
    destruct (whence =? SeekStart).
    { injection Et as <-. apply Z.ltb_lt in Hneg. rewrite Hneg. eauto. }
    destruct (whence =? SeekCurrent).
    { injection Et as <-. apply Z.ltb_lt in Hneg. rewrite Hneg. eauto. }
    destruct (whence =? SeekEnd); [|discriminate].
    destruct (info f) as [i|].
    { injection Et as <-. apply Z.ltb_lt in Hneg. rewrite Hneg. eauto. }
    destruct (stat (client (fs f)) (path f) n) as [[err|i] n']; [discriminate|].
    injection Et as <-. apply Z.ltb_lt in Hneg. rewrite Hneg.
    exists (withInfo f (Some i)), n'. repeat split.
Qed.





(** A closed handle refuses the call as well, without touching the
    offset. *)
Lemma Seek_closed (f : File) (offset_ whence : Z) (n : Net) :
  closed f = true ->
  Seek f offset_ whence n = (inl (FileClosedError (path f)), f, n).
Proof. intros Hc. unfold Seek. now rewrite Hc. Qed.

(** With the position and the size non-negative, as on every handle
    [OpenFile] makes from a well-formed size, the computed offset is
    negative exactly when the sum is. *)
Lemma Seek_negative_sum (f : File) (offset_ : Z) (n : Net) (i : fileInfo) :
  closed f = false -> info f = Some i ->
  0 <= offset f <= maxInt64 -> 0 <= size i <= maxInt64 ->
  minInt64 <= offset_ <= maxInt64 ->
  forall whence base,
    (whence = SeekStart /\ base = 0) \/ (whence = SeekCurrent /\ base = offset f)
    \/ (whence = SeekEnd /\ base = size i) ->
    base + offset_ < 0 ->
    exists f' n',
      Seek f offset_ whence n = (inl (InvalidSeekError offset_ whence), f', n') /\
      offset f' = offset f.
Proof.
  intros Hopen Hi Ho Hs Hoff whence base Hw Hneg.
  destruct (Seek_refused f offset_ whence n Hopen) as (f' & n' & E & Eo & _).
  - right. unfold seekTarget.
    destruct Hw as [[-> ->]|[[-> ->]|[-> ->]]]; simpl.
    + exists offset_. split; [reflexivity | lia].
    + exists (add64 (offset f) offset_). split; [reflexivity|].
      rewrite add64_negative; assumption.
    + rewrite Hi. exists (add64 (size i) offset_). split; [reflexivity|].
      rewrite add64_negative; assumption.
  - eauto.
Qed.

End SeekFacts.



(** ** Directory listing *)

Lemma withDirIndex_same (f : File) : withDirIndex f (dirIndex f) = f.
Proof. now destruct f. Qed.

Section ReaddirFacts.
Context `{Externals}.

Lemma cachedDir_move (f : File) (l : list fileInfo) (j : Z) :
  cachedDir f l -> 0 <= j <= Z.of_nat (length l) -> cachedDir (withDirIndex f j) l.
Proof.
  intros (Hc & Hi & Hd & _) Hj.
  split; [exact Hc|]. split; [exact Hi|]. split; [exact Hd | exact Hj].
Qed.

(** One unbounded call: the rest of the cache, or end-of-listing when
    nothing is left; the cursor goes to the end. *)
Lemma Readdir_rest (f : File) (l : list fileInfo) (count : Z) (n : Net) :
  cachedDir f l -> count <= 0 ->
  Readdir f count n =
  (match drop (Z.to_nat (dirIndex f)) l with
   | [] => Err EOF
   | rest => Ok rest
   end, withDirIndex f (Z.of_nat (length l)), n).
Proof.
  intros (Hc & (i & Hi & Hdir) & Hd & Hidx) Hcount.
  unfold Readdir. rewrite Hc, Hi, Hdir, Hd. cbn [negb default from_option id].
  replace (count <=? 0) with true by (symmetry; apply Z.leb_le; lia).
  replace (0 <=? dirIndex f) with true by (symmetry; apply Z.leb_le; lia).
  replace (dirIndex f <=? Z.of_nat (length l)) with true by (symmetry; apply Z.leb_le; lia).
  cbn [andb]. now destruct (drop _ l).
Qed.

(** At the end of the cache every call gives end-of-listing and changes
    nothing. *)
Lemma Readdir_exhausted (f : File) (l : list fileInfo) (count : Z) (n : Net) :
  cachedDir f l -> dirIndex f = Z.of_nat (length l) -> 0 < count ->
  Readdir f count n = (Err EOF, f, n).
Proof.
  intros (Hc & (i & Hi & Hdir) & Hd & Hidx) Hend Hcount.
  unfold Readdir. rewrite Hc, Hi, Hdir, Hd. cbn [negb default from_option id].
  replace (count <=? 0) with false by (symmetry; apply Z.leb_gt; lia).
  replace (dirIndex f >=? Z.of_nat (length l)) with true
    by (symmetry; apply Z.geb_le; lia).
  reflexivity.
Qed.

(** One page: the next [k] entries, or those that are left. *)
Lemma Readdir_page (f : File) (l : list fileInfo) (k : Z) (n : Net) :
  cachedDir f l -> 0 < k -> Z.of_nat (length l) + k <= maxInt64 ->
  dirIndex f < Z.of_nat (length l) ->
  let stop := Z.min (dirIndex f + k) (Z.of_nat (length l)) in
  Readdir f k n =
  (Ok (take (Z.to_nat (stop - dirIndex f)) (drop (Z.to_nat (dirIndex f)) l)),
   withDirIndex f stop, n).
Proof.
  intros (Hc & (i & Hi & Hdir) & Hd & Hidx) Hk Hmax Hlt stop.
  unfold Readdir. rewrite Hc, Hi, Hdir, Hd. cbn [negb default from_option id].
  replace (k <=? 0) with false by (symmetry; apply Z.leb_gt; lia).
  replace (dirIndex f >=? Z.of_nat (length l)) with false
    by (symmetry; rewrite Z.geb_leb; apply Z.leb_gt; lia).
  assert (Eadd : add64 (dirIndex f) k = dirIndex f + k).
  { unfold add64. apply wrap64_id. unfold minInt64, maxInt64 in *. lia. }
  rewrite Eadd.
  assert (Estop : (if dirIndex f + k >? Z.of_nat (length l)
                   then Z.of_nat (length l) else dirIndex f + k) = stop).
  { unfold stop. destruct (Z.gtb_spec (dirIndex f + k) (Z.of_nat (length l))); lia. }
  rewrite Estop.
  replace (0 <=? dirIndex f) with true by (symmetry; apply Z.leb_le; lia).
  replace (dirIndex f <=? stop) with true by (symmetry; apply Z.leb_le; unfold stop; lia).
  reflexivity.
Qed.

(** Paging through a cached listing: pages of [k] give the rest of the
    cache in order, once each, and end with end-of-listing at the end of
    the cache, however much fuel is left. *)
Lemma readPages_cached (k : Z) (l : list fileInfo) (n : Net) :
  0 < k -> Z.of_nat (length l) + k <= maxInt64 ->
  forall (fuel : nat) (f : File),
    cachedDir f l ->
    (length l - Z.to_nat (dirIndex f) < fuel)%nat ->
    readPages fuel f k n =
    (drop (Z.to_nat (dirIndex f)) l, Some (Err EOF),
     withDirIndex f (Z.of_nat (length l)), n).
Proof.
  intros Hk Hmax. induction fuel as [|fuel IH]; intros f Hf Hfuel; [lia|].
  pose proof Hf as (_ & _ & _ & Hidx).
  cbn [readPages].
  destruct (Z.eq_dec (dirIndex f) (Z.of_nat (length l))) as [Eend|Hne].
  - rewrite (Readdir_exhausted f l k n Hf Eend Hk).
    rewrite Eend, Nat2Z.id, drop_all, <- Eend, withDirIndex_same. reflexivity.
  - assert (Hlt : dirIndex f < Z.of_nat (length l)) by lia.
    rewrite (Readdir_page f l k n Hf Hk Hmax Hlt). cbv zeta.
    set (stop := Z.min (dirIndex f + k) (Z.of_nat (length l))).
    assert (Hstop : dirIndex f < stop <= Z.of_nat (length l)) by (unfold stop; lia).
    rewrite (IH (withDirIndex f stop)).
    + destruct f; cbn [withDirIndex dirIndex] in *. f_equal. f_equal. f_equal.
      replace (Z.to_nat stop) with (Z.to_nat dirIndex0 + Z.to_nat (stop - dirIndex0))%nat by lia.
      rewrite <- drop_drop. apply take_drop.
    + apply cachedDir_move; [exact Hf | lia].
    + destruct f; cbn [withDirIndex dirIndex] in *. lia.
Qed.

(** On a cached listing pages of [k] and one unbounded call give the
    same entries in the same order, and at the end of the cache every
    further call gives end-of-listing. *)
Lemma Readdir_paging_cached (f : File) (l : list fileInfo) (k : Z) (n : Net) :
  cachedDir f l -> 0 < k -> Z.of_nat (length l) + k <= maxInt64 ->
  let rest := drop (Z.to_nat (dirIndex f)) l in
  let f' := withDirIndex f (Z.of_nat (length l)) in
  readPages (S (length l)) f k n = (rest, Some (Err EOF), f', n) /\
  Readdir f 0 n = (match rest with [] => Err EOF | _ => Ok rest end, f', n) /\
  Readdir f' k n = (Err EOF, f', n).
Proof.
  intros Hf Hk Hmax rest f'. split; [|split].
  - apply readPages_cached; [assumption..|lia].
  - unfold rest, f'. rewrite (Readdir_rest f l 0 n Hf) by lia.
    now destruct (drop _ l).
  - apply (Readdir_exhausted f' l k n); [|reflexivity|exact Hk].
    apply cachedDir_move; [exact Hf|]. destruct Hf as (_ & _ & _ & Hidx). lia.
Qed.

(** The first call on a fresh handle loads the listing; when the
    listing is not nil it is kept as the cache. *)
Lemma Readdir_loads (f : File) (l : list fileInfo) (count : Z) (n n' : Net) (i : fileInfo) :
  closed f = false -> info f = Some i -> isDir i = true -> dirInfos f = None ->
  readDir (client (fs f)) (path f) n = (inr (Some l), n') ->
  Readdir f count n = Readdir (withDirIndex (withDirInfos f (Some l)) 0) count n'.
Proof.
  intros Hc Hi Hdir Hd Hr. unfold Readdir.
  cbn [closed info dirInfos withDirIndex withDirInfos fs path].
  now rewrite Hc, Hi, Hdir, Hd, Hr.
Qed.

End ReaddirFacts.

(** C5 on an empty directory: the listing of an empty directory comes
    back as a nil slice, which [Readdir] takes for "not loaded".  After
    end-of-listing the next call asks the server again, and returns the
    entry that has appeared there instead of end-of-listing. *)
Theorem Readdir_empty_listing_refetched :
  let replies :=
    [Testbed.reply 207 ("D/dir/" +:+ Testbed.nl);
     Testbed.reply 207 ("D/dir/" +:+ Testbed.nl);
     Testbed.reply 207 ("D/dir/" +:+ Testbed.nl +:+ "F/dir/new.txt" +:+ Testbed.nl)] in
  exists f n1 f1 n2 f2 n3 e,
    OpenFile (H := Testbed.bed) Testbed.davFS "/dir" O_RDONLY 0 (Testbed.start replies)
    = (inr f, n1) /\
    Readdir (H := Testbed.bed) f 1 n1 = (Err EOF, f1, n2) /\
    dirInfos f1 = None /\
    Readdir (H := Testbed.bed) f1 1 n2 = (Ok [e], f2, n3) /\
    name e = "new.txt" /\
    map Method (sent n3) = ["PROPFIND"; "PROPFIND"; "PROPFIND"].
Proof.
  intros replies. do 7 eexists.
  split; [vm_compute; reflexivity|].
  split; [vm_compute; reflexivity|].
  split; [reflexivity|].
  split; [vm_compute; reflexivity|].
  split; reflexivity.
Qed.

(** ** Uploads *)

Section Uploads.
Context `{Externals}.

(** What [put] leaves on the wire. *)
Lemma put_trace (c : webdavClient) (pathStr : string) (data : list ascii) (n : Net) :
  match put c pathStr data n with
  | (r, _, n') =>
      (sent n' = sent n /\ r <> None) \/
      exists req, sent n' = sent n ++ [req] /\ Method req = "PUT" /\ Body req = Some data
  end.
Proof.
  unfold put. cbv zeta.
  pose proof (doRequest_trace c "PUT" pathStr (Some data) putHeaders n) as Ht.
  destruct (doRequest c "PUT" pathStr (Some data) putHeaders n) as [[[err|resp] rest] n'].
  - destruct Ht as [[Es _]|Hreq]; [left; split; [exact Es | discriminate] | now right].
  - destruct Ht as [[_ (err & E)]|Hreq]; [discriminate|].
    destruct (negb (StatusCode resp =? 201) && negb (StatusCode resp =? 204)); now right.
Qed.

(** A [put] that returns no error: the request went out to the URL
    built from the path, with the whole of [data] as its body, the remote
    end answered 201 or 204, and what the transport had not read of the
    body by then is left in the reader. *)
Lemma put_success (c : webdavClient) (pathStr : string) (data rest : list ascii)
    (n n' : Net) :
  put c pathStr data n = (None, rest, n') ->
  exists reqURL req resp k,
    buildURL c pathStr = inr reqURL /\
    urlParse (urlString reqURL) = inr (ReqURL req) /\
    sent n' = sent n ++ [req] /\ Method req = "PUT" /\ Body req = Some data /\
    clientDo req (world n) = (DoResponse resp k, world n') /\
    (StatusCode resp = 201 \/ StatusCode resp = 204) /\
    rest = drop k data.
Proof.
  unfold put, doRequest. cbv zeta.
  destruct (buildURL c pathStr) as [err|reqURL]; [discriminate|].
  destruct (urlParse (urlString reqURL)) as [err|u] eqn:Eu; [discriminate|].
  destruct (clientDo _ _) as [[err k|resp k] w'] eqn:Ed; [discriminate|].
  destruct (negb (StatusCode resp =? 201) && negb (StatusCode resp =? 204)) eqn:Es;
    [discriminate|].
  intros [= <- <-].
  exists reqURL, (requestOf c "PUT" u (Some data) putHeaders), resp, k.
  cbn [sent world ReqURL Method Body requestOf].
  split; [reflexivity|]. split; [exact Eu|].
  split; [reflexivity|]. split; [reflexivity|]. split; [reflexivity|].
  split; [exact Ed|]. split; [|reflexivity].
  apply andb_false_iff in Es as [Es|Es]; apply negb_false_iff, Z.eqb_eq in Es; auto.
Qed.

Lemma Write_ok (f f' : File) (b : list ascii) (k : Z) :
  Write f b = (Ok k, f') ->
  closed f = false /\
  f' = withModified
         (withOffset (withBuffer f (Some (default [] (buffer f) ++ b)))
                     (add64 (offset f) (Z.of_nat (length b)))) true.
Proof.
  unfold Write. destruct (closed f); [discriminate|].
  destruct (negb _); [|discriminate].
  destruct (info f) as [i|]; [|discriminate].
  destruct (isDir i); [discriminate|].
  intros [= _ <-]. split; reflexivity.
Qed.


Lemma Close_modified (f : File) (buf : list ascii) (n : Net) :
  closed f = false -> buffer f = Some buf -> modified f = true ->
  Close f n =
  let f1 := withReader (withClosed f true) (closeReader (reader f)) in
  match put (client (fs f)) (path f) buf n with
  | (Some err, rest, n') => (Some err, withBuffer f1 (Some rest), n')
  | (None, rest, n') => (None, withBuffer f1 (Some rest), n')
  end.
Proof.
  intros Hc Hb Hm. unfold Close. rewrite Hc.
  cbn [buffer modified withReader withClosed fs path]. now rewrite Hb, Hm.
Qed.



End Uploads.





(** ** Opening *)

Section Opening.
Context `{Externals}.

(** C1: [OpenFile] stats the cleaned path first.  When the stat says
    not-exist: without the create flag the result is a not-exist error;
    with it, empty content is PUT and, if that succeeds, a second stat
    gives the metadata of the handle.  When the target exists: create
    together with exclusive gives an already-exists error; with the
    truncate flag on a non-directory, a handle is returned only after
    empty content was PUT, and unless create and exclusive are both set
    that PUT is always issued. *)
Theorem OpenFile_cases (fs : FileSystem) (name : string) (flag perm : Z) (n : Net) :
  let p := cleanPath fs name in
  (forall e n1,
      stat (client fs) p n = (inl e, n1) -> IsNotExist e = true ->
      (hasFlag flag O_CREATE = false ->
       OpenFile fs name flag perm n = (inl (PathError "open" p ErrNotExist), n1)) /\
      (hasFlag flag O_CREATE = true ->
       exists r rest n2,
         put (client fs) p [] n1 = (r, rest, n2) /\
         match r with
         | Some err => OpenFile fs name flag perm n = (inl err, n2)
         | None =>
             match stat (client fs) p n2 with
             | (inl err, n3) => OpenFile fs name flag perm n = (inl err, n3)
             | (inr i, n3) =>
                 exists f, OpenFile fs name flag perm n = (inr f, n3) /\
                           info f = Some i /\ path f = p /\ closed f = false
             end
         end)) /\
  (forall i n1,
      stat (client fs) p n = (inr i, n1) ->
      (hasFlag flag O_CREATE = true -> hasFlag flag O_EXCL = true ->
       OpenFile fs name flag perm n = (inl (PathError "open" p ErrExist), n1)) /\
      (hasFlag flag O_TRUNC = true -> isDir i = false ->
       (forall f n', OpenFile fs name flag perm n = (inr f, n') ->
                     exists rest, put (client fs) p [] n1 = (None, rest, n') /\
                                  info f = Some i) /\
       (hasFlag flag O_CREATE && hasFlag flag O_EXCL = false ->
        exists r rest n2,
          put (client fs) p [] n1 = (r, rest, n2) /\
          match r with
          | Some err => OpenFile fs name flag perm n = (inl err, n2)
          | None => exists f, OpenFile fs name flag perm n = (inr f, n2) /\
                              info f = Some i /\ path f = p
          end))).
Proof.
  intros p. split.
  - intros e n1 Es Hne. split.
    + intros Hc. unfold OpenFile. cbv zeta. fold p. now rewrite Es, Hne, Hc.
    + intros Hc. unfold OpenFile. cbv zeta. fold p. rewrite Es, Hne, Hc. cbn [negb].
      destruct (put (client fs) p [] n1) as [[r rest] n2].
      exists r, rest, n2. split; [reflexivity|].
      destruct r as [err|]; [reflexivity|].
      destruct (stat (client fs) p n2) as [[err|i] n3]; [reflexivity|].
      eexists. split; [reflexivity|].
      destruct (hasFlag flag O_APPEND); repeat split.
  - intros i n1 Es. split.
    + intros Hc Hx. unfold OpenFile. cbv zeta. fold p. now rewrite Es, Hc, Hx.
    + intros Ht Hd. split.
      * intros f n'. unfold OpenFile. cbv zeta. fold p. rewrite Es, Ht, Hd.
        destruct (hasFlag flag O_CREATE && hasFlag flag O_EXCL); [discriminate|].
        cbn [andb negb].
        destruct (put (client fs) p [] n1) as [[[err|] rest] n2]; [discriminate|].
        intros [= <- <-]. exists rest. split; [reflexivity|].
        now destruct (hasFlag flag O_APPEND).
      * intros Hcx. unfold OpenFile. cbv zeta. fold p. rewrite Es, Hcx, Ht, Hd.
        cbn [andb negb].
        destruct (put (client fs) p [] n1) as [[r rest] n2].
        exists r, rest, n2. split; [reflexivity|].
        destruct r as [err|]; [reflexivity|].
        eexists. split; [reflexivity|].
        destruct (hasFlag flag O_APPEND); split; reflexivity.
Qed.

End Opening.
Lemma OpenFile_cases_witness :
  (* not there, no create flag *)
  fst (OpenFile (H := Testbed.bed) Testbed.davFS "missing.txt" O_RDONLY 0
         (Testbed.start [Testbed.reply 404 ""]))
  = inl (PathError "open" "/missing.txt" ErrNotExist) /\
  (* not there, create flag: PROPFIND, PUT of nothing, PROPFIND *)
  (exists f n3 i,
     OpenFile (H := Testbed.bed) Testbed.davFS "new.txt" (Z.lor O_RDWR O_CREATE) 0
       (Testbed.start [Testbed.reply 404 ""; Testbed.reply 201 "";
                       Testbed.reply 207 ("F/new.txt" +:+ Testbed.nl)])
     = (inr f, n3) /\
     info f = Some i /\ name i = "new.txt" /\
     map Method (sent n3) = ["PROPFIND"; "PUT"; "PROPFIND"] /\
     map Body (sent n3) !! 1%nat = Some (Some [])) /\
  (* there, create and exclusive *)
  fst (OpenFile (H := Testbed.bed) Testbed.davFS "/a.txt"
         (Z.lor O_RDWR (Z.lor O_CREATE O_EXCL)) 0
         (Testbed.start [Testbed.reply 207 ("F/a.txt" +:+ Testbed.nl)]))
  = inl (PathError "open" "/a.txt" ErrExist) /\
  (* there, truncate *)
  (exists f n2,
     OpenFile (H := Testbed.bed) Testbed.davFS "/a.txt" (Z.lor O_RDWR O_TRUNC) 0
       (Testbed.start [Testbed.reply 207 ("F/a.txt" +:+ Testbed.nl); Testbed.reply 204 ""])
     = (inr f, n2) /\
     map Method (sent n2) = ["PROPFIND"; "PUT"] /\
     map Body (sent n2) !! 1%nat = Some (Some [])).
Proof.
  split; [|split; [|split]].
  - eassert (Es : stat (H := Testbed.bed) (client Testbed.davFS)
                    (cleanPath Testbed.davFS "missing.txt")
                    (Testbed.start [Testbed.reply 404 ""]) = (inl _, _))
      by (vm_compute; reflexivity).
    rewrite (proj1 (proj1 (OpenFile_cases (H := Testbed.bed) Testbed.davFS "missing.txt"
                             O_RDONLY 0 _) _ _ Es eq_refl) eq_refl).
    reflexivity.
  - eassert (Es : stat (H := Testbed.bed) (client Testbed.davFS)
                    (cleanPath Testbed.davFS "new.txt")
                    (Testbed.start [Testbed.reply 404 ""; Testbed.reply 201 "";
                                    Testbed.reply 207 ("F/new.txt" +:+ Testbed.nl)])
                  = (inl _, _))
      by (vm_compute; reflexivity).
    destruct (proj2 (proj1 (OpenFile_cases (H := Testbed.bed) Testbed.davFS "new.txt"
                              (Z.lor O_RDWR O_CREATE) 0 _) _ _ Es eq_refl) eq_refl)
      as (r & rest & n2 & Ep & Hr).
    match type of Ep with ?lhs = _ =>
      eassert (Ep' : lhs = (None, _, _)) by (vm_compute; reflexivity)
    end.
    rewrite Ep' in Ep. injection Ep as <- <- <-.
    lazymatch type of Hr with match ?X with _ => _ end =>
      eassert (Es2 : X = (inr _, _)) by (vm_compute; reflexivity);
      rewrite Es2 in Hr
    end.
    destruct Hr as (f & E & Ei & _).
    eexists f, _, _. split; [exact E|]. split; [exact Ei|].
    split; [reflexivity|]. split; reflexivity.
  - eassert (Es : stat (H := Testbed.bed) (client Testbed.davFS)
                    (cleanPath Testbed.davFS "/a.txt")
                    (Testbed.start [Testbed.reply 207 ("F/a.txt" +:+ Testbed.nl)])
                  = (inr _, _))
      by (vm_compute; reflexivity).
    rewrite (proj1 (proj2 (OpenFile_cases (H := Testbed.bed) Testbed.davFS "/a.txt"
                             (Z.lor O_RDWR (Z.lor O_CREATE O_EXCL)) 0 _) _ _ Es)
                   eq_refl eq_refl).
    reflexivity.
  - eassert (Es : stat (H := Testbed.bed) (client Testbed.davFS)
                    (cleanPath Testbed.davFS "/a.txt")
                    (Testbed.start [Testbed.reply 207 ("F/a.txt" +:+ Testbed.nl);
                                    Testbed.reply 204 ""])
                  = (inr _, _))
      by (vm_compute; reflexivity).
    destruct (proj2 (proj2 (proj2 (OpenFile_cases (H := Testbed.bed) Testbed.davFS "/a.txt"
                                     (Z.lor O_RDWR O_TRUNC) 0 _) _ _ Es)
                           eq_refl eq_refl) eq_refl)
      as (r & rest & n2 & Ep & Hr).
    match type of Ep with ?lhs = _ =>
      eassert (Ep' : lhs = (None, _, _)) by (vm_compute; reflexivity)
    end.
    rewrite Ep' in Ep. injection Ep as <- <- <-.
    destruct Hr as (f & E & _).
    eexists f, _. split; [exact E|]. split; reflexivity.
Defined.

(** * Further facts *)

(** ** Clean paths *)

Module PathFacts2.
Import GoPath PathElems PathFacts GoPathDir.

Lemma noSlash_forallb (s : list ascii) :
  noSlash s -> forallb (fun c => negb (is_slash c)) s = true.
Proof.
  intros Hs. apply forallb_forall. intros c Hc. apply list_elem_of_In in Hc.
  unfold noSlash in Hs. rewrite Forall_forall in Hs. now rewrite (Hs c Hc).
Qed.

Lemma rootedPath_cons (s : list ascii) (st : list (list ascii)) :
  rootedPath (s :: st) = slash :: s ++ flat st.
Proof. reflexivity. Qed.

(** The loop on [s1/s2/.../sn] followed by [tail], from the root. *)
Lemma cleanLoop_rooted_elems (s : list ascii) (st : list (list ascii)) :
  forallb realElem (s :: st) = true ->
  cleanLoop true false (s ++ flat st) [slash] 1 = rev (s ++ flat st) ++ [slash] /\
  cleanLoop true false ((s ++ flat st) ++ [slash]) [slash] 1 = rev (s ++ flat st) ++ [slash].
Proof.
  intros Hr. pose proof (realElems_noSlash _ Hr) as Hns.
  inversion Hns as [|? ? Hs Hst]; subst.
  assert (Hne : s <> []).
  { cbn [forallb] in Hr. apply andb_prop in Hr as [Hr _].
    now apply realElem_inv in Hr as (Hr & _). }
  split.
  - rewrite cleanLoop_elems, (splitSlash_flat st Hst s [] Hs). cbn [rev app].
    rewrite segLoop_push by (assumption || (intros _; exact Hne)).
    reflexivity.
  - rewrite cleanLoop_elems, splitSlash_app, segLoop_app.
    rewrite (splitSlash_flat st Hst s [] Hs). cbn [rev app].
    rewrite segLoop_push by (assumption || (intros _; exact Hne)).
    reflexivity.
Qed.

(** [path.Clean] leaves a rooted clean path as it is. *)
Lemma cleanChars_rootedPath (st : list (list ascii)) :
  forallb realElem st = true -> cleanChars (rootedPath st) = rootedPath st.
Proof.
  intros Hr. destruct st as [|s st]; [reflexivity|].
  rewrite rootedPath_cons. unfold cleanChars. rewrite is_slash_slash.
  rewrite (proj1 (cleanLoop_rooted_elems s st Hr)).
  destruct (rev (s ++ flat st) ++ [slash]) eqn:E.
  - apply app_eq_nil in E as [_ E]. discriminate.
  - rewrite <- E, rev_app_distr, rev_involutive. reflexivity.
Qed.

Lemma dropLastElem_elem (rt out : list ascii) :
  noSlash rt -> dropLastElem (rt ++ slash :: out) = slash :: out.
Proof.
  induction rt as [|c rt IH]; intros Hns; simpl.
  - reflexivity.
  - inversion Hns as [|? ? Hc Hrt]; subst. rewrite Hc. now apply IH.
Qed.

(** [path.Dir] of a rooted clean path drops its last element. *)
Lemma dirChars_rootedPath (st : list (list ascii)) (t : list ascii) :
  forallb realElem (st ++ [t]) = true ->
  dirChars (rootedPath (st ++ [t])) = rootedPath st.
Proof.
  intros Hr.
  assert (Hst : forallb realElem st = true /\ noSlash t).
  { rewrite forallb_app in Hr. apply andb_prop in Hr as [Hst Ht]. split; [exact Hst|].
    cbn [forallb] in Ht. apply andb_prop in Ht as [Ht _].
    now apply realElem_inv in Ht as (_ & Ht & _). }
  destruct Hst as [Hst Ht].
  unfold dirChars. rewrite rootedPath_snoc, rev_app_distr. cbn [rev].
  rewrite <- app_assoc. cbn [app].
  rewrite dropLastElem_elem by now apply Forall_rev.
  cbn [rev]. rewrite rev_involutive.
  destruct st as [|s st]; [reflexivity|].
  change (flat (s :: st)) with (slash :: s ++ flat st). cbn [app].
  unfold cleanChars. rewrite is_slash_slash.
  rewrite (proj2 (cleanLoop_rooted_elems s st Hst)).
  destruct (rev (s ++ flat st) ++ [slash]) eqn:E.
  - apply app_eq_nil in E as [_ E]. discriminate.
  - rewrite <- E, rev_app_distr, rev_involutive. reflexivity.
Qed.

Lemma rootedPath_length (st : list (list ascii)) :
  (length st <= length (rootedPath st))%nat.
Proof.
  destruct st as [|s st]; [simpl; lia|].
  unfold rootedPath. generalize (s :: st). intros l.
  induction l as [|a l IH]; [simpl; lia|].
  unfold flat in *. cbn [map concat]. rewrite length_app. simpl. lia.
Qed.

End PathFacts2.

Lemma rootedClean_IsAbs (p : string) : rootedClean p -> GoPath.IsAbs p = true.
Proof.
  intros (st & _ & E). unfold GoPath.IsAbs. rewrite E. now destruct st.
Qed.

Lemma rootedClean_Clean (p : string) : rootedClean p -> GoPath.Clean p = p.
Proof.
  intros (st & Hst & E). unfold GoPath.Clean.
  rewrite E, (PathFacts2.cleanChars_rootedPath st Hst), <- E.
  apply string_of_list_ascii_of_string.
Qed.

Lemma Clean_abs_rootedClean (p : string) :
  GoPath.IsAbs p = true -> rootedClean (GoPath.Clean p).
Proof.
  unfold GoPath.IsAbs, GoPath.Clean. destruct (chars p) as [|c t]; [discriminate|].
  intros Hc. apply is_slash_true in Hc. subst c.
  destruct (PathFacts.cleanChars_rooted t) as (st & Hst & E).
  exists st. split; [exact Hst|]. now rewrite list_ascii_of_string_of_list_ascii.
Qed.

(** Joining onto an absolute directory gives an absolute path. *)
Lemma Join_abs_rootedClean (dir name : string) :
  GoPath.IsAbs dir = true -> rootedClean (GoPath.Join [dir; name]).
Proof.
  unfold GoPath.IsAbs, GoPath.Join. cbn [map].
  destruct (chars dir) as [|c t]; [discriminate|].
  intros Hc. apply is_slash_true in Hc. subst c.
  unfold GoPath.joinChars. cbn [forallb length Nat.eqb andb GoPath.joinBuf].
  cbn [app].
  destruct (PathFacts.cleanChars_rooted (t ++ slash :: chars name)) as (st & Hst & E).
  exists st. split; [exact Hst|]. now rewrite list_ascii_of_string_of_list_ascii.
Qed.

Lemma cleanPath_rootedClean (fs : FileSystem) (name : string) :
  GoPath.IsAbs name = true \/ GoPath.IsAbs (cwd fs) = true ->
  rootedClean (cleanPath fs name).
Proof.
  intros Habs. unfold cleanPath. destruct (GoPath.IsAbs name) eqn:En.
  - now apply Clean_abs_rootedClean.
  - destruct Habs as [Habs|Habs]; [discriminate|].
    rewrite (rootedClean_Clean _ (Join_abs_rootedClean _ name Habs)).
    now apply Join_abs_rootedClean.
Qed.

(** X1: [cleanPath] of an absolute name, or of any name under an
    absolute working directory, is a rooted clean path (the root, or
    [/s1/.../sn] without empty, [.] or [..] elements), and cleaning it
    again changes nothing. *)
Theorem cleanPath_rooted_idempotent (fs : FileSystem) (name : string) :
  GoPath.IsAbs name = true \/ GoPath.IsAbs (cwd fs) = true ->
  rootedClean (cleanPath fs name) /\
  cleanPath fs (cleanPath fs name) = cleanPath fs name.
Proof.
  intros Habs.
  pose proof (cleanPath_rootedClean fs name Habs) as Hr.
  split; [exact Hr|].
  unfold cleanPath at 1. rewrite (rootedClean_IsAbs _ Hr).
  now apply rootedClean_Clean.
Qed.

Lemma cleanPath_rooted_idempotent_witness :
  cleanPath Testbed.davFS "a/./b/../../../c//d/" = "/c/d" /\
  cleanPath Testbed.davFS "/c/d" = "/c/d".
Proof.
  destruct (cleanPath_rooted_idempotent Testbed.davFS "a/./b/../../../c//d/") as [_ E].
  - right. reflexivity.
  - split; [reflexivity|]. exact E.
Defined.

(** ** What goes over the wire *)

Section Wire.
Context `{Externals}.

Lemma doRequest_sendsOne (c : webdavClient) (method pathStr : string)
    (body : option (list ascii)) (headers : gmap string string) (n : Net) :
  sendsOne method n (snd (doRequest c method pathStr body headers n)).
Proof.
  pose proof (doRequest_trace c method pathStr body headers n) as Ht.
  destruct (doRequest c method pathStr body headers n) as [[r rest] n'].
  cbn [snd]. destruct Ht as [[Es _]|(req & Es & Em & _)]; [now left | right; eauto].
Qed.

Lemma propfind_sendsOne (c : webdavClient) (pathStr : string) (depth : Z) (n : Net) :
  sendsOne "PROPFIND" n (snd (propfind c pathStr depth n)).
Proof.
  unfold propfind. cbv zeta.
  pose proof (doRequest_sendsOne c "PROPFIND" pathStr (Some (chars buildPropfindBody))
                (propfindHeaders depth) n) as Ht.
  destruct (doRequest _ _ _ _ _ n) as [[[err|resp] rest] n']; cbn [snd] in *; [exact Ht|].
  destruct (StatusCode resp =? 404); [exact Ht|].
  destruct (negb (StatusCode resp =? 207)); [exact Ht|].
  destruct (parseMultistatus (RespBody resp)); exact Ht.
Qed.

Lemma stat_sendsOne (c : webdavClient) (pathStr : string) (n : Net) :
  sendsOne "PROPFIND" n (snd (stat c pathStr n)).
Proof.
  unfold stat. pose proof (propfind_sendsOne c pathStr 0 n) as Ht.
  destruct (propfind c pathStr 0 n) as [[err|ms] n']; cbn [snd] in *; [exact Ht|].
  destruct (Responses ms); exact Ht.
Qed.

Lemma mkcol_sendsOne (c : webdavClient) (pathStr : string) (n : Net) :
  sendsOne "MKCOL" n (snd (mkcol c pathStr n)).
Proof.
  unfold mkcol. pose proof (doRequest_sendsOne c "MKCOL" pathStr None ∅ n) as Ht.
  destruct (doRequest _ _ _ _ _ n) as [[[err|resp] rest] n']; cbn [snd] in *; [exact Ht|].
  destruct (negb (StatusCode resp =? 201)); exact Ht.
Qed.

End Wire.

Section WireOnly.
Context `{Externals}.

Lemma sendsOnly_refl (ms : list string) (n : Net) : sendsOnly ms n n.
Proof. exists []. split; [now rewrite app_nil_r | constructor]. Qed.

Lemma sendsOnly_trans (ms : list string) (n1 n2 n3 : Net) :
  sendsOnly ms n1 n2 -> sendsOnly ms n2 n3 -> sendsOnly ms n1 n3.
Proof.
  intros (r1 & E1 & H1) (r2 & E2 & H2). exists (r1 ++ r2). split.
  - now rewrite E2, E1, app_assoc.
  - now apply Forall_app.
Qed.

Lemma sendsOne_sendsOnly (m : string) (ms : list string) (n n' : Net) :
  In m ms -> sendsOne m n n' -> sendsOnly ms n n'.
Proof.
  intros Hin [Es|(req & Es & Em)].
  - exists []. split; [now rewrite app_nil_r | constructor].
  - exists [req]. split; [exact Es|]. repeat constructor. now rewrite Em.
Qed.

End WireOnly.

(** ** Working directory and directories *)

Section Directories.
Context `{Externals}.

(** X2: [Chdir] keeps the working directory a rooted clean path.  It
    changes the working directory only when the stat of the cleaned
    target succeeds and reports a directory; otherwise the filesystem is
    as before. *)
Theorem Chdir_keeps_cwd_clean (fs : FileSystem) (dir : string) (n : Net) :
  rootedClean (cwd fs) ->
  match Chdir fs dir n with
  | (r, fs', n') =>
      rootedClean (cwd fs') /\ client fs' = client fs /\
      match r with
      | Some _ => fs' = fs
      | None =>
          cwd fs' = cleanPath fs dir /\
          exists info, stat (client fs) (cleanPath fs dir) n = (inr info, n') /\
                       isDir info = true
      end
  end.
Proof.
  intros Hcwd. unfold Chdir. cbv zeta.
  destruct (stat (client fs) (cleanPath fs dir) n) as [[err|info] n'] eqn:Es.
  - repeat split; assumption.
  - destruct (isDir info) eqn:Ed; cbn [negb].
    + split; [|split; [reflexivity|split; [reflexivity|eauto]]].
      cbn [cwd]. apply cleanPath_rootedClean. right.
      now apply rootedClean_IsAbs.
    + repeat split; assumption.
Qed.

Lemma String_length_chars (s : string) : String.length s = length (chars s).
Proof. induction s as [|c s IH]; simpl; [reflexivity | now rewrite IH]. Qed.

Lemma rootedClean_snoc_Dir (p : string) (st : list (list ascii)) (t : list ascii) :
  forallb PathElems.realElem (st ++ [t]) = true ->
  chars p = PathElems.rootedPath (st ++ [t]) ->
  chars (GoPathDir.Dir p) = PathElems.rootedPath st /\
  forallb PathElems.realElem st = true.
Proof.
  intros Hr E. split.
  - unfold GoPathDir.Dir. rewrite E, (PathFacts2.dirChars_rootedPath st t Hr).
    apply list_ascii_of_string_of_list_ascii.
  - rewrite forallb_app in Hr. now apply andb_prop in Hr as [Hr _].
Qed.

Lemma chars_eq_string (p : string) (l : list ascii) : chars p = l -> p = str l.
Proof. intros <-. symmetry. apply string_of_list_ascii_of_string. Qed.

(** With enough fuel for the elements of the cleaned path the recursion
    of [MkdirAll] comes to an end, and more fuel does not change the
    result. *)
Lemma MkdirAll_elems (fs : FileSystem) (perm : Z) (st : list (list ascii)) :
  forallb PathElems.realElem st = true ->
  forall (name : string) (n : Net),
    chars (cleanPath fs name) = PathElems.rootedPath st ->
    exists r, forall fuel, (length st < fuel)%nat ->
                           MkdirAll fuel fs name perm n = Some r.
Proof.
  induction st as [|t st IH] using rev_ind; intros Hr name n Ep.
  - (* the root *)
    destruct (stat (client fs) (cleanPath fs name) n) as [[err|info] n1] eqn:Es.
    + exists (mkcol (client fs) (cleanPath fs name) n1).
      intros [|fuel] Hf; [simpl in Hf; lia|]. cbn [MkdirAll]. rewrite Es.
      apply chars_eq_string in Ep. rewrite Ep. reflexivity.
    + exists (if isDir info then (None, n1)
              else (Some (PathError "mkdir" (cleanPath fs name) ErrExist), n1)).
      intros [|fuel] Hf; [simpl in Hf; lia|]. cbn [MkdirAll]. rewrite Es.
      now destruct (isDir info).
  - destruct (rootedClean_snoc_Dir _ st t Hr Ep) as [Ed Hst].
    destruct (stat (client fs) (cleanPath fs name) n) as [[err|info] n1] eqn:Es.
    2:{ exists (if isDir info then (None, n1)
                else (Some (PathError "mkdir" (cleanPath fs name) ErrExist), n1)).
        intros [|fuel] Hf; [simpl in Hf; lia|]. cbn [MkdirAll]. rewrite Es.
        now destruct (isDir info). }
    set (parent := GoPathDir.Dir (cleanPath fs name)) in *.
    assert (Hpc : cleanPath fs parent = parent).
    { assert (Hp : rootedClean parent) by (exists st; now split).
      unfold cleanPath. rewrite (rootedClean_IsAbs _ Hp).
      now apply rootedClean_Clean. }
    assert (Epc : chars (cleanPath fs parent) = PathElems.rootedPath st)
      by now rewrite Hpc.
    destruct (IH Hst parent n1 Epc) as (r0 & Hr0).
    destruct (negb (String.eqb parent "/") && negb (String.eqb parent ".")) eqn:Eroot.
    + exists (match r0 with
              | (Some e2, n2) => (Some e2, n2)
              | (None, n2) => mkcol (client fs) (cleanPath fs name) n2
              end).
      intros [|fuel] Hf; [lia|]. cbn [MkdirAll]. rewrite Es. fold parent.
      rewrite Eroot, Hr0 by (rewrite length_app in Hf; simpl in Hf; lia).
      now destruct r0 as [[e2|] n2].
    + exists (mkcol (client fs) (cleanPath fs name) n1).
      intros [|fuel] Hf; [lia|]. cbn [MkdirAll]. rewrite Es. fold parent.
      now rewrite Eroot.
Qed.

(** X3: under an absolute working directory (or for an absolute name)
    [MkdirAll] terminates: with more fuel than the cleaned path has bytes
    the model never runs out of fuel, and the result does not depend on
    the fuel. *)
Theorem MkdirAll_terminates (fs : FileSystem) (name : string) (perm : Z) (n : Net) :
  GoPath.IsAbs name = true \/ GoPath.IsAbs (cwd fs) = true ->
  exists r, forall fuel,
      (String.length (cleanPath fs name) < fuel)%nat ->
      MkdirAll fuel fs name perm n = Some r.
Proof.
  intros Habs.
  destruct (cleanPath_rootedClean fs name Habs) as (st & Hst & Ep).
  destruct (MkdirAll_elems fs perm st Hst name n Ep) as (r & Hr).
  exists r. intros fuel Hf. apply Hr.
  rewrite String_length_chars, Ep in Hf.
  pose proof (PathFacts2.rootedPath_length st). lia.
Qed.

(** X4: whatever [MkdirAll] does, it sends nothing but PROPFIND and
    MKCOL requests; when the target is there, the first stat settles the
    call: success for a directory, an already-exists error for anything
    else, and nothing more is sent. *)
Theorem MkdirAll_requests (fuel : nat) (fs : FileSystem) (name : string) (perm : Z)
    (n n' : Net) (r : option error) :
  MkdirAll fuel fs name perm n = Some (r, n') ->
  sendsOnly ["PROPFIND"; "MKCOL"] n n' /\
  forall info n1,
    stat (client fs) (cleanPath fs name) n = (inr info, n1) ->
    n' = n1 /\
    r = if isDir info then None
        else Some (PathError "mkdir" (cleanPath fs name) ErrExist).
Proof.
  revert name n n' r. induction fuel as [|fuel IH]; intros name n n' r; [discriminate|].
  cbn [MkdirAll]. cbv zeta.
  pose proof (stat_sendsOne (client fs) (cleanPath fs name) n) as Hs.
  destruct (stat (client fs) (cleanPath fs name) n) as [[err|info] n1]; cbn [snd] in Hs.
  - set (parent := GoPathDir.Dir (cleanPath fs name)).
    assert (Hs' : sendsOnly ["PROPFIND"; "MKCOL"] n n1)
      by (eapply sendsOne_sendsOnly; [|exact Hs]; simpl; auto).
    assert (Hm : forall m, sendsOnly ["PROPFIND"; "MKCOL"] m
                             (snd (mkcol (client fs) (cleanPath fs name) m))).
    { intros m. eapply sendsOne_sendsOnly; [|apply mkcol_sendsOne]. simpl; auto. }
    destruct (negb (String.eqb parent "/") && negb (String.eqb parent ".")).
    + destruct (MkdirAll fuel fs parent perm n1) as [[[e2|] n2]|] eqn:Ep; try discriminate.
      * intros [= <- <-]. split; [|discriminate].
        eapply sendsOnly_trans; [exact Hs'|]. exact (proj1 (IH _ _ _ _ Ep)).
      * intros [= E]. split; [|discriminate].
        eapply sendsOnly_trans; [exact Hs'|].
        eapply sendsOnly_trans; [exact (proj1 (IH _ _ _ _ Ep))|].
        specialize (Hm n2). rewrite E in Hm. exact Hm.
    + intros [= E]. split; [|discriminate].
      eapply sendsOnly_trans; [exact Hs'|].
      specialize (Hm n1). rewrite E in Hm. exact Hm.
  - assert (Hs' : sendsOnly ["PROPFIND"; "MKCOL"] n n1)
      by (eapply sendsOne_sendsOnly; [|exact Hs]; simpl; auto).
    destruct (isDir info) eqn:Ed; intros [= <- <-]; (split; [exact Hs'|]);
      intros info' n1' [= <- <-]; rewrite Ed; split; reflexivity.
Qed.

End Directories.

(** ** The handle after [Close] *)

Section ClosedHandle.
Context `{Externals} `{Streams}.

Lemma Close_closes (f f' : File) (n n' : Net) (r : option error) :
  Close f n = (r, f', n') -> closed f' = true /\ path f' = path f.
Proof.
  unfold Close. destruct (closed f) eqn:Ec.
  - intros [= <- <- <-]. now split.
  - cbn [buffer modified withReader withClosed fs path].
    destruct (buffer f) as [buf|]; [|intros [= <- <- <-]; now split].
    destruct (modified f); [|intros [= <- <- <-]; now split].
    destruct (put _ _ _ n) as [[[err|] rest] n'']; intros [= <- <- <-]; now split.
Qed.

(** X5: once [Close] has been called the handle is closed, whether the
    flush succeeded or failed.  A second [Close] returns no error and
    sends nothing (a failed flush is not tried again), and every other
    operation fails with the closed-file error of the path without
    touching handle or network. *)
Theorem closed_handle_refuses (f f' : File) (n n' : Net) (r : option error) :
  Close f n = (r, f', n') ->
  forall (m : Net),
    Close f' m = (None, f', m) /\
    (forall b, Write f' b = (Err (FileClosedError (path f)), f')) /\
    Sync f' m = (Some (FileClosedError (path f)), f', m) /\
    (forall off whence, Seek f' off whence m = (inl (FileClosedError (path f)), f', m)) /\
    (forall count, Readdir f' count m = (Err (FileClosedError (path f)), f', m)) /\
    OfFile.Stat f' m = (inl (FileClosedError (path f)), f', m) /\
    (forall size, OfFile.Truncate f' size = (Some (FileClosedError (path f)), f')) /\
    (forall k, Read f' k m = (Err (FileClosedError (path f)), f', m)) /\
    (forall k off, ReadAt f' k off m = (Err (FileClosedError (path f)), f', m)) /\
    (forall b off, WriteAt f' b off m = (Err (FileClosedError (path f)), f', m)).
Proof.
  intros Hc m. apply Close_closes in Hc as [Hc Hp].
  unfold Close, Write, Sync, Seek, Readdir, OfFile.Stat, OfFile.Truncate, Read, ReadAt, WriteAt.
  rewrite Hc, Hp. repeat split.
Qed.

End ClosedHandle.

(** ** Buffered writes *)

Lemma wrap64_add_l (x y : Z) : wrap64 (wrap64 x + y) = wrap64 (x + y).
Proof.
  unfold wrap64.
  replace ((x + 2 ^ 63) mod 2 ^ 64 - 2 ^ 63 + y + 2 ^ 63)
    with ((x + 2 ^ 63) mod 2 ^ 64 + y) by lia.
  rewrite Zplus_mod_idemp_l. f_equal. f_equal. lia.
Qed.

Section BufferedWrites.
Context `{Externals}.

(** What a run of successful writes leaves in the handle. *)
Lemma writeAll_ok (bs : list (list ascii)) :
  forall f f', writeAll f bs = Some f' ->
    closed f' = closed f /\ fs f' = fs f /\ path f' = path f /\ flag f' = flag f /\
    info f' = info f /\ reader f' = reader f /\
    (bs <> [] ->
     closed f' = false /\ modified f' = true /\
     buffer f' = Some (default [] (buffer f) ++ concat bs) /\
     offset f' = wrap64 (offset f + Z.of_nat (length (concat bs)))).
Proof.
  induction bs as [|b bs IH]; intros f f'.
  - intros [= <-]. repeat split; congruence.
  - cbn [writeAll]. destruct (Write f b) as [[k| |] f1] eqn:W; try discriminate.
    intros Hall. apply Write_ok in W as (Hopen & Ef1).
    assert (Hf1 : closed f1 = closed f /\ fs f1 = fs f /\ path f1 = path f /\
                  flag f1 = flag f /\ info f1 = info f /\ reader f1 = reader f /\
                  modified f1 = true /\
                  buffer f1 = Some (default [] (buffer f) ++ b) /\
                  offset f1 = add64 (offset f) (Z.of_nat (length b)))
      by (subst f1; repeat split).
    destruct Hf1 as (E1 & E2 & E3 & E4 & E5 & E6 & E7 & E8 & E9).
    destruct (IH _ _ Hall) as (Ec & Ef & Ep & Efl & Ei & Er & Hne).
    repeat split; try congruence.
    + destruct bs as [|b2 bs]; [injection Hall as <-; exact E7|].
      now destruct Hne as (_ & Hm & _).
    + destruct bs as [|b2 bs].
      * injection Hall as <-. rewrite E8. cbn [concat]. now rewrite app_nil_r.
      * destruct Hne as (_ & _ & Hb & _); [discriminate|].
        rewrite Hb, E8. cbn [default from_option id].
        change (concat (b :: b2 :: bs)) with (b ++ concat (b2 :: bs)).
        now rewrite <- app_assoc.
    + destruct bs as [|b2 bs].
      * injection Hall as <-. rewrite E9. cbn [concat]. now rewrite app_nil_r.
      * destruct Hne as (_ & _ & _ & Ho); [discriminate|].
        rewrite Ho, E9. unfold add64. rewrite wrap64_add_l. f_equal.
        change (concat (b :: b2 :: bs)) with (b ++ concat (b2 :: bs)).
        rewrite (length_app b). lia.
Qed.

(** X6: after a run of successful writes the offset has advanced by the
    number of bytes written (in 64-bit arithmetic), nothing has been sent,
    and [Close] sends at most one request: a PUT whose body is what was
    in the buffer followed by the chunks in the order written. *)
Theorem writes_flushed_on_Close (f f' : File) (bs : list (list ascii)) :
  writeAll f bs = Some f' -> bs <> [] ->
  offset f' = wrap64 (offset f + Z.of_nat (length (concat bs))) /\
  forall n r f'' n',
    Close f' n = (r, f'', n') ->
    (sent n' = sent n /\ r <> None) \/
    exists req, sent n' = sent n ++ [req] /\ Method req = "PUT" /\
                Body req = Some (default [] (buffer f) ++ concat bs).
Proof.
  intros Hall Hne.
  destruct (writeAll_ok bs f f' Hall) as (_ & Ef & Ep & _ & _ & _ & Hw).
  destruct (Hw Hne) as (Hc & Hm & Hb & Ho). split; [exact Ho|].
  intros n r f'' n'. rewrite (Close_modified f' _ n Hc Hb Hm). cbv zeta.
  pose proof (put_trace (client (fs f')) (path f') (default [] (buffer f) ++ concat bs) n) as Ht.
  destruct (put _ _ _ n) as [[[err|] rest] n2]; intros [= <- <- <-]; exact Ht.
Qed.

(** X7: [Truncate] to any size other than 0 fails with an
    invalid-argument error and leaves the handle as it is.  [Truncate(0)]
    on a handle open for writing empties the buffer and marks it
    modified but does not move the offset; what is written afterwards is
    all that [Close] uploads, and with nothing written afterwards [Close]
    uploads an empty body. *)
Theorem Truncate_resets_buffer (f : File) :
  closed f = false ->
  Z.land (flag f) (Z.lor O_WRONLY O_RDWR) <> 0 ->
  (forall size, size <> 0 ->
     OfFile.Truncate f size = (Some (PathError "truncate" (path f) ErrInvalid), f)) /\
  exists f0,
    OfFile.Truncate f 0 = (None, f0) /\ offset f0 = offset f /\
    forall bs f' n r f'' n',
      writeAll f0 bs = Some f' -> Close f' n = (r, f'', n') ->
      (sent n' = sent n /\ r <> None) \/
      exists req, sent n' = sent n ++ [req] /\ Method req = "PUT" /\
                  Body req = Some (concat bs).
Proof.
  intros Hc Hw. apply Z.eqb_neq in Hw. split.
  - intros size Hs. apply Z.eqb_neq in Hs. unfold OfFile.Truncate.
    now rewrite Hc, Hw, Hs.
  - exists (withModified (withBuffer f (Some [])) true).
    split; [unfold OfFile.Truncate; now rewrite Hc, Hw|].
    split; [reflexivity|].
    intros bs f' n r f'' n' Hall.
    destruct (writeAll_ok bs _ _ Hall) as (Ec & Ef & Ep & _ & _ & _ & Hne).
    destruct bs as [|b bs].
    + injection Hall as <-.
      rewrite (Close_modified (withModified (withBuffer f (Some [])) true) [] n
                 Hc eq_refl eq_refl).
      cbv zeta.
      pose proof (put_trace (client (fs f)) (path f) [] n) as Ht.
      cbn [fs path withModified withBuffer].
      destruct (put _ _ _ n) as [[[err|] rest] n2]; intros [= <- <- <-]; exact Ht.
    + destruct (Hne ltac:(discriminate)) as (Hc' & Hm & Hb & _).
      cbn [buffer withModified withBuffer default from_option id app] in Hb.
      rewrite (Close_modified f' _ n Hc' Hb Hm). cbv zeta.
      pose proof (put_trace (client (fs f')) (path f') (concat (b :: bs)) n) as Ht.
      destruct (put _ _ _ n) as [[[err|] rest] n2]; intros [= <- <- <-]; exact Ht.
Qed.

(** X8: after a [Sync] that returned no error nothing is pending: a
    second [Sync] and a [Close] return no error and send nothing. *)
Theorem Sync_leaves_nothing_pending (f f' : File) (n n' : Net) :
  Sync f n = (None, f', n') ->
  forall m,
    Sync f' m = (None, f', m) /\
    exists f'', Close f' m = (None, f'', m) /\ closed f'' = true.
Proof.
  unfold Sync at 1. destruct (closed f) eqn:Hc; [discriminate|].
  destruct (buffer f) as [buf|] eqn:Hb.
  - destruct (modified f) eqn:Hm.
    + destruct (put _ _ _ n) as [[[err|] rest] n2]; [discriminate|].
      intros [= <- <-] m. unfold Sync, Close.
      cbn [closed buffer modified withModified withBuffer withReader withClosed].
      rewrite Hc. split; [reflexivity|]. eexists. split; reflexivity.
    + intros [= <- <-] m. unfold Sync, Close.
      cbn [closed buffer modified withReader withClosed].
      rewrite Hc, Hb, Hm. split; [reflexivity|]. eexists. split; reflexivity.
  - intros [= <- <-] m. unfold Sync, Close.
    cbn [closed buffer modified withReader withClosed].
    rewrite Hc, Hb. split; [reflexivity|]. eexists. split; reflexivity.
Qed.

End BufferedWrites.

(** ** Headers *)

Section Headers.
Context `{Externals}.

Lemma authHeader_other (c : webdavClient) (k : string) :
  k <> "Authorization" -> authHeader c !! k = None.
Proof.
  intros Hk. unfold authHeader.
  destruct (nonEmpty (bearerToken c)); [now apply lookup_singleton_ne|].
  destruct (nonEmpty (username c) || nonEmpty (password c));
    [now apply lookup_singleton_ne | apply lookup_empty].
Qed.

Lemma requestOf_header (c : webdavClient) (method : string) (u : url.URL)
    (body : option (list ascii)) (headers : gmap string string) (k : string) :
  k <> "Authorization" ->
  Header (requestOf c method u body headers) !! k = headers !! k.
Proof.
  intros Hk. cbn [Header requestOf].
  rewrite lookup_union, (authHeader_other c k Hk).
  now destruct (headers !! k).
Qed.

(** [doRequest], with the request it sends spelled out. *)
Lemma doRequest_request (c : webdavClient) (method pathStr : string)
    (body : option (list ascii)) (headers : gmap string string) (n : Net) :
  match doRequest c method pathStr body headers n with
  | (r, _, n') =>
      (sent n' = sent n /\ exists err, r = inl err) \/
      exists u, sent n' = sent n ++ [requestOf c method u body headers]
  end.
Proof.
  unfold doRequest.
  destruct (buildURL c pathStr) as [err|reqURL]; [left; eauto|].
  destruct (urlParse (urlString reqURL)) as [err|u]; [left; eauto|].
  fold (requestOf c method u body headers).
  destruct (clientDo _ _) as [[err k|resp k] w']; right; exists u; reflexivity.
Qed.

(** [put] sends a whole-body upload: no [Content-Range]. *)
Lemma put_whole_body (c : webdavClient) (pathStr : string) (data : list ascii) (n : Net) :
  match put c pathStr data n with
  | (r, _, n') =>
      (sent n' = sent n /\ r <> None) \/
      exists req, sent n' = sent n ++ [req] /\ Method req = "PUT" /\
                  Body req = Some data /\ Header req !! "Content-Range" = None
  end.
Proof.
  unfold put. cbv zeta.
  pose proof (doRequest_request c "PUT" pathStr (Some data) putHeaders n) as Ht.
  destruct (doRequest c "PUT" pathStr (Some data) putHeaders n) as [[[err|resp] rest] n'].
  - destruct Ht as [[Es _]|(u & Es)]; [left; split; [exact Es | discriminate]|].
    right. eexists. split; [exact Es|]. repeat split.
    now rewrite requestOf_header.
  - destruct Ht as [[_ (err & E)]|(u & Es)]; [discriminate|].
    destruct (negb (StatusCode resp =? 201) && negb (StatusCode resp =? 204));
      right; eexists; (split; [exact Es|]); repeat split;
      now rewrite requestOf_header.
Qed.

(** [putRange] sends the bytes with their [Content-Range]. *)
Lemma putRange_request (c : webdavClient) (pathStr : string) (data : list ascii)
    (offset : Z) (n : Net) :
  match putRange c pathStr data offset n with
  | (r, n') =>
      (sent n' = sent n /\ r <> None) \/
      exists req, sent n' = sent n ++ [req] /\ Method req = "PUT" /\
                  Body req = Some data /\
                  Header req !! "Content-Range" = Some (contentRange offset data)
  end.
Proof.
  unfold putRange.
  pose proof (doRequest_request c "PUT" pathStr (Some data) (putRangeHeaders offset data) n)
    as Ht.
  assert (Hh : forall u, Header (requestOf c "PUT" u (Some data) (putRangeHeaders offset data))
                         !! "Content-Range" = Some (contentRange offset data)).
  { intros u. rewrite requestOf_header by discriminate. reflexivity. }
  destruct (doRequest c "PUT" pathStr (Some data) _ n) as [[[err|resp] rest] n'].
  - destruct Ht as [[Es _]|(u & Es)]; [left; split; [exact Es | discriminate]|].
    right. eexists. split; [exact Es|]. repeat split. apply Hh.
  - destruct Ht as [[_ (err & E)]|(u & Es)]; [discriminate|].
    destruct (negb (StatusCode resp =? 201) && negb (StatusCode resp =? 204));
      right; eexists; (split; [exact Es|]); repeat split; apply Hh.
Qed.

(** [get] sends a GET without body, with a [Range] header exactly when
    the offset is positive. *)
Lemma get_request (c : webdavClient) (pathStr : string) (offset : Z) (n : Net) :
  match get c pathStr offset n with
  | (r, n') =>
      (sent n' = sent n /\ exists err, r = inl err) \/
      exists req, sent n' = sent n ++ [req] /\ Method req = "GET" /\
                  Body req = None /\ Header req !! "Range" = rangeHeader offset
  end.
Proof.
  unfold get. cbv zeta.
  set (headers := if offset >? 0 then _ else _).
  assert (Hh : forall u, Header (requestOf c "GET" u None headers) !! "Range"
                         = rangeHeader offset).
  { intros u. rewrite requestOf_header by discriminate.
    unfold headers, rangeHeader. destruct (offset >? 0).
    - apply lookup_singleton_eq.
    - apply lookup_empty. }
  pose proof (doRequest_request c "GET" pathStr None headers n) as Ht.
  destruct (doRequest c "GET" pathStr None headers n) as [[[err|resp] rest] n'].
  - destruct Ht as [[Es _]|(u & Es)]; [left; split; [exact Es | eauto]|].
    right. eexists. split; [exact Es|]. repeat split. apply Hh.
  - destruct Ht as [[_ (err & E)]|(u & Es)]; [discriminate|].
    destruct (negb (StatusCode resp =? 200) && negb (StatusCode resp =? 206));
      right; eexists; (split; [exact Es|]); repeat split; apply Hh.
Qed.

End Headers.

(** ** Seeking, appending and positional writes *)

Section Positions.
Context `{Externals} `{Streams}.

Lemma Close_flush (f f' : File) (buf : list ascii) (n n' : Net) (r : option error) :
  closed f = false -> buffer f = Some buf -> modified f = true ->
  Close f n = (r, f', n') ->
  (sent n' = sent n /\ r <> None) \/
  exists req, sent n' = sent n ++ [req] /\ Method req = "PUT" /\
              Body req = Some buf /\ Header req !! "Content-Range" = None.
Proof.
  intros Hc Hb Hm. rewrite (Close_modified f buf n Hc Hb Hm). cbv zeta.
  pose proof (put_whole_body (client (fs f)) (path f) buf n) as Ht.
  destruct (put _ _ _ n) as [[[err|] rest] n2]; intros [= <- <- <-]; exact Ht.
Qed.

Lemma Seek_ok (f f1 : File) (off whence t : Z) (n n1 : Net) :
  Seek f off whence n = (inr t, f1, n1) ->
  0 <= t /\ offset f1 = t /\ seekTarget f off whence n = Some t /\
  closed f1 = false /\ closed f = false /\
  fs f1 = fs f /\ path f1 = path f /\ flag f1 = flag f /\
  buffer f1 = buffer f /\ modified f1 = modified f /\
  reader f1 = (if t =? offset f then reader f else None).
Proof.
  unfold Seek, seekTarget. destruct (closed f) eqn:Hc; [discriminate|].
  assert (Hfin : forall g m t',
             closed g = false -> offset g = offset f -> reader g = reader f ->
             fs g = fs f -> path g = path f -> flag g = flag f ->
             buffer g = buffer f -> modified g = modified f ->
             (if t' <? 0 then (inl (InvalidSeekError off whence), g, m)
              else (inr t',
                    withOffset
                      match reader g with
                      | Some _ => if negb (t' =? offset g) then withReader g None else g
                      | None => g
                      end t', m)) = (inr t, f1, n1) ->
             0 <= t /\ offset f1 = t /\ Some t' = Some t /\ closed f1 = false /\
             false = false /\
             fs f1 = fs f /\ path f1 = path f /\ flag f1 = flag f /\
             buffer f1 = buffer f /\ modified f1 = modified f /\
             reader f1 = (if t =? offset f then reader f else None)).
  { intros g m t' Hg Ho Hr E1 E2 E3 E4 E5.
    destruct (Z.ltb_spec t' 0); [discriminate|].
    intros [= -> <- <-]. rewrite Ho, Hr.
    destruct (reader f) as [r0|] eqn:Er; destruct (t =? offset f);
      cbn [negb closed fs path flag buffer modified reader offset withOffset withReader];
      repeat split; congruence. }
  destruct (whence =? SeekStart); [now apply Hfin|].
  destruct (whence =? SeekCurrent); [now apply Hfin|].
  destruct (whence =? SeekEnd); [|discriminate].
  destruct (info f) as [i|]; [now apply Hfin|].
  destruct (stat (client (fs f)) (path f) n) as [[err|i] n']; [discriminate|].
  now apply Hfin.
Qed.

(** X9: a [Seek] that succeeds stores the offset it returns, which is
    not negative, and drops the open download exactly when the offset
    changed; it does not touch the pending writes.  Bytes written after
    the seek are appended to the buffer whatever the position: [Close]
    uploads the earlier bytes followed by the later ones. *)
Theorem Seek_does_not_move_writes (f f1 f2 f3 : File) (bs1 bs2 : list (list ascii))
    (off whence t : Z) (n n1 : Net) :
  writeAll f bs1 = Some f1 ->
  Seek f1 off whence n = (inr t, f2, n1) ->
  writeAll f2 bs2 = Some f3 ->
  bs1 ++ bs2 <> [] ->
  0 <= t /\ offset f2 = t /\
  reader f2 = (if t =? offset f1 then reader f1 else None) /\
  buffer f3 = Some (default [] (buffer f) ++ concat bs1 ++ concat bs2) /\
  forall m r f4 m',
    Close f3 m = (r, f4, m') ->
    (sent m' = sent m /\ r <> None) \/
    exists req, sent m' = sent m ++ [req] /\ Method req = "PUT" /\
                Body req = Some (default [] (buffer f) ++ concat bs1 ++ concat bs2) /\
                Header req !! "Content-Range" = None.
Proof.
  intros W1 S W2 Hne.
  destruct (Seek_ok _ _ _ _ _ _ _ S) as (Ht & Eo & _ & Hc2 & Hc1 & _ & _ & _ & Eb & Em & Er).
  destruct (writeAll_ok bs1 _ _ W1) as (_ & _ & _ & _ & _ & _ & H1).
  destruct (writeAll_ok bs2 _ _ W2) as (Ec3 & _ & _ & _ & _ & _ & H2).
  assert (Hb3 : modified f3 = true /\
                buffer f3 = Some (default [] (buffer f) ++ concat bs1 ++ concat bs2)).
  { destruct bs2 as [|b2 bs2].
    - injection W2 as <-. rewrite app_nil_r in Hne.
      destruct (H1 Hne) as (_ & Hm & Hb & _).
      rewrite Em, Eb, Hm, Hb. cbn [concat]. now rewrite app_nil_r.
    - destruct (H2 ltac:(discriminate)) as (_ & Hm & Hb & _).
      split; [exact Hm|]. rewrite Hb, Eb.
      destruct bs1 as [|b1 bs1].
      + injection W1 as <-. reflexivity.
      + destruct (H1 ltac:(discriminate)) as (_ & _ & Hb1 & _).
        rewrite Hb1. cbn [default from_option id]. now rewrite <- app_assoc. }
  destruct Hb3 as [Hm3 Hb3].
  repeat split; try assumption.
  intros m r f4 m'. apply Close_flush; [congruence | exact Hb3 | exact Hm3].
Qed.

(** A handle as [OpenFile] returns it. *)
Lemma OpenFile_fresh (fs0 : FileSystem) (name : string) (flag0 perm : Z)
    (n n' : Net) (f : File) :
  OpenFile fs0 name flag0 perm n = (inr f, n') ->
  exists i,
    info f = Some i /\
    offset f = (if hasFlag flag0 O_APPEND then size i else 0) /\
    fs f = fs0 /\ path f = cleanPath fs0 name /\ flag f = flag0 /\
    buffer f = None /\ modified f = false /\ closed f = false /\
    reader f = None /\ dirInfos f = None /\ dirIndex f = 0.
Proof.
  unfold OpenFile. cbv zeta.
  assert (Hfin : forall i m,
             (inr (if hasFlag flag0 O_APPEND
                   then withOffset (mkFile fs0 (cleanPath fs0 name) flag0 0 (Some i)
                                      None false false None 0 None) (size i)
                   else mkFile fs0 (cleanPath fs0 name) flag0 0 (Some i)
                          None false false None 0 None) : error + File, m)
             = (inr f, n') ->
             exists i,
               info f = Some i /\
               offset f = (if hasFlag flag0 O_APPEND then size i else 0) /\
               fs f = fs0 /\ path f = cleanPath fs0 name /\ flag f = flag0 /\
               buffer f = None /\ modified f = false /\ closed f = false /\
               reader f = None /\ dirInfos f = None /\ dirIndex f = 0).
  { intros i m [= <- <-]. exists i. destruct (hasFlag flag0 O_APPEND); repeat split. }
  destruct (stat (client fs0) (cleanPath fs0 name) n) as [[err|i] n1].
  - destruct (negb (IsNotExist err)); [discriminate|].
    destruct (negb (hasFlag flag0 O_CREATE)); [discriminate|].
    destruct (put _ _ _ n1) as [[[e|] rest] n2]; [discriminate|].
    destruct (stat _ _ n2) as [[e|i] n3]; [discriminate|]. apply Hfin.
  - destruct (hasFlag flag0 O_CREATE && hasFlag flag0 O_EXCL); [discriminate|].
    destruct (hasFlag flag0 O_TRUNC && negb (isDir i)); [|apply Hfin].
    destruct (put _ _ _ n1) as [[[e|] rest] n2]; [discriminate|]. apply Hfin.
Qed.

(** X10: a handle opened with the append flag starts at the size of the
    file, but appending is not what [Close] does: after writes on the
    fresh handle the upload is a whole-body PUT (no [Content-Range])
    carrying the written bytes only, which replaces the remote
    content. *)
Theorem append_mode_uploads_only_new_bytes (fs0 : FileSystem) (name : string)
    (flag0 perm : Z) (n n1 : Net) (f f1 : File) (bs : list (list ascii)) :
  OpenFile fs0 name flag0 perm n = (inr f, n1) ->
  hasFlag flag0 O_APPEND = true ->
  writeAll f bs = Some f1 -> bs <> [] ->
  (exists i, info f = Some i /\ offset f = size i /\
             offset f1 = wrap64 (size i + Z.of_nat (length (concat bs)))) /\
  forall m r f2 m',
    Close f1 m = (r, f2, m') ->
    (sent m' = sent m /\ r <> None) \/
    exists req, sent m' = sent m ++ [req] /\ Method req = "PUT" /\
                Body req = Some (concat bs) /\
                Header req !! "Content-Range" = None.
Proof.
  intros Ho Ha W Hne.
  destruct (OpenFile_fresh _ _ _ _ _ _ _ Ho)
    as (i & Ei & Eo & _ & _ & _ & Eb & _ & _ & _).
  rewrite Ha in Eo.
  destruct (writeAll_ok bs _ _ W) as (_ & _ & _ & _ & _ & _ & Hw).
  destruct (Hw Hne) as (Hc & Hm & Hb & Hoff).
  rewrite Eb in Hb. cbn [default from_option id app] in Hb.
  split.
  - exists i. rewrite Hoff, Eo. repeat split; assumption.
  - intros m r f2 m'. now apply Close_flush.
Qed.

(** X11: [WriteAt] does not go through the buffer: it sends its bytes
    at once in a PUT with a [Content-Range] and leaves the handle as it
    is.  Bytes written with [Write] before it are still pending and go
    out afterwards, in the whole-body PUT of [Close]. *)
Theorem WriteAt_bypasses_buffer (f f1 f2 f3 : File) (bs : list (list ascii))
    (b : list ascii) (off k : Z) (n n1 n2 : Net) :
  writeAll f bs = Some f1 -> bs <> [] ->
  WriteAt f1 b off n = (Ok k, f2, n1) ->
  Close f2 n1 = (None, f3, n2) ->
  f2 = f1 /\ k = Z.of_nat (length b) /\
  exists req1 req2,
    sent n2 = sent n ++ [req1; req2] /\
    Method req1 = "PUT" /\ Body req1 = Some b /\
    Header req1 !! "Content-Range" = Some (contentRange off b) /\
    Method req2 = "PUT" /\ Body req2 = Some (default [] (buffer f) ++ concat bs) /\
    Header req2 !! "Content-Range" = None.
Proof.
  intros W Hne Wa C.
  destruct (writeAll_ok bs _ _ W) as (_ & _ & _ & _ & _ & _ & Hw).
  destruct (Hw Hne) as (Hc & Hm & Hb & _).
  unfold WriteAt in Wa. rewrite Hc in Wa.
  destruct (Z.land (flag f1) (Z.lor O_WRONLY O_RDWR) =? 0); [discriminate|].
  pose proof (putRange_request (client (fs f1)) (path f1) b off n) as Ht.
  destruct (putRange _ _ _ _ n) as [[err|] n']; [discriminate|].
  injection Wa as <- <- <-.
  destruct Ht as [[_ Hr]|(req1 & Es1 & Em1 & Eb1 & Eh1)]; [congruence|].
  destruct (Close_flush _ _ _ _ _ _ Hc Hb Hm C) as [[_ Hr]|(req2 & Es2 & Em2 & Eb2 & Eh2)];
    [congruence|].
  split; [reflexivity|]. split; [reflexivity|].
  exists req1, req2. rewrite Es2, Es1, <- app_assoc. repeat split; assumption.
Qed.

(** X12: after a successful [Seek] the next [Read] continues the open
    download when the offset did not change and then sends nothing;
    otherwise the download is gone and [Read] either fails before
    sending or sends one GET whose [Range] header starts at the new
    offset (no [Range] header for offset 0).  A [Read] that returns bytes
    advances the offset by their number. *)
Theorem Read_after_Seek (f f1 f2 : File) (off whence t : Z) (n n1 n2 : Net) (k : nat)
    (r : result (list ascii * option error)) :
  Seek f off whence n = (inr t, f1, n1) ->
  Read f1 k n1 = (r, f2, n2) ->
  match reader f1 with
  | Some _ => t = offset f /\ n2 = n1
  | None =>
      (sent n2 = sent n1 /\ forall d, r <> Ok d) \/
      exists req, sent n2 = sent n1 ++ [req] /\ Method req = "GET" /\
                  Body req = None /\ Header req !! "Range" = rangeHeader t
  end /\
  forall data err, r = Ok (data, err) ->
                   offset f2 = add64 t (Z.of_nat (length data)).
Proof.
  intros S R.
  destruct (Seek_ok _ _ _ _ _ _ _ S) as (_ & Eo & _ & Hc & _ & _ & _ & _ & _ & _ & Er).
  unfold Read in R. rewrite Hc in R.
  destruct (negb (Z.land (flag f1) O_WRONLY =? 0)).
  { injection R as <- <- <-. split; [|discriminate].
    destruct (reader f1); [|left; split; [reflexivity | discriminate]].
    split; [|reflexivity]. destruct (Z.eqb_spec t (offset f)); [assumption|discriminate]. }
  destruct (info f1) as [i|].
  2:{ injection R as <- <- <-. split; [|discriminate].
      destruct (reader f1); [|left; split; [reflexivity | discriminate]].
      split; [|reflexivity]. destruct (Z.eqb_spec t (offset f)); [assumption|discriminate]. }
  destruct (isDir i).
  { injection R as <- <- <-. split; [|discriminate].
    destruct (reader f1); [|left; split; [reflexivity | discriminate]].
    split; [|reflexivity]. destruct (Z.eqb_spec t (offset f)); [assumption|discriminate]. }
  destruct (reader f1) as [rd|] eqn:Erd.
  - destruct (bodyRead rd k) as [[data err] rd'].
    injection R as <- <- <-. split.
    + split; [|reflexivity]. destruct (Z.eqb_spec t (offset f)); [assumption|discriminate].
    + intros data' err' [= <- <-]. cbn [offset withOffset withReader]. now rewrite Eo.
  - pose proof (get_request (client (fs f1)) (path f1) (offset f1) n1) as Hg.
    destruct (get _ _ _ n1) as [[e|rd] n1'].
    + injection R as <- <- <-. split; [|discriminate].
      destruct Hg as [[Es _]|(req & Es & Em & Eb & Eh)].
      * left. split; [exact Es | discriminate].
      * right. exists req. rewrite Eo in Eh. repeat split; assumption.
    + destruct (bodyRead rd k) as [[data err] rd'].
      injection R as <- <- <-. split.
      * destruct Hg as [[_ (e & E)]|(req & Es & Em & Eb & Eh)]; [discriminate|].
        right. exists req. rewrite Eo in Eh. repeat split; assumption.
      * intros data' err' [= <- <-]. cbn [offset withOffset withReader]. now rewrite Eo.
Qed.

End Positions.

(** ** Whole-file helpers *)

Section WholeFile.
Context `{Externals} `{Streams} `{Runtime}.

Lemma sendsOne_list (m : string) (n n' : Net) :
  sendsOne m n n' -> exists reqs, sent n' = sent n ++ reqs.
Proof.
  intros [Es|(req & Es & _)]; [exists []; now rewrite app_nil_r | now exists [req]].
Qed.

(** [Create] that returns a handle on something that is not a
    directory has uploaded an empty body on the way. *)
Lemma Create_uploads_empty (fs0 : FileSystem) (name : string) (n n1 : Net) (f : File)
    (i : fileInfo) :
  Create fs0 name n = (inr f, n1) ->
  info f = Some i -> isDir i = false ->
  exists pre reqE,
    sent n1 = sent n ++ pre /\ In reqE pre /\
    Method reqE = "PUT" /\ Body reqE = Some [].
Proof.
  unfold Create, OpenFile. cbv zeta.
  change (hasFlag (Z.lor O_RDWR (Z.lor O_CREATE O_TRUNC)) O_CREATE) with true.
  change (hasFlag (Z.lor O_RDWR (Z.lor O_CREATE O_TRUNC)) O_EXCL) with false.
  change (hasFlag (Z.lor O_RDWR (Z.lor O_CREATE O_TRUNC)) O_TRUNC) with true.
  change (hasFlag (Z.lor O_RDWR (Z.lor O_CREATE O_TRUNC)) O_APPEND) with false.
  cbn [andb negb].
  set (p := cleanPath fs0 name).
  pose proof (stat_sendsOne (client fs0) p n) as Hs.
  destruct (stat (client fs0) p n) as [[err|i0] n0]; cbn [snd] in Hs.
  - destruct (negb (IsNotExist err)); [discriminate|].
    destruct (put (client fs0) p [] n0) as [[[e|] rest] n2] eqn:Ep; [discriminate|].
    apply put_success in Ep as (reqURL & req & resp & k & _ & _ & Es & Em & Eb & _).
    pose proof (stat_sendsOne (client fs0) p n2) as Hs2.
    destruct (stat (client fs0) p n2) as [[e|i2] n3]; [discriminate|]. cbn [snd] in Hs2.
    intros [= <- <-] _ _.
    destruct (sendsOne_list _ _ _ Hs) as (r1 & E1).
    destruct (sendsOne_list _ _ _ Hs2) as (r2 & E2).
    exists (r1 ++ [req] ++ r2), req. rewrite E2, Es, E1, <- !app_assoc.
    split; [reflexivity|]. split; [|split; assumption].
    apply in_or_app. right. now left.
  - destruct (isDir i0) eqn:Ed; cbn [negb].
    + intros [= <- <-] [= <-]. congruence.
    + destruct (put (client fs0) p [] n0) as [[[e|] rest] n2] eqn:Ep; [discriminate|].
      apply put_success in Ep as (reqURL & req & resp & k & _ & _ & Es & Em & Eb & _).
      intros [= <- <-] _ _.
      destruct (sendsOne_list _ _ _ Hs) as (r1 & E1).
      exists (r1 ++ [req]), req. rewrite Es, E1, <- app_assoc.
      split; [reflexivity|]. split; [|split; assumption].
      apply in_or_app. right. now left.
Qed.

(** X13: a [WriteFile] that succeeds has uploaded twice: an empty body
    first (the file is created or truncated on opening), and as its last
    request a whole-body PUT of exactly [data].  On an existing directory
    nothing is uploaded: the only request is the PROPFIND of the stat and
    the result is an invalid-argument error. *)
Theorem WriteFile_uploads (fs0 : FileSystem) (name : string) (data : list ascii)
    (perm : Z) (n : Net) :
  (forall n', WriteFile fs0 name data perm n = (Ok tt, n') ->
     exists pre reqE req,
       sent n' = sent n ++ pre ++ [req] /\
       In reqE pre /\ Method reqE = "PUT" /\ Body reqE = Some [] /\
       Method req = "PUT" /\ Body req = Some data /\
       Header req !! "Content-Range" = None) /\
  (forall i n1, stat (client fs0) (cleanPath fs0 name) n = (inr i, n1) ->
     isDir i = true ->
     WriteFile fs0 name data perm n
     = (Err (PathError "write" (cleanPath fs0 name) ErrInvalid), n1)).
Proof.
  split.
  - intros n'. unfold WriteFile.
    destruct (Create fs0 name n) as [[err|f] n1] eqn:Ec; [discriminate|].
    pose proof Ec as Ec'. unfold Create in Ec'.
    destruct (OpenFile_fresh _ _ _ _ _ _ _ Ec')
      as (i & Ei & _ & _ & _ & _ & Eb & Em & Ecl & _).
    destruct (Write f data) as [[k|e|msg] f1] eqn:W.
    2:{ destruct (Close f1 n1) as [[? ?] ?]. discriminate. }
    2:{ destruct (Close f1 n1) as [[? ?] ?]. discriminate. }
    assert (Hd : isDir i = false).
    { unfold Write in W. rewrite Ecl, Ei in W.
      destruct (negb _); [|discriminate]. now destruct (isDir i). }
    apply Write_ok in W as (_ & Ef1).
    assert (Hf1 : closed f1 = false /\ buffer f1 = Some data /\ modified f1 = true).
    { subst f1. cbn [closed buffer modified withModified withOffset withBuffer].
      rewrite Eb, Ecl. repeat split. }
    destruct Hf1 as (Hc1 & Hb1 & Hm1).
    destruct (Close f1 n1) as [[r f2] n2] eqn:C.
    destruct (Close f2 n2) as [[r' f3] n3] eqn:C2.
    destruct r as [e|]; [discriminate|]. intros [= <-].
    destruct (Close_closes _ _ _ _ _ C) as [Hc2 _].
    unfold Close in C2. rewrite Hc2 in C2. injection C2 as _ _ <-.
    destruct (Close_flush _ _ _ _ _ _ Hc1 Hb1 Hm1 C)
      as [[_ Hr]|(req & Es & Emeth & Ebody & Eh)]; [congruence|].
    destruct (Create_uploads_empty _ _ _ _ _ _ Ec Ei Hd) as (pre & reqE & E1 & Hin & HmE & HbE).
    exists pre, reqE, req. rewrite Es, E1, <- app_assoc. repeat split; assumption.
  - intros i n1 Es Hd. unfold WriteFile, Create, OpenFile. cbv zeta. rewrite Es.
    change (hasFlag (Z.lor O_RDWR (Z.lor O_CREATE O_TRUNC)) O_CREATE) with true.
    change (hasFlag (Z.lor O_RDWR (Z.lor O_CREATE O_TRUNC)) O_EXCL) with false.
    change (hasFlag (Z.lor O_RDWR (Z.lor O_CREATE O_TRUNC)) O_APPEND) with false.
    rewrite Hd. cbn [andb negb]. rewrite andb_false_r.
    unfold Write. cbn [closed info flag path]. rewrite Hd.
    change (negb (Z.land (Z.lor O_RDWR (Z.lor O_CREATE O_TRUNC)) (Z.lor O_WRONLY O_RDWR) =? 0))
      with true.
    cbv iota. unfold Close. reflexivity.
Qed.

(** X14: [ReadFile] stats the path.  A directory is refused with an
    invalid-argument error that carries the name as given.  A declared
    size that is negative or above the allocation limit of the run time
    makes the allocation panic, and one the system has no memory for
    stops the program; in both cases no GET is sent.  For any other
    regular file it sends one GET without a [Range] header and returns
    what a single [Read] of that many bytes returns: a short read is not
    continued. *)
Theorem ReadFile_single_read (fs0 : FileSystem) (name : string) (n n1 : Net)
    (i : fileInfo) :
  stat (client fs0) (cleanPath fs0 name) n = (inr i, n1) ->
  (isDir i = true ->
   ReadFile fs0 name n = (Err (PathError "read" name ErrInvalid), n1)) /\
  (isDir i = false -> size i < 0 \/ maxAlloc < size i ->
   ReadFile fs0 name n = (Panic "makeslice: len out of range", n1)) /\
  (isDir i = false -> 0 <= size i <= maxAlloc -> hasMemory (size i) = false ->
   ReadFile fs0 name n = (Panic "fatal error: runtime: out of memory", n1)) /\
  (isDir i = false -> 0 <= size i <= maxAlloc -> hasMemory (size i) = true ->
   forall rd n2,
     get (client fs0) (cleanPath fs0 name) 0 n1 = (inr rd, n2) ->
     (exists req, sent n2 = sent n1 ++ [req] /\ Method req = "GET" /\
                  Header req !! "Range" = None) /\
     ReadFile fs0 name n =
     (match bodyRead rd (Z.to_nat (size i)) with
      | (data, Some EOF, _) | (data, None, _) => Ok data
      | (_, Some e, _) => Err e
      end, n2)).
Proof.
  intros Es.
  assert (Eo : Open fs0 name n
               = (inr (mkFile fs0 (cleanPath fs0 name) O_RDONLY 0 (Some i)
                              None false false None 0 None), n1)).
  { unfold Open, OpenFile. cbv zeta. rewrite Es. reflexivity. }
  assert (Hin : 0 <= size i <= maxAlloc ->
                (size i <? 0) || (maxAlloc <? size i) = false).
  { intros Hs. apply orb_false_intro; [apply Z.ltb_ge | apply Z.ltb_ge]; lia. }
  split; [|split; [|split]].
  - intros Hd. unfold ReadFile. rewrite Eo. unfold OfFile.Stat. cbn [closed info].
    rewrite Hd. reflexivity.
  - intros Hd Hs. unfold ReadFile. rewrite Eo. unfold OfFile.Stat. cbn [closed info].
    rewrite Hd.
    assert ((size i <? 0) || (maxAlloc <? size i) = true) as ->.
    { apply orb_true_iff. destruct Hs as [Hs|Hs]; [left|right]; now apply Z.ltb_lt. }
    reflexivity.
  - intros Hd Hs Hm. unfold ReadFile. rewrite Eo. unfold OfFile.Stat. cbn [closed info].
    rewrite Hd, (Hin Hs), Hm. reflexivity.
  - intros Hd Hs Hm rd n2 Eg. split.
    + pose proof (get_request (client fs0) (cleanPath fs0 name) 0 n1) as Hg.
      rewrite Eg in Hg. destruct Hg as [[_ (e & E)]|(req & E1 & E2 & _ & E4)]; [discriminate|].
      exists req. repeat split; assumption.
    + unfold ReadFile. rewrite Eo. unfold OfFile.Stat. cbn [closed info].
      rewrite Hd, (Hin Hs), Hm. cbn [negb].
      unfold Read. cbn [closed flag info reader fs path offset client]. rewrite Hd.
      change (negb (Z.land O_RDONLY O_WRONLY =? 0)) with false. cbv iota.
      rewrite Eg.
      destruct (bodyRead rd (Z.to_nat (size i))) as [[data err] rd'].
      unfold Close. cbn [closed buffer withReader withOffset withClosed].
      destruct err as [[]|]; reflexivity.
Qed.

End WholeFile.

(** ** What the server's answer becomes *)

Section Answers.
Context `{Externals} `{Streams} `{Runtime}.

Lemma doRequest_answers (c : webdavClient) (pathStr : string) (status : Z) (n : Net)
    (method : string) (body : option (list ascii)) (headers : gmap string string) :
  answers c pathStr status n ->
  exists resp rest n',
    doRequest c method pathStr body headers n = (inr resp, rest, n') /\
    StatusCode resp = status.
Proof.
  intros (reqURL & u & Eb & Eu & Hdo).
  destruct (Hdo method body headers) as (resp & k & w' & Ed & Es).
  rewrite (doRequest_sends _ _ _ _ _ _ _ _ Eb Eu). cbv zeta. rewrite Ed.
  now eexists _, _, _.
Qed.

Lemma stat_not_found (c : webdavClient) (pathStr : string) (n : Net) :
  answers c pathStr 404 n ->
  exists n', stat c pathStr n = (inl (PathError "stat" pathStr ErrNotExist), n').
Proof.
  intros Ha. unfold stat, propfind. cbv zeta.
  destruct (doRequest_answers _ _ _ _ "PROPFIND" (Some (chars buildPropfindBody))
              (propfindHeaders 0) Ha) as (resp & rest & n' & -> & Es).
  rewrite Es. now exists n'.
Qed.

(** X15: when the server answers 404 for a path, every operation of the
    filesystem on that path fails with an error for which [IsNotExist]
    holds: [Stat], [OpenFile] without the create flag, [Mkdir], [Remove],
    [RemoveAll], [Rename] from it, [Chmod], [Chown], [Chdir],
    [Truncate] and [ReadFile].  [Chtimes] is the exception: it reports
    success. *)
Theorem not_found_is_not_exist (fs : FileSystem) (name : string) (n : Net) :
  answers (client fs) (cleanPath fs name) 404 n ->
  (exists e, fst (OfFS.Stat fs name n) = inl e /\ IsNotExist e = true) /\
  (forall flag perm, hasFlag flag O_CREATE = false ->
     exists e, fst (OpenFile fs name flag perm n) = inl e /\ IsNotExist e = true) /\
  (forall perm, exists e, fst (Mkdir fs name perm n) = Some e /\ IsNotExist e = true) /\
  (exists e, fst (Remove fs name n) = Some e /\ IsNotExist e = true) /\
  (exists e, fst (RemoveAll fs name n) = Some e /\ IsNotExist e = true) /\
  (forall newname u, buildURL (client fs) (cleanPath fs newname) = inr u ->
     exists e, fst (Rename fs name newname n) = Some e /\ IsNotExist e = true) /\
  (forall mode, exists e, fst (Chmod fs name mode n) = Some e /\ IsNotExist e = true) /\
  (forall uid gid, exists e, fst (Chown fs name uid gid n) = Some e /\ IsNotExist e = true) /\
  (exists e, fst (fst (Chdir fs name n)) = Some e /\ IsNotExist e = true) /\
  (exists e, fst (OfFS.Truncate fs name 0 n) = Some e /\ IsNotExist e = true) /\
  (exists e, fst (ReadFile fs name n) = Err e /\ IsNotExist e = true) /\
  (forall atime mtime, fst (Chtimes fs name atime mtime n) = None).
Proof.
  intros Ha.
  destruct (stat_not_found _ _ _ Ha) as (n1 & Es).
  assert (Hv : forall method body headers,
             exists resp rest n',
               doRequest (client fs) method (cleanPath fs name) body headers n
               = (inr resp, rest, n') /\ StatusCode resp = 404)
    by (intros; now apply doRequest_answers).
  repeat match goal with |- _ /\ _ => split end.
  - unfold OfFS.Stat. rewrite Es. eexists. split; reflexivity.
  - intros flag perm Hf. unfold OpenFile. cbv zeta. rewrite Es.
    change (IsNotExist (PathError "stat" (cleanPath fs name) ErrNotExist)) with true.
    rewrite Hf. eexists. split; reflexivity.
  - intros perm. unfold Mkdir, mkcol.
    destruct (Hv "MKCOL" None ∅) as (resp & rest & n' & -> & E). rewrite E.
    eexists. split; reflexivity.
  - unfold Remove, delete_.
    destruct (Hv "DELETE" None ∅) as (resp & rest & n' & -> & E). rewrite E.
    eexists. split; reflexivity.
  - unfold RemoveAll, delete_.
    destruct (Hv "DELETE" None ∅) as (resp & rest & n' & -> & E). rewrite E.
    eexists. split; reflexivity.
  - intros newname u Eu. unfold Rename, move. rewrite Eu.
    destruct (Hv "MOVE" None (moveHeaders u)) as (resp & rest & n' & -> & E). rewrite E.
    eexists. split; reflexivity.
  - intros mode. unfold Chmod. rewrite Es. eexists. split; reflexivity.
  - intros uid gid. unfold Chown. rewrite Es. eexists. split; reflexivity.
  - unfold Chdir. cbv zeta. rewrite Es. eexists. split; reflexivity.
  - unfold OfFS.Truncate, put. cbv zeta. cbn [Z.eqb].
    destruct (Hv "PUT" (Some []) putHeaders) as (resp & rest & n' & -> & E). rewrite E.
    eexists. split; reflexivity.
  - unfold ReadFile, Open, OpenFile. cbv zeta. rewrite Es.
    eexists. split; reflexivity.
  - intros atime mtime. unfold Chtimes, proppatch. cbv zeta.
    destruct (Hv "PROPPATCH" (Some (chars (buildProppatchBody mtime))) proppatchHeaders)
      as (resp & rest & n' & -> & E).
    now destruct (negb (StatusCode resp =? 207)).
Qed.

End Answers.

(** ** Credentials *)

Section Credentials.
Context `{Externals}.

Lemma authHeader_credentials (c : webdavClient) :
  authHeader c !! "Authorization" = credentials c.
Proof.
  unfold authHeader, credentials.
  destruct (nonEmpty (bearerToken c)); [apply lookup_singleton_eq|].
  destruct (nonEmpty (username c) || nonEmpty (password c));
    [apply lookup_singleton_eq | apply lookup_empty].
Qed.

Lemma doRequest_authorized (c : webdavClient) (method pathStr : string)
    (body : option (list ascii)) (headers : gmap string string) (n : Net) :
  headers !! "Authorization" = None ->
  authorized c n (snd (doRequest c method pathStr body headers n)).
Proof.
  intros Hh.
  pose proof (doRequest_request c method pathStr body headers n) as Ht.
  destruct (doRequest c method pathStr body headers n) as [[r rest] n']. cbn [snd].
  destruct Ht as [[Es _]|(u & Es)]; [now left|].
  right. eexists. split; [exact Es|]. cbn [Header requestOf].
  rewrite lookup_union, Hh, authHeader_credentials.
  now destruct (credentials c).
Qed.

(** X16: every verb of the protocol client sends at most one request,
    and that request carries the client's credentials in its
    [Authorization] header: the bearer token when there is one (basic
    credentials are then not sent), else the basic credentials when a
    user name or a password is set, else no such header.  No verb
    replaces the header by one of its own. *)
Theorem requests_carry_credentials (c : webdavClient) (pathStr : string) (n : Net) :
  (forall depth, authorized c n (snd (propfind c pathStr depth n))) /\
  authorized c n (snd (stat c pathStr n)) /\
  authorized c n (snd (readDir c pathStr n)) /\
  (forall offset, authorized c n (snd (get c pathStr offset n))) /\
  (forall data, authorized c n (snd (put c pathStr data n))) /\
  (forall data offset, authorized c n (snd (putRange c pathStr data offset n))) /\
  authorized c n (snd (mkcol c pathStr n)) /\
  authorized c n (snd (delete_ c pathStr n)) /\
  (forall newPath, authorized c n (snd (move c pathStr newPath n))) /\
  (forall modTime, authorized c n (snd (proppatch c pathStr modTime n))).
Proof.
  assert (Hp : forall p depth, authorized c n (snd (propfind c p depth n))).
  { intros p depth. unfold propfind. cbv zeta.
    pose proof (doRequest_authorized c "PROPFIND" p (Some (chars buildPropfindBody))
                  (propfindHeaders depth) n) as Hd.
    destruct (doRequest _ _ _ _ _ n) as [[[err|resp] rest] n']; cbn [snd] in *.
    - apply Hd. reflexivity.
    - destruct (StatusCode resp =? 404); [apply Hd; reflexivity|].
      destruct (negb (StatusCode resp =? 207)); [apply Hd; reflexivity|].
      destruct (parseMultistatus (RespBody resp)); apply Hd; reflexivity. }
  repeat match goal with |- _ /\ _ => split end.
  - apply Hp.
  - unfold stat. specialize (Hp pathStr 0).
    destruct (propfind c pathStr 0 n) as [[err|ms] n']; [exact Hp|].
    now destruct (Responses ms).
  - unfold readDir. cbv zeta. specialize (Hp (dirPath pathStr) 1).
    destruct (propfind c (dirPath pathStr) 1 n) as [[err|ms] n']; [exact Hp|].
    now destruct (Responses ms).
  - intros offset. unfold get. cbv zeta.
    set (headers := if offset >? 0 then _ else _).
    assert (Hh : headers !! "Authorization" = None)
      by (unfold headers; destruct (offset >? 0); reflexivity).
    pose proof (doRequest_authorized c "GET" pathStr None headers n Hh) as Hd.
    destruct (doRequest _ _ _ _ _ n) as [[[err|resp] rest] n']; [exact Hd|].
    now destruct (negb (StatusCode resp =? 200) && negb (StatusCode resp =? 206)).
  - intros data. unfold put. cbv zeta.
    pose proof (doRequest_authorized c "PUT" pathStr (Some data) putHeaders n eq_refl) as Hd.
    destruct (doRequest _ _ _ _ _ n) as [[[err|resp] rest] n']; [exact Hd|].
    now destruct (negb (StatusCode resp =? 201) && negb (StatusCode resp =? 204)).
  - intros data offset. unfold putRange.
    pose proof (doRequest_authorized c "PUT" pathStr (Some data)
                  (putRangeHeaders offset data) n eq_refl) as Hd.
    destruct (doRequest _ _ _ _ _ n) as [[[err|resp] rest] n']; [exact Hd|].
    now destruct (negb (StatusCode resp =? 201) && negb (StatusCode resp =? 204)).
  - unfold mkcol.
    pose proof (doRequest_authorized c "MKCOL" pathStr None ∅ n eq_refl) as Hd.
    destruct (doRequest _ _ _ _ _ n) as [[[err|resp] rest] n']; [exact Hd|].
    now destruct (negb (StatusCode resp =? 201)).
  - unfold delete_.
    pose proof (doRequest_authorized c "DELETE" pathStr None ∅ n eq_refl) as Hd.
    destruct (doRequest _ _ _ _ _ n) as [[[err|resp] rest] n']; [exact Hd|].
    now destruct (negb (StatusCode resp =? 204) && negb (StatusCode resp =? 200)).
  - intros newPath. unfold move.
    destruct (buildURL c newPath) as [err|destURL]; [now left|].
    pose proof (doRequest_authorized c "MOVE" pathStr None (moveHeaders destURL) n eq_refl)
      as Hd.
    destruct (doRequest _ _ _ _ _ n) as [[[err|resp] rest] n']; [exact Hd|].
    now destruct (negb (StatusCode resp =? 201) && negb (StatusCode resp =? 204)).
  - intros modTime. unfold proppatch. cbv zeta.
    pose proof (doRequest_authorized c "PROPPATCH" pathStr
                  (Some (chars (buildProppatchBody modTime))) proppatchHeaders n eq_refl)
      as Hd.
    destruct (doRequest _ _ _ _ _ n) as [[[err|resp] rest] n']; [exact Hd|].
    now destruct (negb (StatusCode resp =? 207)).
Qed.

End Credentials.

(** ** The server side *)

Section ServerAuth.
Context `{ServerExternals}.

Lemma recorderCalls_passes (rec : authRecorder) (cs : list call) :
  fst (recorderCalls rec cs) = List.filter isHeaderOp cs.
Proof.
  revert rec. induction cs as [|c cs IH]; intros rec; [reflexivity|].
  cbn [recorderCalls List.filter].
  destruct c; cbn [recorderCall isHeaderOp];
    match goal with |- context [recorderCalls ?R cs] =>
      specialize (IH R); destruct (recorderCalls R cs) as [out' rec2]
    end; cbn [fst] in *; now rewrite IH.
Qed.

Lemma filter_isHeaderOp (cs : list call) :
  forallb isHeaderOp (List.filter isHeaderOp cs) = true.
Proof.
  induction cs as [|c cs IH]; [reflexivity|]. cbn [List.filter].
  destruct (isHeaderOp c) eqn:E; [cbn [forallb]; now rewrite E | exact IH].
Qed.

Lemma tryProviders_spec (ps : list AuthProvider) (r : Request) :
  fst (tryProviders ps r) = existsb (fun p => fst (p r)) ps /\
  forallb isHeaderOp (snd (tryProviders ps r)) = true.
Proof.
  induction ps as [|p ps [IH1 IH2]]; [now split|].
  cbn [tryProviders existsb].
  destruct (p r) as [ok calls]. cbn [fst].
  rewrite recorderCalls_passes.
  destruct ok; cbn [orb fst snd].
  - split; [reflexivity | apply filter_isHeaderOp].
  - destruct (tryProviders ps r) as [ok' rest]. cbn [fst snd] in *.
    split; [exact IH1|]. rewrite forallb_app, filter_isHeaderOp. exact IH2.
Qed.

Lemma substring_all (s : string) : substring 0 (String.length s) s = s.
Proof. induction s as [|c s IH]; [reflexivity|]. cbn. now rewrite IH. Qed.

Lemma substring_none (s : string) : substring 0 0 s = "".
Proof. now destruct s. Qed.

(** The slicing of [BearerAuth]: the header passes the prefix test
    exactly when it is the prefix followed by a token, and the token is
    what is cut out. *)
Lemma bearer_slicing (a : string) :
  (String.length a <? String.length "Bearer ")%nat
  || negb (String.eqb (substring 0 (String.length "Bearer ") a) "Bearer ") = false <->
  a = "Bearer " +:+
      substring (String.length "Bearer ") (String.length a - String.length "Bearer ") a.
Proof.
  change (String.length "Bearer ") with 7%nat.
  destruct a as [|c1 [|c2 [|c3 [|c4 [|c5 [|c6 [|c7 t]]]]]]];
    try (split; [discriminate | intros E; cbn in E; discriminate]).
  change ((String.length (String c1 (String c2 (String c3 (String c4 (String c5
            (String c6 (String c7 t))))))) <? 7)%nat) with false.
  cbn [orb].
  cbn [substring String.length Nat.sub]. rewrite Nat.sub_0_r.
  rewrite substring_none, substring_all, negb_false_iff, String.eqb_eq.
  split.
  - intros [= -> -> -> -> -> -> ->]. reflexivity.
  - intros [= -> -> -> -> -> -> ->]. reflexivity.
Qed.

Lemma bearer_token (token : string) :
  substring (String.length "Bearer ")
    (String.length ("Bearer " +:+ token) - String.length "Bearer ") ("Bearer " +:+ token)
  = token.
Proof.
  cbv [append]. cbn [substring String.length Nat.sub]. rewrite Nat.sub_0_r.
  apply substring_all.
Qed.

Lemma BearerAuth_token (realm : string) (f : string -> bool) (r : Request)
    (token : string) :
  Header r !! "Authorization" = Some ("Bearer " +:+ token) ->
  BearerAuth realm (Some f) r
  = if f token then (true, []) else (false, sendChallenge realm).
Proof.
  intros Eh. unfold BearerAuth. rewrite Eh. cbn [default from_option id]. cbv zeta.
  assert (E : "Bearer " +:+ token
              = "Bearer " +:+ substring (String.length "Bearer ")
                  (String.length ("Bearer " +:+ token) - String.length "Bearer ")
                  ("Bearer " +:+ token)) by now rewrite bearer_token.
  apply bearer_slicing in E. rewrite E, bearer_token.
  now destruct (f token).
Qed.

(** X17: [BearerAuth] accepts a request exactly when it has a
    validator and the [Authorization] header is [Bearer ] followed by a
    token the validator accepts (the prefix is compared byte by byte, so
    another spelling of the scheme is refused).  It then leaves the
    response alone; every refusal sends the challenge. *)
Theorem BearerAuth_accepts (realm : string) (v : option (string -> bool)) (r : Request) :
  (fst (BearerAuth realm v r) = true <->
   exists f token,
     v = Some f /\ Header r !! "Authorization" = Some ("Bearer " +:+ token) /\
     f token = true) /\
  snd (BearerAuth realm v r)
  = if fst (BearerAuth realm v r) then [] else sendChallenge realm.
Proof.
  split.
  - split.
    + unfold BearerAuth. cbv zeta.
      destruct (_ || _) eqn:E; [discriminate|].
      apply bearer_slicing in E.
      destruct v as [f|]; [|discriminate].
      destruct (f _) eqn:Ef; [|discriminate]. intros _.
      eexists f, _. split; [reflexivity|]. split; [|exact Ef].
      destruct (Header r !! "Authorization") as [a|]; [|discriminate].
      cbn [default from_option id] in *. now f_equal.
    + intros (f & token & -> & Eh & Ef).
      now rewrite (BearerAuth_token realm f r token Eh), Ef.
  - unfold BearerAuth. cbv zeta.
    destruct (_ || _); [reflexivity|].
    destruct v as [f|]; [|reflexivity]. now destruct (f _).
Qed.

(** X18: [MultiAuth] accepts a request exactly when one of its
    providers does.  Through the recorders only header operations of the
    providers tried reach the response: on acceptance no status and no
    body has been written (the headers of the providers that failed
    before stay set), and on refusal these headers are followed by what
    the last provider does on the response itself, or by a plain 401
    when there is no provider. *)
Theorem MultiAuth_any (ps : list AuthProvider) (r : Request) :
  fst (MultiAuth ps r) = existsb (fun p => fst (p r)) ps /\
  exists hs,
    forallb isHeaderOp hs = true /\
    snd (MultiAuth ps r)
    = if fst (MultiAuth ps r) then hs
      else hs ++ match last ps with
                 | Some p => snd (p r)
                 | None => httpError "Unauthorized" 401
                 end.
Proof.
  destruct (tryProviders_spec ps r) as [E1 E2]. unfold MultiAuth.
  destruct (tryProviders ps r) as [ok calls]. cbn [fst snd] in *.
  destruct ok.
  - split; [exact E1|]. exists calls. now split.
  - destruct (last ps) as [p|]; (split; [exact E1|]); exists calls; now split.
Qed.

End ServerAuth.

Section ClientToServer.
Context `{Externals} `{ServerExternals}.

(** X19: client and server fit together.  Whatever request a client
    with a bearer token sends through [doRequest] (under headers that do
    not set [Authorization], as those of all verbs), a server whose
    [MultiAuth] has a [BearerAuth] accepting that token serves it: the
    handler runs, and before it only header operations reached the
    response. *)
Theorem bearer_client_is_served (c : webdavClient) (s : Server)
    (ps : list AuthProvider) (realm : string) (v : string -> bool)
    (method pathStr : string) (body : option (list ascii))
    (headers : gmap string string) (n : Net) (req : Request) :
  nonEmpty (bearerToken c) = true ->
  v (bearerToken c) = true ->
  auth s = Some (MultiAuth ps) ->
  In (BearerAuth realm (Some v)) ps ->
  headers !! "Authorization" = None ->
  sent (snd (doRequest c method pathStr body headers n)) = sent n ++ [req] ->
  served s req.
Proof.
  intros Hb Hv Ha Hin Hh Es.
  assert (Eh : Header req !! "Authorization" = Some ("Bearer " +:+ bearerToken c)).
  { destruct (doRequest_authorized c method pathStr body headers n Hh)
      as [E|(req' & E & Eh)]; rewrite E in Es.
    - rewrite <- (app_nil_r (sent n)) in Es at 1. apply app_inv_head in Es. discriminate.
    - apply app_inv_head in Es. injection Es as <-.
      rewrite Eh. unfold credentials. now rewrite Hb. }
  assert (Hok : fst (tryProviders ps req) = true).
  { rewrite (proj1 (tryProviders_spec ps req)). apply existsb_exists.
    exists (BearerAuth realm (Some v)). split; [exact Hin|].
    now rewrite (BearerAuth_token realm v req _ Eh), Hv. }
  pose proof (proj2 (tryProviders_spec ps req)) as Hhs.
  unfold served, ServeHTTP. rewrite Ha. unfold MultiAuth.
  destruct (tryProviders ps req) as [ok calls]. cbn [fst snd] in *. subst ok.
  cbn [negb]. now exists calls.
Qed.

End ClientToServer.

Section ServerNames.
Context `{Externals}.

Lemma cleanChars_trailing_slash (y : list ascii) :
  y <> [] -> GoPath.cleanChars (y ++ [slash]) = GoPath.cleanChars y.
Proof.
  destruct y as [|c rest]; [congruence|]. intros _.
  assert (Hl : forall r p out dd,
             GoPath.cleanLoop r false (p ++ [slash]) out dd
             = GoPath.cleanLoop r false p out dd).
  { intros r p out dd. rewrite !PathFacts.cleanLoop_elems.
    rewrite PathFacts.splitSlash_app, PathFacts.segLoop_app.
    now destruct (PathElems.segLoop r (PathElems.splitSlash p []) out dd). }
  change ((c :: rest) ++ [slash]) with (c :: (rest ++ [slash])).
  unfold GoPath.cleanChars. destruct (is_slash c).
  - now rewrite Hl.
  - change (c :: rest ++ [slash]) with ((c :: rest) ++ [slash]). now rewrite Hl.
Qed.

Lemma chars_str (l : list ascii) : chars (str l) = l.
Proof. apply list_ascii_of_string_of_list_ascii. Qed.

(** Cutting one trailing separator off a name of two bytes or more
    does not change what [cleanPath] makes of it. *)
Lemma cleanPath_trailing_slash (fs : FileSystem) (p : string) :
  (1 <? String.length p)%nat && GoStrings.HasSuffixSlash p = true ->
  cleanPath fs (GoStringsMore.TrimSuffixSlash p) = cleanPath fs p.
Proof.
  intros Hp. apply andb_prop in Hp as [Hlen Hs]. apply Nat.ltb_lt in Hlen.
  rewrite String_length_chars in Hlen.
  unfold GoStrings.HasSuffixSlash in Hs.
  unfold GoStringsMore.TrimSuffixSlash, GoStringsMore.trimSlashSuffix.
  destruct (rev (chars p)) as [|c r] eqn:Er; [discriminate|]. rewrite Hs.
  apply is_slash_true in Hs. subst c.
  assert (Ep : chars p = rev r ++ [slash]).
  { rewrite <- (rev_involutive (chars p)), Er. reflexivity. }
  assert (Hne : rev r <> []).
  { intros E. rewrite Ep, E in Hlen. cbn in Hlen. lia. }
  unfold cleanPath, GoPath.IsAbs, GoPath.Clean, GoPath.Join.
  cbn [map]. rewrite chars_str, Ep.
  destruct (rev r) as [|c0 y] eqn:Ey; [congruence|].
  cbn [app]. destruct (is_slash c0).
  - change (c0 :: y ++ [slash]) with ((c0 :: y) ++ [slash]).
    now rewrite cleanChars_trailing_slash.
  - unfold GoPath.joinChars. cbn [forallb length Nat.eqb andb].
    rewrite !andb_false_r.
    f_equal. f_equal. f_equal.
    destruct (chars (cwd fs)) as [|d ds]; cbn [GoPath.joinBuf].
    + change (c0 :: y ++ [slash]) with ((c0 :: y) ++ [slash]).
      now rewrite cleanChars_trailing_slash.
    + change ((d :: ds) ++ slash :: c0 :: y ++ [slash])
        with ((d :: ds) ++ (slash :: c0 :: y) ++ [slash]).
      rewrite app_assoc. rewrite cleanChars_trailing_slash; [reflexivity|].
      destruct ds; discriminate.
Qed.

(** X20: behind the adapter, this filesystem gets the names of a
    [Rename] normalised; for names that are not URLs this changes
    nothing, because the filesystem cleans the names itself: the rename
    through the adapter is the rename of the names as given. *)
Theorem normalizePath_absorbed (fs : FileSystem) (oldName newName : string) (n : Net) :
  GoStringsMore.HasPrefix oldName "http://" = false ->
  GoStringsMore.HasPrefix oldName "https://" = false ->
  GoStringsMore.HasPrefix newName "http://" = false ->
  GoStringsMore.HasPrefix newName "https://" = false ->
  ServerFileSystem.Rename (fun o p => Rename fs o p n) oldName newName
  = Rename fs oldName newName n.
Proof.
  intros O1 O2 N1 N2.
  assert (Hn : forall p, GoStringsMore.HasPrefix p "http://" = false ->
                         GoStringsMore.HasPrefix p "https://" = false ->
                         cleanPath fs (normalizePath p) = cleanPath fs p).
  { intros p P1 P2. unfold normalizePath. rewrite P1, P2. cbn [orb]. cbv zeta.
    destruct ((1 <? String.length p)%nat && GoStrings.HasSuffixSlash p) eqn:E;
      [now apply cleanPath_trailing_slash | reflexivity]. }
  unfold ServerFileSystem.Rename, Rename.
  now rewrite (Hn _ O1 O2), (Hn _ N1 N2).
Qed.

End ServerNames.

(** ** A filesystem from [New] *)

Section Session.
Context `{Externals}.

Lemma HasSuffixSlash_app (s : string) : GoStrings.HasSuffixSlash (s +:+ "/") = true.
Proof.
  unfold GoStrings.HasSuffixSlash. rewrite chars_app, rev_app_distr. reflexivity.
Qed.

Lemma chdirs_rooted (dirs : list string) :
  forall fs n, rootedClean (cwd fs) -> rootedClean (cwd (fst (chdirs fs dirs n))).
Proof.
  induction dirs as [|d dirs IH]; intros fs n Hr; [exact Hr|].
  cbn [chdirs]. unfold Chdir. cbv zeta.
  destruct (stat (client fs) (cleanPath fs d) n) as [[err|info] n']; [now apply IH|].
  destruct (negb (isDir info)); [now apply IH|].
  apply IH. cbn [cwd]. apply cleanPath_rootedClean. right. now apply rootedClean_IsAbs.
Qed.

(** X21: what [New] guarantees.  A filesystem it returns has a base
    path that ends with a separator, a temporary directory that is not
    empty, and never both a bearer token and basic credentials (so the
    [Authorization] header drops none of what was configured); its
    working directory is the root, and stays a rooted clean path whatever
    sequence of [Chdir] calls follows. *)
Theorem New_guarantees (c : Settings) (fs : FileSystem) (c' : option Settings) :
  New (Some c) = (inr fs, c') ->
  GoStrings.HasSuffixSlash (url.Path (baseURL (client fs))) = true /\
  tempDir fs <> "" /\
  (nonEmpty (bearerToken (client fs)) = true ->
   username (client fs) = "" /\ password (client fs) = "") /\
  cwd fs = "/" /\
  forall dirs n, rootedClean (cwd (fst (chdirs fs dirs n))).
Proof.
  unfold New. set (d := setDefaults c).
  destruct (validate (config d)) as [err|] eqn:Ev; [discriminate|].
  destruct (newWebDAVClient (config d)) as [err|cl] eqn:En; [discriminate|].
  intros [= <- <-]. cbn [client tempDir cwd].
  split; [|split; [|split; [|split]]].
  - unfold newWebDAVClient in En.
    destruct (urlParse (URL (config d))) as [err|u]; [discriminate|].
    injection En as <-. cbn [baseURL].
    destruct (GoStrings.HasSuffixSlash (url.Path u)) eqn:Es; cbn [negb].
    + exact Es.
    + cbn [setPath url.Path]. apply HasSuffixSlash_app.
  - unfold d, setDefaults. cbn [config TempDir].
    destruct (String.eqb_spec (TempDir (config c)) ""); [discriminate | assumption].
  - unfold newWebDAVClient in En.
    destruct (urlParse (URL (config d))) as [err|u]; [discriminate|].
    injection En as <-. cbn [bearerToken username password].
    unfold validate in Ev.
    destruct (String.eqb (URL (config d)) ""); [discriminate|].
    intros Hb. change (nonEmpty (BearerToken (config d)) = true) in Hb.
    rewrite Hb in Ev. cbn [andb] in Ev.
    destruct (nonEmpty (Username (config d)) || nonEmpty (Password (config d))) eqn:E;
      [discriminate|].
    apply orb_false_elim in E as [Eu Ep]. unfold nonEmpty in Eu, Ep.
    apply negb_false_iff in Eu, Ep. apply String.eqb_eq in Eu, Ep.
    split; [exact Eu | exact Ep].
  - reflexivity.
  - intros dirs n. apply chdirs_rooted. cbn [cwd]. exists []. now split.
Qed.

(** ** Listings *)

Lemma readDirLoop_all (now : Time) (pathStr : string) (rs : list response) :
  forall acc : option (list fileInfo),
  exists infos,
    Forall2 (fun r i => parseFileInfo now r pathStr = inr i) rs infos /\
    readDirLoop now pathStr rs acc
    = match rs, acc with
      | [], _ => acc
      | _, Some l => Some (l ++ infos)
      | _, None => Some infos
      end.
Proof.
  induction rs as [|r rs IH]; intros acc.
  - exists []. split; [constructor | reflexivity].
  - cbn [readDirLoop].
    assert (Ei : exists i, parseFileInfo now r pathStr = inr i)
      by (unfold parseFileInfo; eauto).
    destruct Ei as (i & Ei). rewrite Ei.
    destruct (IH (Some match acc with Some l => l ++ [i] | None => [i] end))
      as (infos & Hall & E).
    exists (i :: infos). split; [now constructor|]. rewrite E.
    destruct rs as [|r' rs'].
    + inversion Hall; subst. now destruct acc.
    + destruct acc as [l|]; [now rewrite <- app_assoc | reflexivity].
Qed.

(** X22: [readDir] drops the first response of the listing, whatever
    it is, and lists every other one, in order: no entry is skipped,
    because [parseFileInfo] never fails.  With nothing after the first
    response the result is the nil slice. *)
Theorem readDir_lists_all (c : webdavClient) (pathStr : string) (n n' : Net)
    (ms : multistatus) (r0 : response) (rest : list response) :
  propfind c (dirPath pathStr) 1 n = (inr ms, n') ->
  Responses ms = r0 :: rest ->
  exists infos,
    readDir c pathStr n = (inr (if rest is [] then None else Some infos), n') /\
    Forall2 (fun r i => parseFileInfo (timeNow (world n')) r (dirPath pathStr) = inr i)
            rest infos.
Proof.
  intros Ep Er. unfold readDir. cbv zeta. rewrite Ep, Er.
  destruct (readDirLoop_all (timeNow (world n')) (dirPath pathStr) rest None)
    as (infos & Hall & E).
  exists infos. split; [|exact Hall]. rewrite E. now destruct rest.
Qed.

End Session.

(** ** The properties above on the test bed *)

Lemma Chdir_keeps_cwd_clean_witness :
  rootedClean (cwd Testbed.davFS) /\
  exists fs' n',
    Chdir (H := Testbed.bed) Testbed.davFS "docs/../docs/"
      (Testbed.start [Testbed.reply 207 ("D/docs" +:+ Testbed.nl)]) = (None, fs', n') /\
    cwd fs' = "/docs" /\ rootedClean (cwd fs').
Proof.
  assert (Hr : rootedClean (cwd Testbed.davFS)) by (exists []; split; reflexivity).
  split; [exact Hr|].
  pose proof (Chdir_keeps_cwd_clean (H := Testbed.bed) Testbed.davFS "docs/../docs/"
                (Testbed.start [Testbed.reply 207 ("D/docs" +:+ Testbed.nl)]) Hr) as T.
  eassert (E : Chdir (H := Testbed.bed) Testbed.davFS "docs/../docs/"
                 (Testbed.start [Testbed.reply 207 ("D/docs" +:+ Testbed.nl)])
               = (None, _, _)) by (vm_compute; reflexivity).
  rewrite E in T. destruct T as (Hc & _ & Ecwd & _).
  eexists _, _. split; [exact E|]. split; [exact Ecwd | exact Hc].
Defined.

Lemma MkdirAll_terminates_witness :
  GoPath.IsAbs (cwd Testbed.davFS) = true /\
  exists r, forall fuel,
      (String.length (cleanPath Testbed.davFS "a/b") < fuel)%nat ->
      MkdirAll (H := Testbed.bed) fuel Testbed.davFS "a/b" 493
        (Testbed.start [Testbed.reply 404 ""; Testbed.reply 404 "";
                        Testbed.reply 201 ""; Testbed.reply 201 ""]) = Some r.
Proof.
  split; [reflexivity|].
  apply (MkdirAll_terminates (H := Testbed.bed) Testbed.davFS "a/b" 493).
  right. reflexivity.
Defined.

Lemma MkdirAll_requests_witness :
  exists n',
    MkdirAll (H := Testbed.bed) 5 Testbed.davFS "a/b" 493
      (Testbed.start [Testbed.reply 404 ""; Testbed.reply 404 "";
                      Testbed.reply 201 ""; Testbed.reply 201 ""]) = Some (None, n') /\
    map Method (sent n') = ["PROPFIND"; "PROPFIND"; "MKCOL"; "MKCOL"] /\
    sendsOnly (H := Testbed.bed) ["PROPFIND"; "MKCOL"]
      (Testbed.start [Testbed.reply 404 ""; Testbed.reply 404 "";
                      Testbed.reply 201 ""; Testbed.reply 201 ""]) n'.
Proof.
  eassert (E : MkdirAll (H := Testbed.bed) 5 Testbed.davFS "a/b" 493
                 (Testbed.start [Testbed.reply 404 ""; Testbed.reply 404 "";
                                 Testbed.reply 201 ""; Testbed.reply 201 ""])
               = Some (None, _)) by (vm_compute; reflexivity).
  eexists. split; [exact E|]. split; [reflexivity|].
  exact (proj1 (MkdirAll_requests (H := Testbed.bed) _ _ _ _ _ _ _ E)).
Defined.

Lemma closed_handle_refuses_witness :
  let f := TestbedStreams.handle "/a.txt" O_RDWR 0 in
  exists f',
    Close (H := Testbed.bed) f (Testbed.start []) = (None, f', Testbed.start []) /\
    Close (H := Testbed.bed) f' (Testbed.start []) = (None, f', Testbed.start []) /\
    Write f' (chars "y") = (Err (FileClosedError "/a.txt"), f') /\
    Read (H := Testbed.bed) (H0 := TestbedStreams.body) f' 4 (Testbed.start [])
    = (Err (FileClosedError "/a.txt"), f', Testbed.start []).
Proof.
  intros f.
  eassert (C : Close (H := Testbed.bed) f (Testbed.start []) = (None, _, Testbed.start []))
    by (vm_compute; reflexivity).
  destruct (closed_handle_refuses (H := Testbed.bed) (H0 := TestbedStreams.body)
              _ _ _ _ _ C (Testbed.start []))
    as (C2 & W & _ & _ & _ & _ & _ & R & _).
  eexists. split; [exact C|].
  split; [exact C2|]. split; [exact (W (chars "y")) | exact (R 4%nat)].
Defined.

Lemma writes_flushed_on_Close_witness :
  let f := TestbedStreams.handle "/a.txt" O_RDWR 0 in
  exists f' f'' n' req,
    writeAll f [chars "hello"; chars "world"] = Some f' /\
    offset f' = 10 /\
    Close (H := Testbed.bed) f' (Testbed.start [Testbed.reply 201 ""]) = (None, f'', n') /\
    sent n' = [req] /\ Body req = Some (chars "helloworld").
Proof.
  intros f.
  eassert (W : writeAll f [chars "hello"; chars "world"] = Some _)
    by (vm_compute; reflexivity).
  destruct (writes_flushed_on_Close (H := Testbed.bed) _ _ _ W ltac:(discriminate))
    as [Ho Hcl].
  match type of W with _ = Some ?f1 =>
    eassert (C : Close (H := Testbed.bed) f1 (Testbed.start [Testbed.reply 201 ""])
                 = (None, _, _)) by (vm_compute; reflexivity)
  end.
  destruct (Hcl _ _ _ _ C) as [[_ Hr]|(req & Es & _ & Eb)]; [congruence|].
  eexists _, _, _, req. split; [exact W|]. split; [exact Ho|].
  split; [exact C|]. split; [exact Es | exact Eb].
Defined.

Lemma Truncate_resets_buffer_witness :
  let f := withOffset (withBuffer (TestbedStreams.handle "/a.txt" O_RDWR 0)
                         (Some (chars "old"))) 3 in
  OfFile.Truncate f 5 = (Some (PathError "truncate" "/a.txt" ErrInvalid), f) /\
  exists f0, OfFile.Truncate f 0 = (None, f0) /\ offset f0 = 3 /\
             buffer f0 = Some [].
Proof.
  intros f.
  destruct (Truncate_resets_buffer (H := Testbed.bed) f eq_refl
              ltac:(vm_compute; discriminate)) as (T1 & f0 & T2 & Eo & _).
  split; [exact (T1 5 ltac:(lia))|].
  exists f0. split; [exact T2|]. split; [exact Eo|].
  injection T2 as <-. reflexivity.
Defined.

Lemma Sync_leaves_nothing_pending_witness :
  let f := withModified (withBuffer (TestbedStreams.handle "/a.txt" O_RDWR 0)
                           (Some (chars "x"))) true in
  exists f' n' f'',
    Sync (H := Testbed.bed) f (Testbed.start [Testbed.reply 204 ""]) = (None, f', n') /\
    Sync (H := Testbed.bed) f' n' = (None, f', n') /\
    Close (H := Testbed.bed) f' n' = (None, f'', n').
Proof.
  intros f.
  eassert (S : Sync (H := Testbed.bed) f (Testbed.start [Testbed.reply 204 ""])
               = (None, _, _)) by (vm_compute; reflexivity).
  match type of S with _ = (_, _, ?n1) =>
    destruct (Sync_leaves_nothing_pending (H := Testbed.bed) _ _ _ _ S n1)
      as (S2 & f'' & C & _)
  end.
  eexists _, _, f''. split; [exact S|]. split; [exact S2 | exact C].
Defined.

Lemma Seek_does_not_move_writes_witness :
  let f := TestbedStreams.handle "/a.txt" O_RDWR 0 in
  exists f1 f2 f3 f4 m' req,
    writeAll f [chars "abc"] = Some f1 /\
    Seek (H := Testbed.bed) f1 0 SeekStart (Testbed.start []) = (inr 0, f2, Testbed.start []) /\
    writeAll f2 [chars "Z"] = Some f3 /\
    Close (H := Testbed.bed) f3 (Testbed.start [Testbed.reply 201 ""]) = (None, f4, m') /\
    sent m' = [req] /\ Body req = Some (chars "abcZ").
Proof.
  intros f.
  eassert (W1 : writeAll f [chars "abc"] = Some _) by (vm_compute; reflexivity).
  match type of W1 with _ = Some ?f1 =>
    eassert (S : Seek (H := Testbed.bed) f1 0 SeekStart (Testbed.start [])
                 = (inr 0, _, Testbed.start [])) by (vm_compute; reflexivity)
  end.
  match type of S with _ = (_, ?f2, _) =>
    eassert (W2 : writeAll f2 [chars "Z"] = Some _) by (vm_compute; reflexivity)
  end.
  match type of W2 with _ = Some ?f3 =>
    eassert (C : Close (H := Testbed.bed) f3 (Testbed.start [Testbed.reply 201 ""])
                 = (None, _, _)) by (vm_compute; reflexivity)
  end.
  destruct (Seek_does_not_move_writes (H := Testbed.bed)
              _ _ _ _ _ _ _ _ _ _ _ W1 S W2 ltac:(discriminate))
    as (_ & _ & _ & _ & Hcl).
  destruct (Hcl _ _ _ _ C) as [[_ Hr]|(req & Es & _ & Eb & _)]; [congruence|].
  eexists _, _, _, _, _, req.
  split; [exact W1|]. split; [exact S|]. split; [exact W2|]. split; [exact C|].
  split; [exact Es | exact Eb].
Defined.

Lemma append_mode_uploads_only_new_bytes_witness :
  exists f n1 f1 f2 m' req,
    OpenFile (H := Testbed.bed) Testbed.davFS "/log.txt" (Z.lor O_WRONLY O_APPEND) 0
      (Testbed.start [Testbed.reply 207 ("F/log.txt" +:+ Testbed.nl)]) = (inr f, n1) /\
    writeAll f [chars "more"] = Some f1 /\
    Close (H := Testbed.bed) f1 (Testbed.start [Testbed.reply 204 ""]) = (None, f2, m') /\
    sent m' = [req] /\ Body req = Some (chars "more") /\
    Header req !! "Content-Range" = None.
Proof.
  eassert (O : OpenFile (H := Testbed.bed) Testbed.davFS "/log.txt"
                 (Z.lor O_WRONLY O_APPEND) 0
                 (Testbed.start [Testbed.reply 207 ("F/log.txt" +:+ Testbed.nl)])
               = (inr _, _)) by (vm_compute; reflexivity).
  match type of O with _ = (inr ?f, _) =>
    eassert (W : writeAll f [chars "more"] = Some _) by (vm_compute; reflexivity)
  end.
  match type of W with _ = Some ?f1 =>
    eassert (C : Close (H := Testbed.bed) f1 (Testbed.start [Testbed.reply 204 ""])
                 = (None, _, _)) by (vm_compute; reflexivity)
  end.
  destruct (append_mode_uploads_only_new_bytes (H := Testbed.bed)
              _ _ _ _ _ _ _ _ _
              O eq_refl W ltac:(discriminate)) as [_ Hcl].
  destruct (Hcl _ _ _ _ C) as [[_ Hr]|(req & Es & _ & Eb & Eh)]; [congruence|].
  eexists _, _, _, _, _, req.
  split; [exact O|]. split; [exact W|]. split; [exact C|].
  split; [exact Es|]. split; [exact Eb | exact Eh].
Defined.

Lemma WriteAt_bypasses_buffer_witness :
  let f := TestbedStreams.handle "/a.txt" O_RDWR 0 in
  exists f1 n1 f3 n2 req1 req2,
    writeAll f [chars "abc"] = Some f1 /\
    WriteAt (H := Testbed.bed) f1 (chars "XY") 10
      (Testbed.start [Testbed.reply 204 ""; Testbed.reply 201 ""]) = (Ok 2, f1, n1) /\
    Close (H := Testbed.bed) f1 n1 = (None, f3, n2) /\
    sent n2 = [req1; req2] /\
    Body req1 = Some (chars "XY") /\
    Header req1 !! "Content-Range" = Some "bytes 10-11/*" /\
    Body req2 = Some (chars "abc").
Proof.
  intros f.
  eassert (W : writeAll f [chars "abc"] = Some _) by (vm_compute; reflexivity).
  match type of W with _ = Some ?f1 =>
    eassert (Wa : WriteAt (H := Testbed.bed) f1 (chars "XY") 10
                    (Testbed.start [Testbed.reply 204 ""; Testbed.reply 201 ""])
                  = (Ok 2, f1, _)) by (vm_compute; reflexivity)
  end.
  match type of Wa with _ = (_, ?f1, ?n1) =>
    eassert (C : Close (H := Testbed.bed) f1 n1 = (None, _, _)) by (vm_compute; reflexivity)
  end.
  destruct (WriteAt_bypasses_buffer (H := Testbed.bed)
              _ _ _ _ _ _ _ _ _ _ _ W ltac:(discriminate) Wa C)
    as (_ & _ & req1 & req2 & Es & _ & Eb1 & Eh1 & _ & Eb2 & _).
  eexists _, _, _, _, req1, req2.
  split; [exact W|]. split; [exact Wa|]. split; [exact C|]. split; [exact Es|].
  split; [exact Eb1|]. split; [exact Eh1 | exact Eb2].
Defined.

Lemma Read_after_Seek_witness :
  let f := TestbedStreams.handle "/a.txt" O_RDONLY 10 in
  exists f1 f2 n2 req,
    Seek (H := Testbed.bed) f 4 SeekStart (Testbed.start [Testbed.reply 206 "efghij"])
    = (inr 4, f1, Testbed.start [Testbed.reply 206 "efghij"]) /\
    Read (H := Testbed.bed) (H0 := TestbedStreams.body) f1 3
      (Testbed.start [Testbed.reply 206 "efghij"])
    = (Ok (chars "efg", None), f2, n2) /\
    sent n2 = [req] /\ Method req = "GET" /\
    Header req !! "Range" = Some "bytes=4-" /\
    offset f2 = 7.
Proof.
  intros f.
  eassert (S : Seek (H := Testbed.bed) f 4 SeekStart
                 (Testbed.start [Testbed.reply 206 "efghij"])
               = (inr 4, _, Testbed.start [Testbed.reply 206 "efghij"]))
    by (vm_compute; reflexivity).
  match type of S with _ = (_, ?f1, _) =>
    eassert (R : Read (H := Testbed.bed) (H0 := TestbedStreams.body) f1 3
                   (Testbed.start [Testbed.reply 206 "efghij"])
                 = (Ok (chars "efg", None), _, _)) by (vm_compute; reflexivity)
  end.
  destruct (Read_after_Seek (H := Testbed.bed) (H0 := TestbedStreams.body)
              _ _ _ _ _ _ _ _ _ _ _ S R) as [T1 T2].
  destruct T1 as [[_ Hn]|(req & Es & Em & _ & Eh)]; [exfalso; exact (Hn _ eq_refl)|].
  eexists _, _, _, req.
  split; [exact S|]. split; [exact R|]. split; [exact Es|]. split; [exact Em|].
  split; [exact Eh|]. exact (T2 _ _ eq_refl).
Defined.

Lemma WriteFile_uploads_witness :
  exists n' reqE req,
    WriteFile (H := Testbed.bed) Testbed.davFS "new.txt"
      (chars "hi") 420
      (Testbed.start [Testbed.reply 404 ""; Testbed.reply 201 "";
                      Testbed.reply 207 ("F/new.txt" +:+ Testbed.nl);
                      Testbed.reply 201 ""]) = (Ok tt, n') /\
    map Method (sent n') = ["PROPFIND"; "PUT"; "PROPFIND"; "PUT"] /\
    In reqE (sent n') /\ Body reqE = Some [] /\
    last (sent n') = Some req /\ Body req = Some (chars "hi").
Proof.
  eassert (E : WriteFile (H := Testbed.bed) Testbed.davFS
                 "new.txt" (chars "hi") 420
                 (Testbed.start [Testbed.reply 404 ""; Testbed.reply 201 "";
                                 Testbed.reply 207 ("F/new.txt" +:+ Testbed.nl);
                                 Testbed.reply 201 ""]) = (Ok tt, _))
    by (vm_compute; reflexivity).
  destruct (proj1 (WriteFile_uploads (H := Testbed.bed)
                     _ _ _ _ _) _ E)
    as (pre & reqE & req & Es & Hin & _ & HbE & _ & Hb & _).
  eexists _, reqE, req. split; [exact E|]. split; [reflexivity|].
  split; [rewrite Es; apply in_or_app; right; apply in_or_app; left; exact Hin|].
  split; [exact HbE|]. split; [|exact Hb].
  rewrite Es, app_assoc. apply last_snoc.
Defined.

Lemma ReadFile_single_read_witness :
  (exists n',
     ReadFile (H := Testbed.bed) (H0 := TestbedStreams.body) (H1 := TestbedStreams.runtime)
       Testbed.davFS "docs"
       (Testbed.start [Testbed.reply 207 ("D/docs" +:+ Testbed.nl)])
     = (Err (PathError "read" "docs" ErrInvalid), n')) /\
  (exists n',
     ReadFile (H := Testbed.sized "5") (H0 := TestbedStreams.body)
       (H1 := TestbedStreams.runtime) Testbed.davFS "a.txt"
       (Testbed.startSized "5" [Testbed.reply 207 ("F/a.txt" +:+ Testbed.nl);
                                Testbed.reply 200 "hello world"])
     = (Ok (chars "hello"), n') /\
     map Method (sent n') = ["PROPFIND"; "GET"]) /\
  (exists n',
     ReadFile (H := Testbed.sized "4611686018427387904") (H0 := TestbedStreams.body)
       (H1 := TestbedStreams.runtime) Testbed.davFS "a.txt"
       (Testbed.startSized "4611686018427387904"
          [Testbed.reply 207 ("F/a.txt" +:+ Testbed.nl); Testbed.reply 200 "hello"])
     = (Panic "makeslice: len out of range", n') /\
     map Method (sent n') = ["PROPFIND"]).
Proof.
  split; [|split].
  - eassert (Es : stat (H := Testbed.bed) (client Testbed.davFS)
                    (cleanPath Testbed.davFS "docs")
                    (Testbed.start [Testbed.reply 207 ("D/docs" +:+ Testbed.nl)])
                  = (inr _, _)) by (vm_compute; reflexivity).
    eexists.
    exact (proj1 (ReadFile_single_read (H := Testbed.bed) (H0 := TestbedStreams.body)
                    (H1 := TestbedStreams.runtime) _ _ _ _ _ Es) eq_refl).
  - eassert (Es : stat (H := Testbed.sized "5") (client Testbed.davFS)
                    (cleanPath Testbed.davFS "a.txt")
                    (Testbed.startSized "5"
                       [Testbed.reply 207 ("F/a.txt" +:+ Testbed.nl);
                        Testbed.reply 200 "hello world"])
                  = (inr _, _)) by (vm_compute; reflexivity).
    match type of Es with _ = (_, ?y) => set (N1 := y) in * end.
    eassert (Eg : get (H := Testbed.sized "5") (client Testbed.davFS)
                    (cleanPath Testbed.davFS "a.txt") 0 N1 = (inr _, _))
      by (vm_compute; reflexivity).
    match type of Eg with _ = (_, ?y) => set (N2 := y) in * end.
    destruct (proj2 (proj2 (proj2 (ReadFile_single_read (H := Testbed.sized "5")
                                     (H0 := TestbedStreams.body)
                                     (H1 := TestbedStreams.runtime) _ _ _ _ _ Es)))
                eq_refl ltac:(vm_compute; split; discriminate) eq_refl _ _ Eg) as [_ E].
    exists N2. split; [exact E | reflexivity].
  - eassert (Es : stat (H := Testbed.sized "4611686018427387904") (client Testbed.davFS)
                    (cleanPath Testbed.davFS "a.txt")
                    (Testbed.startSized "4611686018427387904"
                       [Testbed.reply 207 ("F/a.txt" +:+ Testbed.nl);
                        Testbed.reply 200 "hello"])
                  = (inr _, _)) by (vm_compute; reflexivity).
    match type of Es with _ = (_, ?y) => set (N1 := y) in * end.
    exists N1. split; [|reflexivity].
    exact (proj1 (proj2 (ReadFile_single_read (H := Testbed.sized "4611686018427387904")
                           (H0 := TestbedStreams.body)
                           (H1 := TestbedStreams.runtime) _ _ _ _ _ Es))
             eq_refl (or_intror eq_refl)).
Defined.

Lemma not_found_is_not_exist_witness :
  answers (H := Testbed.bed) Testbed.davClient (cleanPath Testbed.davFS "gone.txt") 404
    (Testbed.start [Testbed.reply 404 ""]) /\
  exists e,
    fst (Remove (H := Testbed.bed) Testbed.davFS "gone.txt"
           (Testbed.start [Testbed.reply 404 ""])) = Some e /\
    IsNotExist e = true.
Proof.
  assert (Ha : answers (H := Testbed.bed) (client Testbed.davFS)
                 (cleanPath Testbed.davFS "gone.txt") 404
                 (Testbed.start [Testbed.reply 404 ""])).
  { eexists _, _. split; [vm_compute; reflexivity|]. split; [vm_compute; reflexivity|].
    intros method body headers. eexists _, _, _. split; reflexivity. }
  split; [exact Ha|].
  exact (proj1 (proj2 (proj2 (proj2
           (not_found_is_not_exist (H := Testbed.bed) (H0 := TestbedStreams.body)
              (H1 := TestbedStreams.runtime)
              Testbed.davFS "gone.txt" _ Ha))))).
Defined.

Lemma bearer_client_is_served_witness :
  exists req,
    sent (snd (doRequest (H := Testbed.bed) TestbedServer.bearerClient "GET" "/a.txt"
                 None ∅ (Testbed.start [Testbed.reply 200 "x"]))) = [req] /\
    Header req !! "Authorization" = Some "Bearer s3cret" /\
    served (H := TestbedServer.lib) TestbedServer.server req.
Proof.
  eassert (E : sent (snd (doRequest (H := Testbed.bed) TestbedServer.bearerClient "GET"
                            "/a.txt" None ∅ (Testbed.start [Testbed.reply 200 "x"])))
               = sent (Testbed.start [Testbed.reply 200 "x"]) ++ [_])
    by (vm_compute; reflexivity).
  eexists. split; [exact E|]. split; [vm_compute; reflexivity|].
  apply (bearer_client_is_served (H := Testbed.bed) (H0 := TestbedServer.lib)
           TestbedServer.bearerClient TestbedServer.server
           [BasicAuth "files" None; BearerAuth "" (Some (String.eqb "s3cret"))]
           "" (String.eqb "s3cret") "GET" "/a.txt" None ∅
           (Testbed.start [Testbed.reply 200 "x"]) _
           eq_refl eq_refl eq_refl (or_intror (or_introl eq_refl))
           (lookup_empty _) E).
Defined.

Lemma normalizePath_absorbed_witness :
  normalizePath (H := Testbed.bed) "/b/c/" = "/b/c" /\
  ServerFileSystem.Rename (H := Testbed.bed)
    (fun o p => Rename (H := Testbed.bed) Testbed.davFS o p
                  (Testbed.start [Testbed.reply 201 ""])) "/a/" "/b/c/"
  = Rename (H := Testbed.bed) Testbed.davFS "/a/" "/b/c/"
      (Testbed.start [Testbed.reply 201 ""]).
Proof.
  split; [reflexivity|].
  apply (normalizePath_absorbed (H := Testbed.bed) Testbed.davFS "/a/" "/b/c/" _
           eq_refl eq_refl eq_refl eq_refl).
Defined.

Lemma New_guarantees_witness :
  exists fs c',
    New (H := Testbed.bed)
      (Some {| config := mkConfig "http://example.com/dav" "" "" "tok" 0 "";
               HTTPClient := None |}) = (inr fs, c') /\
    url.Path (baseURL (client fs)) = "http://example.com/dav/" /\
    tempDir fs = "/tmp" /\
    rootedClean
      (cwd (fst (chdirs (H := Testbed.bed) fs ["docs"; "../x"]
                   (Testbed.start [Testbed.reply 207 ("D/docs" +:+ Testbed.nl)])))).
Proof.
  eassert (E : New (H := Testbed.bed)
                 (Some {| config := mkConfig "http://example.com/dav" "" "" "tok" 0 "";
                          HTTPClient := None |}) = (inr _, _))
    by (vm_compute; reflexivity).
  destruct (New_guarantees (H := Testbed.bed) _ _ _ E) as (_ & _ & _ & _ & Hc).
  eexists _, _. split; [exact E|]. split; [reflexivity|]. split; [reflexivity|].
  apply Hc.
Defined.

Lemma readDir_lists_all_witness :
  exists infos n',
    readDir (H := Testbed.bed) Testbed.davClient "/dir"
      (Testbed.start [Testbed.reply 207
         ("D/dir/" +:+ Testbed.nl +:+ "F/dir/a.txt" +:+ Testbed.nl +:+
          "D/dir/sub/" +:+ Testbed.nl)])
    = (inr (Some infos), n') /\
    length infos = 2%nat.
Proof.
  eassert (Ep : propfind (H := Testbed.bed) Testbed.davClient (dirPath "/dir") 1
                  (Testbed.start [Testbed.reply 207
                     ("D/dir/" +:+ Testbed.nl +:+ "F/dir/a.txt" +:+ Testbed.nl +:+
                      "D/dir/sub/" +:+ Testbed.nl)])
                = (inr {| Responses := [_; _; _] |}, _))
    by (vm_compute; reflexivity).
  destruct (readDir_lists_all (H := Testbed.bed) _ _ _ _ _ _ _ Ep eq_refl)
    as (infos & E & Hall).
  exists infos. eexists. split; [exact E|].
  apply Forall2_length in Hall. symmetry. exact Hall.
Defined.
